(** * The migration versioning and rollback engine of the Supabase/Coolify
      MCP server, embedded in Rocq.

    The engine is the [SupabaseManager] class of supabase-client.ts (its
    migration methods, [executeSQL] and [handleError]) together with the
    tool handlers of tools/supabase-tools.ts, the CallTool handler of
    index.ts and the Zod schemas of validation.ts.  The TypeScript methods
    are asynchronous and talk to three external collaborators: the
    PostgREST client ([this.client]), the Axios admin client
    ([this.adminClient]) and the wall clock ([new Date()]).
    The embedding threads an explicit [World] (the two database tables, the
    log of every network call, the number of clock readings) through a small
    state-and-exception monad; the collaborators' answers come from an [Env]
    (an oracle for the clock, for transport faults and for the effect of a
    SQL payload on the two tables).

    Around the engine the development covers the service probes of the
    manager ([getVersion], [checkHealth]), the health checker of
    health-check.ts, the resource handlers of resources.ts, and the Coolify
    client with the deployment tools of tools/deployment-tools.ts.  Their
    other collaborators are parameters of the sections that embed them; the
    Coolify client has a world of its own, the log of its requests and the
    random values drawn so far. *)

From Stdlib Require Import ZArith List String Ascii Bool Lia DecimalString Sorted.
Import ListNotations.

Local Open Scope string_scope.
Local Open Scope Z_scope.

(* ================================================================== *)
(** ** JavaScript values used by the engine *)

Module Js.

(** Truthiness of a string: the empty string is falsy, every other truthy. *)
Definition truthy (s : string) : bool :=
  match s with EmptyString => false | String _ _ => true end.


(** [a || b] on an optional string and a default. *)
Definition orElse (o : option string) (dflt : string) : string :=
  match o with
  | Some s => if truthy s then s else dflt
  | None => dflt
  end.

(** [s.replace(/[...]/g, '')]: drop every character of the class. *)
Fixpoint removeChars (cls : ascii -> bool) (s : string) : string :=
  match s with
  | EmptyString => EmptyString
  | String c r => if cls c then removeChars cls r else String c (removeChars cls r)
  end.

(** [s.slice(b, e)] for non-negative [b <= e]. *)
Definition slice (b e : nat) (s : string) : string := substring b (e - b) s.

Fixpoint chars (s : string) : list ascii :=
  match s with
  | EmptyString => []
  | String c r => c :: chars r
  end.

(** The regular-expression class [\d]. *)
Definition isDigit (c : ascii) : bool :=
  let n := nat_of_ascii c in (48 <=? n)%nat && (n <=? 57)%nat.

Definition allDigits (s : string) : bool := forallb isDigit (chars s).

End Js.

(* ================================================================== *)
(** ** The clock: [new Date().toISOString()]

    The time value is the number of milliseconds since the epoch; the
    functions below are the abstract operations of ECMAScript's Date
    objects (Day, DayFromYear, YearFromTime, MonthFromTime, DateFromTime,
    HourFromTime, ...), which [toISOString] is defined by. *)

Module DateTime.

Definition msPerDay : Z := 86400000.
Definition msPerHour : Z := 3600000.
Definition msPerMinute : Z := 60000.
Definition msPerSecond : Z := 1000.

Definition Day (t : Z) : Z := t / msPerDay.

Definition DaysInYear (y : Z) : Z :=
  if negb (y mod 4 =? 0) then 365
  else if negb (y mod 100 =? 0) then 366
  else if negb (y mod 400 =? 0) then 365
  else 366.

Definition DayFromYear (y : Z) : Z :=
  365 * (y - 1970) + (y - 1969) / 4 - (y - 1901) / 100 + (y - 1601) / 400.

(** The largest [y] with [DayFromYear y <= Day t]: the estimate from the
    mean year length is off by at most one. *)
Definition YearFromTime (t : Z) : Z :=
  let d := Day t in
  let y := 1970 + (d * 400) / 146097 in
  if d <? DayFromYear y then y - 1
  else if DayFromYear (y + 1) <=? d then y + 1
  else y.

Definition InLeapYear (t : Z) : Z :=
  if DaysInYear (YearFromTime t) =? 366 then 1 else 0.

Definition DayWithinYear (t : Z) : Z := Day t - DayFromYear (YearFromTime t).

(** Month number, 0 for January. *)
Definition MonthFromTime (t : Z) : Z :=
  let d := DayWithinYear t in
  let l := InLeapYear t in
  if d <? 31 then 0
  else if d <? 59 + l then 1
  else if d <? 90 + l then 2
  else if d <? 120 + l then 3
  else if d <? 151 + l then 4
  else if d <? 181 + l then 5
  else if d <? 212 + l then 6
  else if d <? 243 + l then 7
  else if d <? 273 + l then 8
  else if d <? 304 + l then 9
  else if d <? 334 + l then 10
  else 11.

(** Day of the month, 1-based. *)
Definition DateFromTime (t : Z) : Z :=
  let d := DayWithinYear t in
  let l := InLeapYear t in
  match MonthFromTime t with
  | 0 => d + 1
  | 1 => d - 30
  | 2 => d - 58 - l
  | 3 => d - 89 - l
  | 4 => d - 119 - l
  | 5 => d - 150 - l
  | 6 => d - 180 - l
  | 7 => d - 211 - l
  | 8 => d - 242 - l
  | 9 => d - 272 - l
  | 10 => d - 303 - l
  | _ => d - 333 - l
  end.

Definition HourFromTime (t : Z) : Z := (t / msPerHour) mod 24.
Definition MinFromTime (t : Z) : Z := (t / msPerMinute) mod 60.
Definition SecFromTime (t : Z) : Z := (t / msPerSecond) mod 60.
Definition msFromTime (t : Z) : Z := t mod msPerSecond.

Definition digitChar (d : Z) : ascii := ascii_of_nat (48 + Z.to_nat (d mod 10)).

(** The [w] low-order decimal digits of [n], most significant first: the
    zero-padded decimal representation of [n] whenever [0 <= n < 10^w]. *)
Fixpoint padDigits (w : nat) (n : Z) : string :=
  match w with
  | O => EmptyString
  | S w' => padDigits w' (n / 10) ++ String (digitChar n) EmptyString
  end.

(** The year of an ISO string: four digits inside 0..9999, otherwise the
    expanded form, a sign and six digits. *)
Definition isoYear (y : Z) : string :=
  if (0 <=? y) && (y <=? 9999) then padDigits 4 y
  else if 0 <=? y then "+" ++ padDigits 6 y
  else "-" ++ padDigits 6 (- y).

(** [Date.prototype.toISOString]: YYYY-MM-DDTHH:mm:ss.sssZ. *)
Definition toISOString (t : Z) : string :=
  isoYear (YearFromTime t) ++ "-" ++
  padDigits 2 (MonthFromTime t + 1) ++ "-" ++
  padDigits 2 (DateFromTime t) ++ "T" ++
  padDigits 2 (HourFromTime t) ++ ":" ++
  padDigits 2 (MinFromTime t) ++ ":" ++
  padDigits 2 (SecFromTime t) ++ "." ++
  padDigits 3 (msFromTime t) ++ "Z".

End DateTime.

(* ================================================================== *)
(** ** Version allocation

    [new Date().toISOString().replace(/[-:.TZ]/g, '').slice(0, 14)], the
    expression of [deployMigration] and of [createMigrationWithRollback],
    as a function of the clock reading. *)

Definition isSeparator (c : ascii) : bool :=
  (c =? "-")%char || (c =? ":")%char || (c =? ".")%char ||
  (c =? "T")%char || (c =? "Z")%char.

Definition allocateVersion (now : Z) : string :=
  Js.slice 0 14 (Js.removeChars isSeparator (DateTime.toISOString now)).

(* ================================================================== *)
(** ** Input schemas (validation.ts) *)

(** A Zod schema is modelled by the list of issues it reports, each rendered
    as [validateInput] renders it: the path, a colon, the message.  An
    input is accepted when there is no issue. *)
Definition Schema (A : Type) : Type := A -> list string.

Definition accepts {A} (schema : Schema A) (a : A) : bool :=
  match schema a with [] => true | _ :: _ => false end.

Definition issue (path msg : string) : string := path ++ ": " ++ msg.

(** [/^\d{14}$/.test(s)]. *)
Definition isVersion (s : string) : bool :=
  (String.length s =? 14)%nat && Js.allDigits s.

(** [z.string().regex(/^\d{14}$/, 'Version must be 14 digits (YYYYMMDDHHMMSS)')]. *)
Definition versionSchema (path : string) : Schema string := fun s =>
  if isVersion s then [] else [issue path "Version must be 14 digits (YYYYMMDDHHMMSS)"].

(** [z.string().min(1, 'Name cannot be empty').max(100, 'Name too long')].
    Lengths count the characters of the string; the two agree with
    JavaScript's on every string of ASCII characters. *)
Definition nameSchema (path : string) : Schema string := fun s =>
  ((if (1 <=? String.length s)%nat then [] else [issue path "Name cannot be empty"]) ++
   (if (String.length s <=? 100)%nat then [] else [issue path "Name too long"]))%list.

(** [z.string().min(1, 'SQL cannot be empty')]. *)
Definition sqlSchema (path : string) : Schema string := fun s =>
  if (1 <=? String.length s)%nat then [] else [issue path "SQL cannot be empty"].

(** The argument objects of the tools, with the fields the handlers'
    TypeScript signatures give them. *)
Record DeployMigrationArgs := { dm_sql : string; dm_name : string }.
Record RollbackMigrationArgs := { rm_version : string; rm_down_sql : option string }.
Record VersionArgs := { va_version : string }.
Record CountArgs := { ca_count : option nat }.

Definition deployMigrationSchema : Schema DeployMigrationArgs := fun a =>
  (sqlSchema "sql" (dm_sql a) ++ nameSchema "name" (dm_name a))%list.


Definition rollbackMigrationSchema : Schema RollbackMigrationArgs := fun a =>
  (versionSchema "version" (rm_version a) ++
   match rm_down_sql a with None => [] | Some d => sqlSchema "down_sql" d end)%list.

Definition rollbackToVersionSchema : Schema VersionArgs := fun a =>
  versionSchema "version" (va_version a).

Definition getMigrationStatusSchema : Schema VersionArgs := fun a =>
  versionSchema "version" (va_version a).

(* ================================================================== *)
(** ** Data model (types.ts) *)

Inductive MigrationStatus := Pending | Applied | Failed.

Record Migration := {
  m_version : string;
  m_name : string;
  m_executed_at : option string;
  m_status : MigrationStatus;
  m_sql : option string
}.

(** [ToolResponse<T>]: [{ success, data?, error?, message? }]. *)
Record ToolResponse (T : Type) := {
  success : bool;
  data : option T;
  error : option string;
  message : option string
}.
Arguments success {T} _.
Arguments data {T} _.
Arguments error {T} _.
Arguments message {T} _.

(** A row of [supabase_migrations.schema_migrations], the History Store.
    [select('*')] returns every column; the engine reads [version], [name]
    and [inserted_at], the remaining columns are kept in [row_other]. *)
Record HistoryRow := {
  row_version : string;
  row_name : option string;
  row_inserted_at : option string;
  row_other : list (string * string)
}.

(** A row of [_migration_rollbacks], the Rollback Ledger. *)
Record LedgerRow := {
  lr_version : string;
  lr_name : string;
  lr_down_sql : string;
  lr_created_at : string
}.

(** The two tables.  The ledger table is created on demand by the engine,
    so it may be absent ([None]); its [version] column is the primary key. *)
Record Database := {
  history : list HistoryRow;
  ledger : option (list LedgerRow)
}.

(* ================================================================== *)
(** ** The external collaborators *)

(** Every request the engine sends over the network. *)
Inductive Call :=
| RpcExec (query : string)          (* client.rpc('exec', { query }) *)
| RpcExecSql (sql_query : string)   (* client.rpc('exec_sql', { sql_query }) *)
| AdminQuery (q : string)           (* adminClient.post('/rest/v1/rpc/query', { q }) *)
| HistorySelectAll                  (* .select('*').order('version', desc) *)
| HistorySelectEq (v : string)      (* .select('*').eq('version', v).single() *)
| HistorySelectGt (v : string)      (* .select(..).gt('version', v).order(desc) *)
| HistorySelectLast (n : nat)       (* .select(..).order(desc).limit(n) *)
| HistoryDelete (v : string)        (* .delete().eq('version', v) *)
| LedgerInsert (r : LedgerRow)      (* from('_migration_rollbacks').insert(r) *)
| LedgerSelectEq (v : string).      (* .select('down_sql').eq('version', v).single() *)

(** A logged call and whether it was answered without error. *)
Definition Event : Type := Call * bool.

Record World := {
  db : Database;
  trace : list Event;      (* the calls made so far, oldest first *)
  clock_reads : nat        (* how many times [new Date()] has been evaluated *)
}.

(** What the engine cannot decide: the n-th reading of the clock (ms since
    the epoch), whether the n-th network call fails in transit or on the
    server ([Some message]), what a SQL payload that was applied does to
    the two tables, and whether the PostgREST client's error objects are
    instances of [Error] (which [handleError] tests). *)
Record Env := {
  clock : nat -> Z;
  fault : nat -> option string;
  sql_effect : string -> Database -> Database;
  client_errors_are_Error : bool
}.

(** Values a [throw] can carry, as far as [handleError] tells them apart. *)
Inductive Thrown :=
| AxiosError (response_message : option string) (msg : string)
| ErrorObject (msg : string)
| PlainObject (msg : string).

(** A computation either returns or throws, and changes the world. *)
Inductive Outcome (A : Type) :=
| Returned (a : A)
| Threw (e : Thrown).
Arguments Returned {A} _.
Arguments Threw {A} _.

Definition M (A : Type) : Type := World -> Outcome A * World.

Definition ret {A} (a : A) : M A := fun w => (Returned a, w).

Definition bind {A B} (m : M A) (k : A -> M B) : M B :=
  fun w =>
    match m w with
    | (Returned a, w') => k a w'
    | (Threw e, w') => (Threw e, w')
    end.

Definition throw {A} (e : Thrown) : M A := fun w => (Threw e, w).

(** [try { body } catch (error) { handler(error) }]. *)
Definition tryCatch {A} (body : M A) (handler : Thrown -> M A) : M A :=
  fun w =>
    match body w with
    | (Returned a, w') => (Returned a, w')
    | (Threw e, w') => handler e w'
    end.

Declare Scope engine_scope.
Delimit Scope engine_scope with engine.
Notation "'let*' x ':=' c 'in' k" := (bind c (fun x => k))
  (at level 10, x pattern, c at level 100, k at level 200) : engine_scope.
Notation "c ';;' k" := (bind c (fun _ => k))
  (at level 100, k at level 200, right associativity) : engine_scope.
Local Open Scope engine_scope.

(** [.order('version', { ascending: false })]: rows by version, largest
    first, comparing the version strings character by character. *)
Fixpoint insertDesc (r : HistoryRow) (l : list HistoryRow) : list HistoryRow :=
  match l with
  | [] => [r]
  | x :: l' =>
      if String.leb (row_version x) (row_version r) then r :: l
      else x :: insertDesc r l'
  end.

Definition orderDesc (l : list HistoryRow) : list HistoryRow :=
  fold_right insertDesc [] l.

(** The answer of the PostgREST client: [{ data, error }]. *)
Inductive Reply (A : Type) :=
| Data (a : A)
| Error (msg : string).
Arguments Data {A} _.
Arguments Error {A} _.

Definition isData {A} (r : Reply A) : bool :=
  match r with Data _ => true | Error _ => false end.

Definition noRows : string := "JSON object requested, multiple (or no) rows returned".
Definition noRelation : string := "relation public._migration_rollbacks does not exist".
Definition duplicateKey : string := "duplicate key value violates unique constraint".

Definition deleteStatement (version : string) : string :=
  "DELETE FROM supabase_migrations.schema_migrations WHERE version = '" ++ version ++ "'".

Definition createTableStatement : string := "
          CREATE TABLE IF NOT EXISTS _migration_rollbacks (
            version TEXT PRIMARY KEY,
            name TEXT,
            down_sql TEXT,
            created_at TIMESTAMP DEFAULT NOW()
          );
        ".

(** The two texts of [deployMigration]. *)
Definition executionFailedError (error_message : string) : string :=
  "Migration created but SQL execution failed: " ++ error_message ++
  ". Execute SQL manually in Supabase dashboard, then use CLI: supabase migration list".

Definition createdMessage (name version : string) : string :=
  "Migration " ++ name ++ " (" ++ version ++
  ") created. Note: For self-hosted Supabase, you may need to apply migrations using the Supabase CLI: supabase db push".

(** The error text of [executeSQL] around the client's message. *)
Definition sqlNotSupported (error_message : string) : string :=
  "SQL execution not supported via REST API. Please use one of these alternatives:
" ++ "1. Supabase CLI: supabase db execute --file your-file.sql
" ++ "2. Supabase Dashboard: SQL Editor
" ++ "3. Direct psql connection: psql $SUPABASE_DB_URL
" ++ "Error: " ++ error_message.

(** [String(n)] for a length. *)
Definition showNat (n : nat) : string := NilZero.string_of_uint (Nat.to_uint n).

Definition ok {T} (d : option T) (msg : option string) : ToolResponse T :=
  {| success := true; data := d; error := None; message := msg |}.

Definition failure {T} (err : string) : ToolResponse T :=
  {| success := false; data := None; error := Some err; message := None |}.

(** [private handleError(error, message)]. *)
Definition handleError {T} (e : Thrown) (msg : string) : ToolResponse T :=
  match e with
  | AxiosError response_message m => failure (msg ++ ": " ++ Js.orElse response_message m)
  | ErrorObject m => failure (msg ++ ": " ++ m)
  | PlainObject _ => failure (msg ++ ": Unknown error")
  end.

Record RolledBack := { rolledBack : list string }.

(** [{ content: [{ type: 'text', text: JSON.stringify(result) }], isError? }],
    the answer of the server's CallTool handler (index.ts). *)
Record CallToolResult (T : Type) := {
  content : ToolResponse T;
  isError : bool
}.
Arguments content {T} _.
Arguments isError {T} _.

Section Engine.

Variable env : Env.

(** [new Date()]: one more reading of the clock. *)
Definition now : M Z := fun w =>
  (Returned (clock env (clock_reads w)),
   {| db := db w; trace := trace w; clock_reads := S (clock_reads w) |}).

(** One network call.  When the environment injects a fault the call is
    answered by an error and the tables are untouched; otherwise the
    server computes the answer from the tables. *)
Definition request {A} (c : Call) (serve : Database -> Reply A * Database)
  : M (Reply A) := fun w =>
  match fault env (List.length (trace w)) with
  | Some msg =>
      (Returned (Error msg),
       {| db := db w; trace := (trace w ++ [(c, false)])%list;
          clock_reads := clock_reads w |})
  | None =>
      let '(r, d) := serve (db w) in
      (Returned r,
       {| db := d; trace := (trace w ++ [(c, isData r)])%list;
          clock_reads := clock_reads w |})
  end.

(** The error object of a client reply, thrown. *)
Definition clientError (msg : string) : Thrown :=
  if client_errors_are_Error env then ErrorObject msg else PlainObject msg.

(** *** The Execution Gateway: three ways to have SQL applied *)

Definition applySql (sql : string) (d : Database) : Reply unit * Database :=
  (Data tt, sql_effect env sql d).

Definition rpcExec (query : string) : M (Reply unit) :=
  request (RpcExec query) (applySql query).

Definition rpcExecSql (sql_query : string) : M (Reply unit) :=
  request (RpcExecSql sql_query) (applySql sql_query).

(** Axios rejects the promise on failure. *)
Definition adminQuery (q : string) : M unit :=
  let* r := request (AdminQuery q) (applySql q) in
  match r with
  | Data _ => ret tt
  | Error msg => throw (AxiosError None msg)
  end.

(** *** The History Store *)

Definition single {A B} (rows : list A) (f : A -> B) : Reply B :=
  match rows with
  | [r] => Data (f r)
  | _ => Error noRows
  end.

Definition hasVersion (v : string) (r : HistoryRow) : bool := String.eqb (row_version r) v.

Definition historySelectAll : M (Reply (list HistoryRow)) :=
  request HistorySelectAll (fun d => (Data (orderDesc (history d)), d)).

Definition historySelectEq (v : string) : M (Reply HistoryRow) :=
  request (HistorySelectEq v)
    (fun d => (single (filter (hasVersion v) (history d)) (fun r => r), d)).

Definition historySelectGt (v : string) : M (Reply (list HistoryRow)) :=
  request (HistorySelectGt v)
    (fun d => (Data (orderDesc (filter (fun r => String.ltb v (row_version r)) (history d))), d)).

Definition historySelectLast (n : nat) : M (Reply (list HistoryRow)) :=
  request (HistorySelectLast n)
    (fun d => (Data (firstn n (orderDesc (history d))), d)).

Definition historyDelete (v : string) : M (Reply unit) :=
  request (HistoryDelete v)
    (fun d => (Data tt,
               {| history := filter (fun r => negb (hasVersion v r)) (history d);
                  ledger := ledger d |})).

(** *** The Rollback Ledger *)

Definition ledgerInsert (r : LedgerRow) : M (Reply unit) :=
  request (LedgerInsert r)
    (fun d =>
       match ledger d with
       | None => (Error noRelation, d)
       | Some rows =>
           if existsb (fun x => String.eqb (lr_version x) (lr_version r)) rows
           then (Error duplicateKey, d)
           else (Data tt, {| history := history d; ledger := Some (rows ++ [r])%list |})
       end).

Definition ledgerSelectEq (v : string) : M (Reply string) :=
  request (LedgerSelectEq v)
    (fun d =>
       match ledger d with
       | None => (Error noRelation, d)
       | Some rows =>
           (single (filter (fun x => String.eqb (lr_version x) v) rows) lr_down_sql, d)
       end).

(** *** SupabaseManager: the migration methods *)

Definition rowToMigration (row : HistoryRow) : Migration :=
  {| m_version := row_version row;
     m_name := Js.orElse (row_name row) ("Migration " ++ row_version row);
     m_executed_at := row_inserted_at row;
     m_status := Applied;
     m_sql := None |}.

Definition listMigrations : M (ToolResponse (list Migration)) :=
  tryCatch
    (let* r := historySelectAll in
     match r with
     | Error msg => throw (clientError msg)
     | Data rows => ret (ok (Some (map rowToMigration rows)) None)
     end)
    (fun e => ret (handleError e "Failed to list migrations")).

(** The inner [catch] of [deployMigration] returns from the method; the
    early return is the [Some] of [executed]. *)
Definition deployMigration (sql name : string) : M (ToolResponse Migration) :=
  tryCatch
    (let* t := now in
     let version := allocateVersion t in
     let* r := rpcExec sql in
     let* executed :=
       match r with
       | Data _ => ret None
       | Error error_message =>
           tryCatch
             (adminQuery sql ;; ret None)
             (fun _ =>
                let* t' := now in
                let migration :=
                  {| m_version := version;
                     m_name := name;
                     m_executed_at := Some (DateTime.toISOString t');
                     m_status := Pending;
                     m_sql := Some sql |} in
                ret (Some
                  {| success := false;
                     data := Some migration;
                     error := Some (executionFailedError error_message);
                     message := None |}))
       end in
     match executed with
     | Some response => ret response
     | None =>
         let* t' := now in
         let migration :=
           {| m_version := version;
              m_name := name;
              m_executed_at := Some (DateTime.toISOString t');
              m_status := Applied;
              m_sql := Some sql |} in
         ret (ok (Some migration) (Some (createdMessage name version)))
     end)
    (fun e => ret (handleError e "Failed to deploy migration")).

Definition executeSQL (sql : string) : M (ToolResponse unit) :=
  tryCatch
    (let* r := rpcExec sql in
     match r with
     | Error error_message =>
         ret (failure (sqlNotSupported error_message))
     | Data d => ret (ok (Some d) (Some "SQL executed successfully"))
     end)
    (fun e => ret (handleError e "Failed to execute SQL")).

Definition getMigrationStatus (version : string) : M (ToolResponse Migration) :=
  tryCatch
    (let* r := historySelectEq version in
     match r with
     | Error msg => throw (clientError msg)
     | Data row => ret (ok (Some (rowToMigration row)) None)
     end)
    (fun e => ret (handleError e ("Failed to get migration status for version " ++ version))).

Definition rollbackMigration (version : string) (downSql : option string)
  : M (ToolResponse unit) :=
  tryCatch
    ((match downSql with
      | Some down =>
          if Js.truthy down then
            let* r := rpcExecSql down in
            match r with
            | Data _ => ret tt
            | Error _ =>
                let* rawResult := executeSQL down in
                if negb (success rawResult)
                then throw (ErrorObject (match error rawResult with Some m => m | None => "" end))
                else ret tt
            end
          else ret tt
      | None => ret tt
      end) ;;
     let* del := historyDelete version in
     (match del with
      | Data _ => ret tt
      | Error _ => executeSQL (deleteStatement version) ;; ret tt
      end) ;;
     ret (ok None (Some ("Migration " ++ version ++ " rolled back successfully"))))
    (fun e => ret (handleError e ("Failed to rollback migration " ++ version))).

(** The [for ... of] loop of the two bulk strategies: one delete per
    selected row; a version is pushed when its delete reported no error. *)
Fixpoint deleteEach (migrations : list HistoryRow) (rolledBackVersions : list string)
  : M (list string) :=
  match migrations with
  | [] => ret rolledBackVersions
  | migration :: rest =>
      let* del := historyDelete (row_version migration) in
      match del with
      | Data _ => deleteEach rest (rolledBackVersions ++ [row_version migration])%list
      | Error _ => deleteEach rest rolledBackVersions
      end
  end.

Definition rollbackToVersion (targetVersion : string) : M (ToolResponse RolledBack) :=
  tryCatch
    (let* r := historySelectGt targetVersion in
     match r with
     | Error msg => throw (clientError msg)
     | Data migrations =>
         if (List.length migrations =? 0)%nat then
           ret (ok (Some {| rolledBack := [] |}) (Some "No migrations to rollback"))
         else
           let* rolledBackVersions := deleteEach migrations [] in
           ret (ok (Some {| rolledBack := rolledBackVersions |})
                  (Some ("Rolled back " ++ showNat (List.length rolledBackVersions) ++
                         " migration(s) to version " ++ targetVersion)))
     end)
    (fun e => ret (handleError e ("Failed to rollback to version " ++ targetVersion))).

Definition rollbackLastMigrations (count : nat) : M (ToolResponse RolledBack) :=
  tryCatch
    (let* r := historySelectLast count in
     match r with
     | Error msg => throw (clientError msg)
     | Data migrations =>
         if (List.length migrations =? 0)%nat then
           ret (ok (Some {| rolledBack := [] |}) (Some "No migrations to rollback"))
         else
           let* rolledBackVersions := deleteEach migrations [] in
           ret (ok (Some {| rolledBack := rolledBackVersions |})
                  (Some ("Rolled back " ++ showNat (List.length rolledBackVersions) ++
                         " migration(s)")))
     end)
    (fun e => ret (handleError e "Failed to rollback migrations")).

Definition createMigrationWithRollback (name upSql downSql : string)
  : M (ToolResponse Migration) :=
  tryCatch
    (let* t := now in
     let version := allocateVersion t in
     let* deployResult := deployMigration upSql name in
     if negb (success deployResult) then ret deployResult
     else
       let* t' := now in
       let* stored :=
         ledgerInsert {| lr_version := version; lr_name := name; lr_down_sql := downSql;
                         lr_created_at := DateTime.toISOString t' |} in
       (match stored with
        | Data _ => ret tt
        | Error _ =>
            executeSQL createTableStatement ;;
            let* t'' := now in
            ledgerInsert {| lr_version := version; lr_name := name; lr_down_sql := downSql;
                            lr_created_at := DateTime.toISOString t'' |} ;;
            ret tt
        end) ;;
       ret (ok (data deployResult)
              (Some ("Migration " ++ name ++ " deployed with rollback support"))))
    (fun e => ret (handleError e "Failed to create migration with rollback")).

Definition rollbackMigrationWithDownSql (version : string) : M (ToolResponse unit) :=
  tryCatch
    (let* r := ledgerSelectEq version in
     match r with
     | Error _ =>
         ret (failure ("No rollback SQL found for migration " ++ version ++
                       ". Use rollbackMigration() with manual down SQL instead."))
     | Data down_sql => rollbackMigration version (Some down_sql)
     end)
    (fun e => ret (handleError e ("Failed to rollback migration " ++ version))).

(** *** The tool handlers (tools/supabase-tools.ts, index.ts) *)


(** The server's CallTool handler around a registered tool handler. *)
Definition callTool {T} (handler : M (ToolResponse T)) : M (CallToolResult T) :=
  tryCatch
    (let* result := handler in ret {| content := result; isError := false |})
    (fun e =>
       ret {| content := failure (match e with
                                  | AxiosError _ m => m
                                  | ErrorObject m => m
                                  | PlainObject _ => "Unknown error"
                                  end);
              isError := true |}).



Definition get_migration_status (args : VersionArgs) : M (ToolResponse Migration) :=
  getMigrationStatus (va_version args).

Definition rollback_migration (args : RollbackMigrationArgs) : M (ToolResponse unit) :=
  rollbackMigration (rm_version args) (rm_down_sql args).

Definition rollback_to_version (args : VersionArgs) : M (ToolResponse RolledBack) :=
  rollbackToVersion (va_version args).

Definition rollback_last_migrations (args : CountArgs) : M (ToolResponse RolledBack) :=
  rollbackLastMigrations (match ca_count args with Some n => n | None => 1%nat end).


Definition rollback_migration_with_down_sql (args : VersionArgs) : M (ToolResponse unit) :=
  rollbackMigrationWithDownSql (va_version args).

End Engine.

(* ================================================================== *)
(** ** Vocabulary of the properties *)

(** The fourteen characters [allocateVersion] keeps of an ISO string whose
    year has four digits. *)
Definition timestampDigits (t : Z) : string :=
  DateTime.padDigits 4 (DateTime.YearFromTime t) ++
  DateTime.padDigits 2 (DateTime.MonthFromTime t + 1) ++
  DateTime.padDigits 2 (DateTime.DateFromTime t) ++
  DateTime.padDigits 2 (DateTime.HourFromTime t) ++
  DateTime.padDigits 2 (DateTime.MinFromTime t) ++
  DateTime.padDigits 2 (DateTime.SecFromTime t).

(** A clock reading from 0000-01-01T00:00:00.000Z to 9999-12-31T23:59:59.999Z. *)
Definition fourDigitYear (t : Z) : Prop := -62167219200000 <= t <= 253402300799999.

(** The Migration [deployMigration] builds from its two clock readings. *)
Definition deployedMigration (env : Env) (w : World) (sql name : string)
  (status : MigrationStatus) : Migration :=
  {| m_version := allocateVersion (clock env (clock_reads w));
     m_name := name;
     m_executed_at := Some (DateTime.toISOString (clock env (S (clock_reads w))));
     m_status := status;
     m_sql := Some sql |}.

(** Which execution attempt of [deployMigration] goes through. *)
Definition gatewayApplies (env : Env) (w : World) : Prop :=
  fault env (List.length (trace w)) = None \/
  (fault env (List.length (trace w)) <> None /\ fault env (S (List.length (trace w))) = None).

(** The calls a successful [deployMigration] makes. *)
Definition executionCalls (env : Env) (w : World) (sql : string) : list Event :=
  match fault env (List.length (trace w)) with
  | None => [(RpcExec sql, true)]
  | Some _ => [(RpcExec sql, false); (AdminQuery sql, true)]
  end.

(** [newer a b]: [a] may stand before [b] in a list sorted by version,
    largest first. *)
Definition newer (a b : string) : Prop := String.leb b a = true.

Definition descending (l : list string) : Prop := Sorted.StronglySorted newer l.

(** The versions of the History Store deletes in a stretch of the trace,
    all of them and those that were answered without error. *)
Definition deletesOf (evs : list Event) : list string :=
  flat_map (fun e => match e with (HistoryDelete v, _) => [v] | _ => [] end) evs.

Definition deletedOf (evs : list Event) : list string :=
  flat_map (fun e => match e with (HistoryDelete v, true) => [v] | _ => [] end) evs.

(** [v] is strictly greater than the target version. *)
Definition after (target v : string) : Prop := String.ltb target v = true.

(** The number a string of decimal digits denotes, and the number written
    in the [len] characters of [s] from position [b]. *)
Fixpoint decimalValueFrom (acc : Z) (s : string) : Z :=
  match s with
  | EmptyString => acc
  | String c r => decimalValueFrom (10 * acc + (Z.of_nat (nat_of_ascii c) - 48)) r
  end.

Definition decimalValue (s : string) : Z := decimalValueFrom 0 s.

Definition field (b len : nat) (s : string) : Z := decimalValue (substring b len s).

(** The row [createMigrationWithRollback] writes to the ledger: its version
    comes from the method's own clock reading, the first one. *)
Definition ledgerRowOf (env : Env) (w : World) (name downSql : string) (created : Z)
  : LedgerRow :=
  {| lr_version := allocateVersion (clock env (clock_reads w));
     lr_name := name;
     lr_down_sql := downSql;
     lr_created_at := DateTime.toISOString created |}.

(* ================================================================== *)
(** ** Scenarios: concrete environments and worlds *)

Definition initialWorld (d : Database) : World :=
  {| db := d; trace := []; clock_reads := 0 |}.

Definition emptyDatabase : Database := {| history := []; ledger := None |}.

(** A clock that advances one millisecond per reading. *)
Definition ticking (start : Z) (n : nat) : Z := start + Z.of_nat n.

Definition noFault (n : nat) : option string := None.

(** The first [k] network calls fail with [msg]. *)
Definition failing (k : nat) (msg : string) (n : nat) : option string :=
  if (n <? k)%nat then Some msg else None.

(** SQL whose only effect on the two tables is that of the statement the
    engine itself issues to provision the ledger; any other payload
    changes the user's schema, which is not part of the model. *)
Definition provisioning (sql : string) (d : Database) : Database :=
  if String.eqb sql createTableStatement then
    {| history := history d;
       ledger := Some (match ledger d with Some rows => rows | None => [] end) |}
  else d.

(** Everything works; the clock reads 2023-12-01T12:00:00.123Z first. *)
Definition healthy : Env :=
  {| clock := ticking 1701432000123; fault := noFault;
     sql_effect := provisioning; client_errors_are_Error := true |}.

(** The first two network calls fail, as when the instance exposes neither
    the [exec] function nor the admin query endpoint. *)
Definition unreachable : Env :=
  {| clock := ticking 1701432000123; fault := failing 2 "Could not find the function";
     sql_effect := provisioning; client_errors_are_Error := true |}.

(** Everything works; the clock reads 2024-01-01T00:00:00.999Z first, one
    millisecond before the next second. *)
Definition secondBoundary : Env :=
  {| clock := ticking 1704067200999; fault := noFault;
     sql_effect := provisioning; client_errors_are_Error := true |}.

(** Everything works; the clock reads 2024-01-01T00:00:00.000Z first. *)
Definition newYear : Env :=
  {| clock := ticking 1704067200000; fault := noFault;
     sql_effect := provisioning; client_errors_are_Error := true |}.

(** The [exec] function does not exist on the instance (calls 0 and 3 of
    [createMigrationWithRollback] fail); the admin endpoint and the tables
    work.  The clock reads 2024-01-01T00:00:00.000Z first. *)
Definition noExecFunction : Env :=
  {| clock := ticking 1704067200000;
     fault := fun n => if (n =? 0)%nat || (n =? 3)%nat
                       then Some "Could not find the function public.exec(query)"
                       else None;
     sql_effect := provisioning; client_errors_are_Error := true |}.

Definition usersRow : HistoryRow :=
  {| row_version := "20231201120000"; row_name := Some "add_users_table";
     row_inserted_at := Some "2023-12-01T12:00:00.124Z"; row_other := [] |}.

Definition usersLedgerRow : LedgerRow :=
  {| lr_version := "20240101000000"; lr_name := "add_users_table";
     lr_down_sql := "DROP TABLE users"; lr_created_at := "2024-01-01T00:00:00.003Z" |}.

(* ================================================================== *)
(** ** Vocabulary of the further properties *)

(** Every network call is answered: no fault is injected. *)
Definition allServed (env : Env) : Prop := forall n, fault env n = None.

(** The rows left when every row carrying one of the versions [vs] is
    deleted. *)
Definition withoutVersions (vs : list string) (l : list HistoryRow) : list HistoryRow :=
  filter (fun r => negb (existsb (String.eqb (row_version r)) vs)) l.

(** Calls on the History Store table. *)
Definition isHistoryCall (c : Call) : bool :=
  match c with
  | HistorySelectAll | HistorySelectEq _ | HistorySelectGt _
  | HistorySelectLast _ | HistoryDelete _ => true
  | _ => false
  end.

(** Calls that hand SQL to the Execution Gateway. *)
Definition isGatewayCall (c : Call) : bool :=
  match c with
  | RpcExec _ | RpcExecSql _ | AdminQuery _ => true
  | _ => false
  end.

(** The SQL texts the gateway applied in a stretch of the trace. *)
Definition appliedSql (evs : list Event) : list string :=
  flat_map (fun e => match e with
                     | (RpcExec q, true) | (RpcExecSql q, true) | (AdminQuery q, true) => [q]
                     | _ => []
                     end) evs.


(* ================================================================== *)
(** ** Service probes of SupabaseManager (supabase-client.ts) *)

(** [s.includes(sub)]. *)
Fixpoint includes (sub s : string) : bool :=
  if String.prefix sub s then true
  else match s with
       | EmptyString => false
       | String _ r => includes sub r
       end.

(** [String(z)] for an integral number. *)
Definition showZ (z : Z) : string := NilZero.string_of_int (Z.to_int z).

(** [`${o}`] for an optional string. *)
Definition showOpt (o : option string) : string :=
  match o with Some s => s | None => "undefined" end.

(** [error instanceof Error ? error.message : dflt]. *)
Definition errorMessageOr (e : Thrown) (dflt : string) : string :=
  match e with
  | AxiosError _ m => m
  | ErrorObject m => m
  | PlainObject _ => dflt
  end.

(** The headers of an axios response, the only part the manager reads. *)
Definition Headers : Type := list (string * string).

Definition header (name : string) (h : Headers) : option string :=
  match find (fun p => String.eqb (fst p) name) h with
  | Some p => Some (snd p)
  | None => None
  end.

Inductive ServiceHealth := ServiceHealthy | ServiceUnhealthy | ServiceUnknown.

Record SupabaseServiceStatus := {
  ss_name : string;
  ss_status : ServiceHealth;
  ss_version : option string;
  ss_uptime : option Z
}.

Definition serviceStatus (name : string) (s : ServiceHealth) : SupabaseServiceStatus :=
  {| ss_name := name; ss_status := s; ss_version := None; ss_uptime := None |}.

Section Services.

(** [this.adminClient.get(path)]: axios resolves with the response or
    rejects. *)
Variable adminGet : string -> M Headers.

(** [this.client.from('_health').select('*').limit(1)] and
    [this.client.storage.listBuckets()], awaited; [checkHealth] does not
    read their replies. *)
Variable selectHealth : M (Reply unit).
Variable listBuckets : M (Reply unit).

Definition getVersion : M (ToolResponse string) :=
  tryCatch
    (let* response_headers := adminGet "/rest/v1/" in
     let version := Js.orElse (header "x-supabase-version" response_headers) "unknown" in
     ret (ok (Some version) None))
    (fun e => ret (handleError e "Failed to get version")).

Definition checkHealth : M (ToolResponse (list SupabaseServiceStatus)) :=
  tryCatch
    (let services := [] in
     let* services :=
       tryCatch
         (selectHealth ;; ret (services ++ [serviceStatus "Database" ServiceHealthy])%list)
         (fun _ => ret (services ++ [serviceStatus "Database" ServiceUnhealthy])%list) in
     let* services :=
       tryCatch
         (adminGet "/auth/v1/health" ;;
          ret (services ++ [serviceStatus "Auth" ServiceHealthy])%list)
         (fun _ => ret (services ++ [serviceStatus "Auth" ServiceUnhealthy])%list) in
     let* services :=
       tryCatch
         (listBuckets ;; ret (services ++ [serviceStatus "Storage" ServiceHealthy])%list)
         (fun _ => ret (services ++ [serviceStatus "Storage" ServiceUnhealthy])%list) in
     let* services :=
       tryCatch
         (adminGet "/realtime/v1/health" ;;
          ret (services ++ [serviceStatus "Realtime" ServiceHealthy])%list)
         (fun _ => ret (services ++ [serviceStatus "Realtime" ServiceUnhealthy])%list) in
     ret (ok (Some services) None))
    (fun e => ret (handleError e "Failed to check health")).

End Services.

(* ================================================================== *)
(** ** The health checker (health-check.ts) *)

(** [CoolifyApplication] of types.ts; [environment] keeps the order of
    the keys. *)
Record CoolifyApplication := {
  app_id : string;
  app_uuid : string;
  app_name : string;
  app_description : option string;
  app_fqdn : option string;
  app_status : string;
  app_build_pack : option string;
  app_git_repository : option string;
  app_git_branch : option string;
  app_environment : option (list (string * string))
}.

(** The data of [SupabaseCLI.checkCLIInstalled]. *)
Record CLIInstalled := {
  installed : bool;
  cli_version : option string
}.

Inductive HealthStatus := StatusHealthy | StatusUnhealthy | StatusWarning | StatusUnknown.

Inductive OverallStatus := OverallHealthy | OverallDegraded | OverallUnhealthy.

(** The values the checks put into [details]. *)
Inductive Detail :=
| DNumber (z : Z)
| DText (s : option string).

Record HealthCheckResult := {
  hc_service : string;
  hc_status : HealthStatus;
  hc_message : string;
  hc_details : option (list (string * Detail));
  hc_timestamp : string
}.

Record Summary := {
  sum_total : nat;
  sum_healthy : nat;
  sum_unhealthy : nat;
  sum_warnings : nat
}.

Record SystemHealthReport := {
  overall_status : OverallStatus;
  checks : list HealthCheckResult;
  report_timestamp : string;
  summary : Summary
}.

Definition isStatus (s : HealthStatus) (c : HealthCheckResult) : bool :=
  match s, hc_status c with
  | StatusHealthy, StatusHealthy
  | StatusUnhealthy, StatusUnhealthy
  | StatusWarning, StatusWarning
  | StatusUnknown, StatusUnknown => true
  | _, _ => false
  end.

(** [`${reason}`] for the reason of a rejected promise. *)
Definition reasonText (e : Thrown) : string :=
  match e with
  | AxiosError _ m => "AxiosError: " ++ m
  | ErrorObject m => "Error: " ++ m
  | PlainObject _ => "[object Object]"
  end.

Section HealthChecker.

Variable env : Env.

(** The three collaborators of the constructor: [coolify.listApplications],
    the [adminClient.get] under [supabase.getVersion], and
    [supabaseCLI.checkCLIInstalled]; [supabase.listMigrations] and
    [supabase.executeSQL] are the engine's. *)
Variable coolify_listApplications : M (ToolResponse (list CoolifyApplication)).
Variable adminGet : string -> M Headers.
Variable supabaseCLI_checkCLIInstalled : M (ToolResponse CLIInstalled).

(** [new Date().toISOString()]. *)
Definition timestampNow : M string :=
  let* t := now env in ret (DateTime.toISOString t).

Definition checkCoolifyConnection : M HealthCheckResult :=
  let* start := now env in
  tryCatch
    (let* result := coolify_listApplications in
     let* finish := now env in
     let duration := finish - start in
     if success result then
       let* ts := timestampNow in
       ret {| hc_service := "Coolify Connection";
              hc_status := StatusHealthy;
              hc_message := "Connected successfully (" ++ showZ duration ++ "ms)";
              hc_details :=
                Some [("response_time", DNumber duration);
                      ("applications_count",
                       DNumber (match data result with
                                | Some apps => Z.of_nat (List.length apps)
                                | None => 0
                                end))];
              hc_timestamp := ts |}
     else
       let* ts := timestampNow in
       ret {| hc_service := "Coolify Connection";
              hc_status := StatusUnhealthy;
              hc_message := Js.orElse (error result) "Failed to connect";
              hc_details := None;
              hc_timestamp := ts |})
    (fun e =>
       let* ts := timestampNow in
       ret {| hc_service := "Coolify Connection";
              hc_status := StatusUnhealthy;
              hc_message := errorMessageOr e "Connection failed";
              hc_details := None;
              hc_timestamp := ts |}).

(** [result.error?.includes(a) || result.error?.includes(b)]. *)
Definition errorIncludes (a b : string) (err : option string) : bool :=
  match err with
  | Some text => includes a text || includes b text
  | None => false
  end.

Definition checkCoolifyAuth : M HealthCheckResult :=
  tryCatch
    (let* result := coolify_listApplications in
     if success result then
       let* ts := timestampNow in
       ret {| hc_service := "Coolify Authentication";
              hc_status := StatusHealthy;
              hc_message := "API token is valid";
              hc_details := None;
              hc_timestamp := ts |}
     else if errorIncludes "401" "Unauthorized" (error result) then
       let* ts := timestampNow in
       ret {| hc_service := "Coolify Authentication";
              hc_status := StatusUnhealthy;
              hc_message := "Invalid API token or expired";
              hc_details :=
                Some [("suggestion",
                       DText (Some "Generate a new API token from Coolify dashboard"))];
              hc_timestamp := ts |}
     else
       let* ts := timestampNow in
       ret {| hc_service := "Coolify Authentication";
              hc_status := StatusWarning;
              hc_message := "Unable to verify authentication";
              hc_details := None;
              hc_timestamp := ts |})
    (fun e =>
       let* ts := timestampNow in
       ret {| hc_service := "Coolify Authentication";
              hc_status := StatusUnhealthy;
              hc_message := errorMessageOr e "Auth check failed";
              hc_details := None;
              hc_timestamp := ts |}).

Definition checkSupabaseConnection : M HealthCheckResult :=
  let* start := now env in
  tryCatch
    (let* result := getVersion adminGet in
     let* finish := now env in
     let duration := finish - start in
     if success result then
       let* ts := timestampNow in
       ret {| hc_service := "Supabase Connection";
              hc_status := StatusHealthy;
              hc_message := "Connected successfully (" ++ showZ duration ++ "ms)";
              hc_details :=
                Some [("response_time", DNumber duration);
                      ("version", DText (data result))];
              hc_timestamp := ts |}
     else
       let* ts := timestampNow in
       ret {| hc_service := "Supabase Connection";
              hc_status := StatusUnhealthy;
              hc_message := Js.orElse (error result) "Failed to connect";
              hc_details := None;
              hc_timestamp := ts |})
    (fun e =>
       let* ts := timestampNow in
       ret {| hc_service := "Supabase Connection";
              hc_status := StatusUnhealthy;
              hc_message := errorMessageOr e "Connection failed";
              hc_details := None;
              hc_timestamp := ts |}).

Definition checkSupabaseAuth : M HealthCheckResult :=
  tryCatch
    (let* result := listMigrations env in
     if success result then
       let* ts := timestampNow in
       ret {| hc_service := "Supabase Authentication";
              hc_status := StatusHealthy;
              hc_message := "Service role key is valid";
              hc_details := None;
              hc_timestamp := ts |}
     else if errorIncludes "401" "JWT" (error result) then
       let* ts := timestampNow in
       ret {| hc_service := "Supabase Authentication";
              hc_status := StatusUnhealthy;
              hc_message := "Invalid service role key or expired JWT";
              hc_details :=
                Some [("suggestion",
                       DText (Some "Check SUPABASE_SERVICE_ROLE_KEY in environment"))];
              hc_timestamp := ts |}
     else
       let* ts := timestampNow in
       ret {| hc_service := "Supabase Authentication";
              hc_status := StatusWarning;
              hc_message := "Unable to verify authentication";
              hc_details := None;
              hc_timestamp := ts |})
    (fun e =>
       let* ts := timestampNow in
       ret {| hc_service := "Supabase Authentication";
              hc_status := StatusUnhealthy;
              hc_message := errorMessageOr e "Auth check failed";
              hc_details := None;
              hc_timestamp := ts |}).

Definition checkSupabaseDatabase : M HealthCheckResult :=
  tryCatch
    (let* result := executeSQL env "SELECT 1 as test;" in
     if success result then
       let* ts := timestampNow in
       ret {| hc_service := "Supabase Database";
              hc_status := StatusHealthy;
              hc_message := "Database is accessible";
              hc_details := None;
              hc_timestamp := ts |}
     else
       let* ts := timestampNow in
       ret {| hc_service := "Supabase Database";
              hc_status := StatusWarning;
              hc_message := "Database access issue (migrations may still work)";
              hc_details := Some [("error", DText (error result))];
              hc_timestamp := ts |})
    (fun _ =>
       let* ts := timestampNow in
       ret {| hc_service := "Supabase Database";
              hc_status := StatusWarning;
              hc_message := "Unable to verify database (migrations may still work)";
              hc_details := None;
              hc_timestamp := ts |}).

Definition checkSupabaseCLI : M HealthCheckResult :=
  tryCatch
    (let* result := supabaseCLI_checkCLIInstalled in
     match success result, data result with
     | true, Some {| installed := true; cli_version := version |} =>
         let* ts := timestampNow in
         ret {| hc_service := "Supabase CLI";
                hc_status := StatusHealthy;
                hc_message := "CLI installed (" ++ showOpt version ++ ")";
                hc_details := Some [("version", DText version)];
                hc_timestamp := ts |}
     | _, _ =>
         let* ts := timestampNow in
         ret {| hc_service := "Supabase CLI";
                hc_status := StatusWarning;
                hc_message := "CLI not installed (CLI tools will not work)";
                hc_details :=
                  Some [("suggestion", DText (Some "Install with: npm install -g supabase"))];
                hc_timestamp := ts |}
     end)
    (fun _ =>
       let* ts := timestampNow in
       ret {| hc_service := "Supabase CLI";
              hc_status := StatusWarning;
              hc_message := "CLI not available (CLI tools will not work)";
              hc_details := None;
              hc_timestamp := ts |}).

(** One element of [Promise.allSettled]: fulfilled with a value or
    rejected with a reason. *)
Definition settled {A} (promise : M A) : M (Thrown + A) :=
  tryCatch (let* value := promise in ret (inr value)) (fun reason => ret (inl reason)).

(** The body of [results.forEach]: what is pushed for one settled result. *)
Definition collect (result : Thrown + HealthCheckResult) : M HealthCheckResult :=
  match result with
  | inr value => ret value
  | inl reason =>
      let* ts := timestampNow in
      ret {| hc_service := "Unknown";
             hc_status := StatusUnhealthy;
             hc_message := "Check failed: " ++ reasonText reason;
             hc_details := None;
             hc_timestamp := ts |}
  end.

Fixpoint forEach {A B} (f : A -> M B) (l : list A) : M (list B) :=
  match l with
  | [] => ret []
  | x :: r => let* y := f x in let* ys := forEach f r in ret (y :: ys)
  end.

Definition count (s : HealthStatus) (cs : list HealthCheckResult) : nat :=
  List.length (filter (isStatus s) cs).

(** [checkAll].  [Promise.allSettled] returns the results in the order of
    the array whatever the order in which the six checks finish; each
    check awaits one collaborator call, and the model runs the checks one
    after the other in that order. *)
Definition checkAll : M SystemHealthReport :=
  let* r1 := settled checkCoolifyConnection in
  let* r2 := settled checkCoolifyAuth in
  let* r3 := settled checkSupabaseConnection in
  let* r4 := settled checkSupabaseAuth in
  let* r5 := settled checkSupabaseDatabase in
  let* r6 := settled checkSupabaseCLI in
  let results := [r1; r2; r3; r4; r5; r6] in
  let* checks := forEach collect results in
  let summary :=
    {| sum_total := List.length checks;
       sum_healthy := count StatusHealthy checks;
       sum_unhealthy := count StatusUnhealthy checks;
       sum_warnings := count StatusWarning checks |} in
  let overall_status :=
    if (0 <? sum_unhealthy summary)%nat then OverallUnhealthy
    else if (0 <? sum_warnings summary)%nat then OverallDegraded
    else OverallHealthy in
  let* ts := timestampNow in
  ret {| overall_status := overall_status;
         checks := checks;
         report_timestamp := ts;
         summary := summary |}.

Definition createVerificationReport : M (ToolResponse SystemHealthReport) :=
  let* report := checkAll in
  ret {| success := match overall_status report with OverallUnhealthy => false | _ => true end;
         data := Some report;
         error := None;
         message :=
           Some (match overall_status report with
                 | OverallHealthy => "All systems operational"
                 | OverallDegraded => "Some services have warnings"
                 | OverallUnhealthy => "Critical services are unavailable"
                 end) |}.

End HealthChecker.

(* ================================================================== *)
(** ** Vocabulary of the health properties *)

(** The world after one more reading of the clock. *)
Definition tick (w : World) : World :=
  {| db := db w; trace := trace w; clock_reads := S (clock_reads w) |}.

(** The call returns a response that reports success. *)
Definition succeeds {A} (call : M (ToolResponse A)) (w : World) : bool :=
  match call w with
  | (Returned response, _) => success response
  | (Threw _, _) => false
  end.

(** The call returns rather than throws. *)
Definition returns {A} (call : M A) (w : World) : bool :=
  match call w with
  | (Returned _, _) => true
  | (Threw _, _) => false
  end.

(** The services whose failure makes a report unhealthy. *)
Definition criticalServices : list string :=
  ["Coolify Connection"; "Coolify Authentication";
   "Supabase Connection"; "Supabase Authentication"].

(** A Coolify whose application list is always served, and one that
    always answers 503. *)
Definition coolifyUp : M (ToolResponse (list CoolifyApplication)) :=
  ret (ok (Some []) None).

Definition coolifyDown : M (ToolResponse (list CoolifyApplication)) :=
  ret (failure "Failed to list applications: Request failed with status code 503").

(** A REST root that answers with the version header, and one that is
    not reachable. *)
Definition restUp (path : string) : M Headers :=
  ret [("x-supabase-version", "1.24.09")].

Definition restDown (path : string) : M Headers :=
  throw (AxiosError None "connect ECONNREFUSED 127.0.0.1:8000").

Definition cliMissing : M (ToolResponse CLIInstalled) :=
  ret {| success := false;
         data := Some {| installed := false; cli_version := None |};
         error := Some "Supabase CLI is not installed. Install with: npm install -g supabase";
         message := None |}.

(** No call of the engine is served: the instance has no [exec] function
    and the migration table is not exposed. *)
Definition noSqlAccess : Env :=
  {| clock := ticking 1701432000123;
     fault := fun _ => Some "Could not find the function public.exec(query)";
     sql_effect := provisioning; client_errors_are_Error := true |}.

(** The overall status [checkAll] derives from the checks. *)
Definition verdict (cs : list HealthCheckResult) : OverallStatus :=
  if (0 <? count StatusUnhealthy cs)%nat then OverallUnhealthy
  else if (0 <? count StatusWarning cs)%nat then OverallDegraded
  else OverallHealthy.

(** What [checkHealth] makes of the outcome of a probe. *)
Definition healthOf {A} (o : Outcome A) : ServiceHealth :=
  match o with
  | Returned _ => ServiceHealthy
  | Threw _ => ServiceUnhealthy
  end.

(** The token of the service role has expired. *)
Definition expiredToken : Env :=
  {| clock := ticking 1701432000123; fault := fun _ => Some "JWT expired";
     sql_effect := provisioning; client_errors_are_Error := true |}.

(* ================================================================== *)
(** ** The resources of the server (resources.ts) *)

Record Resource := {
  res_uri : string;
  res_name : string;
  res_description : string;
  res_mimeType : string
}.

(** The answer of the ListResources handler. *)
Definition listResources : list Resource :=
  [ {| res_uri := "supabase://migrations"; res_name := "Database Migrations";
       res_description := "All database migrations"; res_mimeType := "application/json" |};
    {| res_uri := "supabase://edge-functions"; res_name := "Edge Functions";
       res_description := "All deployed edge functions"; res_mimeType := "application/json" |};
    {| res_uri := "supabase://storage-buckets"; res_name := "Storage Buckets";
       res_description := "All storage buckets"; res_mimeType := "application/json" |};
    {| res_uri := "supabase://auth-config"; res_name := "Auth Configuration";
       res_description := "Authentication configuration";
       res_mimeType := "application/json" |};
    {| res_uri := "supabase://health"; res_name := "Service Health";
       res_description := "Health status of all Supabase services";
       res_mimeType := "application/json" |};
    {| res_uri := "coolify://applications"; res_name := "Coolify Applications";
       res_description := "All Coolify applications"; res_mimeType := "application/json" |};
    {| res_uri := "coolify://services"; res_name := "Coolify Services";
       res_description := "All Coolify services"; res_mimeType := "application/json" |};
    {| res_uri := "coolify://databases"; res_name := "Coolify Databases";
       res_description := "All Coolify databases"; res_mimeType := "application/json" |} ].

(** [result.data || []]. *)
Definition orEmpty {A} (d : option (list A)) : list A :=
  match d with Some l => l | None => [] end.

Section Resources.

Variable env : Env.
Variable adminGet : string -> M Headers.
Variable selectHealth : M (Reply unit).
Variable listBuckets : M (Reply unit).

(** The methods of the two clients that the engine's model does not
    cover, with the types of their data. *)
Variables EdgeFunction StorageBucket SupabaseAuthConfig CoolifyService CoolifyDatabase : Type.
Variable supabase_listEdgeFunctions : M (ToolResponse (list EdgeFunction)).
Variable supabase_listStorageBuckets : M (ToolResponse (list StorageBucket)).
Variable supabase_getAuthConfig : M (ToolResponse SupabaseAuthConfig).
Variable coolify_listApplications : M (ToolResponse (list CoolifyApplication)).
Variable coolify_listServices : M (ToolResponse (list CoolifyService)).
Variable coolify_listDatabases : M (ToolResponse (list CoolifyDatabase)).

(** The [data] of a resource; the auth configuration is [{}] when the
    result has no data. *)
Inductive ResourceData :=
| MigrationsData (l : list Migration)
| EdgeFunctionsData (l : list EdgeFunction)
| StorageBucketsData (l : list StorageBucket)
| AuthConfigData (c : option SupabaseAuthConfig)
| HealthData (l : list SupabaseServiceStatus)
| ApplicationsData (l : list CoolifyApplication)
| ServicesData (l : list CoolifyService)
| DatabasesData (l : list CoolifyDatabase).

(** The object whose JSON text the handler returns. *)
Inductive ResourceText :=
| Described (description : string) (content : ResourceData) (timestamp : string)
| Errored (error_text : string).

Record ResourceContents := {
  rc_uri : string;
  rc_mimeType : string;
  rc_text : ResourceText
}.

(** The ReadResource handler. *)
Definition readResource (uri : string) : M ResourceContents :=
  tryCatch
    (let* described :=
       if String.eqb uri "supabase://migrations" then
         let* result := listMigrations env in
         ret (MigrationsData (orEmpty (data result)), "All database migrations")
       else if String.eqb uri "supabase://edge-functions" then
         let* result := supabase_listEdgeFunctions in
         ret (EdgeFunctionsData (orEmpty (data result)), "All deployed edge functions")
       else if String.eqb uri "supabase://storage-buckets" then
         let* result := supabase_listStorageBuckets in
         ret (StorageBucketsData (orEmpty (data result)), "All storage buckets")
       else if String.eqb uri "supabase://auth-config" then
         let* result := supabase_getAuthConfig in
         ret (AuthConfigData (data result), "Authentication configuration")
       else if String.eqb uri "supabase://health" then
         let* result := checkHealth adminGet selectHealth listBuckets in
         ret (HealthData (orEmpty (data result)), "Service health status")
       else if String.eqb uri "coolify://applications" then
         let* result := coolify_listApplications in
         ret (ApplicationsData (orEmpty (data result)), "All Coolify applications")
       else if String.eqb uri "coolify://services" then
         let* result := coolify_listServices in
         ret (ServicesData (orEmpty (data result)), "All Coolify services")
       else if String.eqb uri "coolify://databases" then
         let* result := coolify_listDatabases in
         ret (DatabasesData (orEmpty (data result)), "All Coolify databases")
       else throw (ErrorObject ("Unknown resource: " ++ uri)) in
     let* ts := timestampNow env in
     ret {| rc_uri := uri;
            rc_mimeType := "application/json";
            rc_text := Described (snd described) (fst described) ts |})
    (fun e =>
       ret {| rc_uri := uri;
              rc_mimeType := "application/json";
              rc_text := Errored (errorMessageOr e "Unknown error") |}).

End Resources.

Arguments MigrationsData {_ _ _ _ _} _.
Arguments HealthData {_ _ _ _ _} _.
Arguments Described {_ _ _ _ _} _ _ _.
Arguments Errored {_ _ _ _ _} _.
Arguments rc_uri {_ _ _ _ _} _.
Arguments rc_mimeType {_ _ _ _ _} _.
Arguments rc_text {_ _ _ _ _} _.


(* ================================================================== *)
(** ** The Coolify client (coolify-client.ts) *)

(** A JavaScript object that holds strings under string keys
    ([Record<string, string>]), as the list of its entries. *)
Definition Dict : Type := list (string * string).

(** [o[k]]. *)
Fixpoint get (k : string) (o : Dict) : option string :=
  match o with
  | [] => None
  | (k', v) :: r => if String.eqb k' k then Some v else get k r
  end.

(** [o[k] = v]: the value of an existing key is replaced, a new key is
    added at the end. *)
Fixpoint set (k v : string) (o : Dict) : Dict :=
  match o with
  | [] => [(k, v)]
  | (k', v') :: r => if String.eqb k' k then (k, v) :: r else (k', v') :: set k v r
  end.

(** [Object.assign(target, source)], and the spread [{ ...target, ...source }]. *)
Definition assign (target source : Dict) : Dict :=
  fold_left (fun o entry => set (fst entry) (snd entry) o) source target.

(** [Partial<CoolifyApplication>], with the fields the tools give. *)
Record PartialApplication := {
  pa_name : option string;
  pa_description : option string;
  pa_build_pack : option string;
  pa_git_repository : option string;
  pa_git_branch : option string
}.

(** The requests the deployment tools have the client send. *)
Inductive CoolifyRequest :=
| PostApplications (body : PartialApplication)         (* POST /api/v1/applications *)
| GetApplicationByUuid (uuid : string)                  (* GET /api/v1/applications/{uuid} *)
| PatchApplicationEnv (uuid : string) (environment : Dict)
                                                        (* PATCH /api/v1/applications/{uuid}/env *)
| PostApplicationAction (uuid action : string).
                                               (* POST /api/v1/applications/{uuid}/{action} *)

(** Axios resolves with a response, of which the client reads [data], or
    rejects. *)
Inductive Answer :=
| Resolved (response_data : option CoolifyApplication)
| Rejected (e : Thrown).

(** What the tools cannot decide: the answer to the n-th request, the
    values [crypto.getRandomValues] delivers, and [process.env.SUPABASE_URL]. *)
Record CoolifyEnv := {
  answer : nat -> CoolifyRequest -> Answer;
  entropy : nat -> Z;
  SUPABASE_URL : option string
}.

Record CoolifyWorld := {
  sent : list CoolifyRequest;   (* the requests made so far, oldest first *)
  drawn : nat                   (* how many random bytes have been drawn *)
}.

Definition C (A : Type) : Type := CoolifyWorld -> Outcome A * CoolifyWorld.

Definition retC {A} (a : A) : C A := fun w => (Returned a, w).

Definition bindC {A B} (m : C A) (k : A -> C B) : C B :=
  fun w =>
    match m w with
    | (Returned a, w') => k a w'
    | (Threw e, w') => (Threw e, w')
    end.

Definition tryCatchC {A} (body : C A) (handler : Thrown -> C A) : C A :=
  fun w =>
    match body w with
    | (Returned a, w') => (Returned a, w')
    | (Threw e, w') => handler e w'
    end.

Declare Scope coolify_scope.
Delimit Scope coolify_scope with coolify.
Notation "'let*' x ':=' c 'in' k" := (bindC c (fun x => k))
  (at level 10, x pattern, c at level 100, k at level 200) : coolify_scope.
Local Open Scope coolify_scope.

Section Coolify.

Variable cenv : CoolifyEnv.

(** One request of the axios instance. *)
Definition send (r : CoolifyRequest) : C (option CoolifyApplication) := fun w =>
  let w' := {| sent := (sent w ++ [r])%list; drawn := drawn w |} in
  match answer cenv (List.length (sent w)) r with
  | Resolved response_data => (Returned response_data, w')
  | Rejected e => (Threw e, w')
  end.


Definition createApplication (body : PartialApplication)
  : C (ToolResponse CoolifyApplication) :=
  tryCatchC
    (let* response_data := send (PostApplications body) in
     retC {| success := true; data := response_data; error := None;
             message := Some "Application created successfully" |})
    (fun e => retC (handleError e "Failed to create application")).

Definition updateApplicationEnv (uuid : string) (environment : Dict)
  : C (ToolResponse unit) :=
  tryCatchC
    (let* _ := send (PatchApplicationEnv uuid environment) in
     retC (ok None (Some "Environment variables updated successfully")))
    (fun e =>
       retC (handleError e ("Failed to update environment variables for " ++ uuid))).

Definition deployApplication (uuid : string) : C (ToolResponse unit) :=
  tryCatchC
    (let* _ := send (PostApplicationAction uuid "deploy") in
     retC (ok None (Some ("Deployment started for application " ++ uuid))))
    (fun e => retC (handleError e ("Failed to deploy application " ++ uuid))).

Definition restartApplication (uuid : string) : C (ToolResponse unit) :=
  tryCatchC
    (let* _ := send (PostApplicationAction uuid "restart") in
     retC (ok None (Some ("Application " ++ uuid ++ " restarted"))))
    (fun e => retC (handleError e ("Failed to restart application " ++ uuid))).

(* ---------------------------------------------------------------- *)
(** *** The deployment tools (deployment-tools.ts) *)

Definition charset : string :=
  "ABCDEFGHIJKLMNOPQRSTUVWXYZabcdefghijklmnopqrstuvwxyz0123456789!@#$%^&*".

(** [s[i]] inside a template or a concatenation. *)
Definition charAt (s : string) (i : Z) : string :=
  match String.get (Z.to_nat i) s with
  | Some c => String c EmptyString
  | None => "undefined"
  end.

(** [crypto.getRandomValues(new Uint8Array(length))]: the next [length]
    random values, each stored modulo 256. *)
Definition getRandomValues (length : nat) : C (list Z) := fun w =>
  (Returned (map (fun i => entropy cenv i mod 256) (seq (drawn w) length)),
   {| sent := sent w; drawn := (drawn w + length)%nat |}).

(** The loop of [generateSecurePassword] over the filled array. *)
Definition passwordOf (array : list Z) : string :=
  fold_left
    (fun password value =>
       password ++ charAt charset (value mod Z.of_nat (String.length charset)))
    array EmptyString.

Definition generateSecurePassword (length : nat) : C string :=
  let* array := getRandomValues length in
  retC (passwordOf array).

Definition base64Alphabet : string :=
  "ABCDEFGHIJKLMNOPQRSTUVWXYZabcdefghijklmnopqrstuvwxyz0123456789+/".

Definition sextet (n : Z) : string :=
  match String.get (Z.to_nat n) base64Alphabet with
  | Some c => String c EmptyString
  | None => EmptyString
  end.

(** [buffer.toString('base64')]. *)
Fixpoint base64 (bytes : list Z) : string :=
  match bytes with
  | [] => EmptyString
  | [a] => sextet (a / 4) ++ sextet (a mod 4 * 16) ++ "=="
  | [a; b] =>
      sextet (a / 4) ++ sextet (a mod 4 * 16 + b / 16) ++ sextet (b mod 16 * 4) ++ "="
  | a :: b :: c :: rest =>
      sextet (a / 4) ++ sextet (a mod 4 * 16 + b / 16) ++
      sextet (b mod 16 * 4 + c / 64) ++ sextet (c mod 64) ++ base64 rest
  end.

(** [Buffer.from(s)]; a string stands for its UTF-8 bytes. *)
Definition bufferFrom (s : string) : list Z :=
  map (fun c => Z.of_nat (nat_of_ascii c)) (Js.chars s).

Definition generateSupabaseKey (role : string) : C string :=
  let encoded := base64 (bufferFrom role) in
  let* password := generateSecurePassword 32 in
  retC ("eyJ" ++ encoded ++ "." ++ password).

(** [SupabaseDeploymentConfig] of types.ts. *)
Record SupabaseDeploymentConfig := {
  postgres_version : option string;
  enable_realtime : option bool;
  enable_storage : option bool;
  enable_auth : option bool;
  enable_rest : option bool;
  enable_graphql : option bool;
  custom_domain : option string;
  environment_variables : option Dict
}.

Definition emptyConfig : SupabaseDeploymentConfig :=
  {| postgres_version := None; enable_realtime := None; enable_storage := None;
     enable_auth := None; enable_rest := None; enable_graphql := None;
     custom_domain := None; environment_variables := None |}.

Record Credentials := {
  postgres_password : option string;
  jwt_secret : option string;
  anon_key : option string;
  service_role_key : option string
}.

Record Deployment := {
  dep_uuid : string;
  dep_name : string;
  dep_status : string;
  dep_credentials : Credentials
}.

(** [flag !== false ? 'true' : 'false']. *)
Definition unlessFalse (flag : option bool) : string :=
  match flag with
  | Some false => "false"
  | _ => "true"
  end.


Definition deploy_supabase_to_coolify (name : string)
  (config_arg : option SupabaseDeploymentConfig) : C (ToolResponse Deployment) :=
  let config := match config_arg with Some c => c | None => emptyConfig end in
  tryCatchC
    (let* appResult :=
       createApplication
         {| pa_name := Some (name ++ "-supabase");
            pa_description := Some "Self-hosted Supabase instance";
            pa_build_pack := Some "docker";
            pa_git_repository := Some "https://github.com/supabase/supabase";
            pa_git_branch := Some "master" |} in
     match success appResult, data appResult with
     | true, Some app =>
         let appUuid := app_uuid app in
         let* POSTGRES_PASSWORD := generateSecurePassword 32 in
         let* JWT_SECRET := generateSecurePassword 64 in
         let* ANON_KEY := generateSupabaseKey "anon" in
         let* SERVICE_ROLE_KEY := generateSupabaseKey "service_role" in
         let envVars :=
           assign
             [("POSTGRES_VERSION", Js.orElse (postgres_version config) "15");
              ("POSTGRES_PASSWORD", POSTGRES_PASSWORD);
              ("JWT_SECRET", JWT_SECRET);
              ("ANON_KEY", ANON_KEY);
              ("SERVICE_ROLE_KEY", SERVICE_ROLE_KEY);
              ("SITE_URL",
               Js.orElse (custom_domain config)
                 (Js.orElse (SUPABASE_URL cenv) ("https://" ++ name ++ ".coolify.app")));
              ("ENABLE_REALTIME", unlessFalse (enable_realtime config));
              ("ENABLE_STORAGE", unlessFalse (enable_storage config));
              ("ENABLE_AUTH", unlessFalse (enable_auth config));
              ("ENABLE_REST", unlessFalse (enable_rest config));
              ("ENABLE_GRAPHQL", unlessFalse (enable_graphql config))]
             (match environment_variables config with Some vars => vars | None => [] end) in
         let* envResult := updateApplicationEnv appUuid envVars in
         if negb (success envResult) then
           retC (failure "Failed to configure environment variables")
         else
           let* deployResult := deployApplication appUuid in
           if negb (success deployResult) then
             retC (failure "Failed to deploy Supabase")
           else
             retC (ok (Some {| dep_uuid := appUuid;
                               dep_name := name;
                               dep_status := "deploying";
                               dep_credentials :=
                                 {| postgres_password := get "POSTGRES_PASSWORD" envVars;
                                    jwt_secret := get "JWT_SECRET" envVars;
                                    anon_key := get "ANON_KEY" envVars;
                                    service_role_key := get "SERVICE_ROLE_KEY" envVars |} |})
                      (Some ("Supabase deployment started successfully. " ++
                             "Save the credentials securely!")))
     | _, _ => retC (failure "Failed to create Supabase application")
     end)
    (fun e => retC (failure ("Deployment failed: " ++ errorMessageOr e "Unknown error"))).




End Coolify.

Local Close Scope coolify_scope.

(* ================================================================== *)
(** ** Vocabulary of the deployment properties *)

(** How many of the 256 values of a byte make [generateSecurePassword]
    pick the character [c]. *)
Definition preimages (c : ascii) : nat :=
  List.length
    (filter (fun value => String.eqb (passwordOf [value]) (String c EmptyString))
            (map Z.of_nat (seq 0 256))).

(** The number of dots in a string. *)
Definition dots (s : string) : nat :=
  List.length (filter (Ascii.eqb ".") (Js.chars s)).

(** The first request of [deploy_supabase_to_coolify]. *)
Definition creation (name : string) : CoolifyRequest :=
  PostApplications
    {| pa_name := Some (name ++ "-supabase");
       pa_description := Some "Self-hosted Supabase instance";
       pa_build_pack := Some "docker";
       pa_git_repository := Some "https://github.com/supabase/supabase";
       pa_git_branch := Some "master" |}.


(** The keys of an object are distinct. *)
Definition distinctKeys (o : Dict) : Prop := NoDup (map fst o).

(** A Coolify that answers every request, creating and finding the
    application [supabase-app]; random values 0, 1, 2, ... *)
Definition supabaseApp : CoolifyApplication :=
  {| app_id := "7"; app_uuid := "a1b2c3"; app_name := "demo-supabase";
     app_description := None; app_fqdn := None; app_status := "running";
     app_build_pack := Some "docker"; app_git_repository := None; app_git_branch := None;
     app_environment := Some [("POSTGRES_VERSION", "14"); ("ENABLE_AUTH", "true");
                              ("SMTP_HOST", "mail.example.com")] |}.

Definition coolifyServing : CoolifyEnv :=
  {| answer := fun _ _ => Resolved (Some supabaseApp);
     entropy := fun n => Z.of_nat n;
     SUPABASE_URL := None |}.

Definition freshCoolify : CoolifyWorld := {| sent := []; drawn := 0 |}.

(** The [environment_variables] of a configuration, none when absent. *)
Definition variablesOf (config : SupabaseDeploymentConfig) : Dict :=
  match environment_variables config with Some vars => vars | None => [] end.

(** The configuration [deploy_supabase_to_coolify] works with. *)
Definition configOf (config_arg : option SupabaseDeploymentConfig) : SupabaseDeploymentConfig :=
  match config_arg with Some c => c | None => emptyConfig end.


(* ================================================================== *)
(** ** The schema of the count (validation.ts) *)

(** [z.number().int().min(1).max(100).default(1)], with the texts Zod
    gives the two bounds. *)
Definition rollbackLastMigrationsSchema : Schema CountArgs := fun a =>
  match ca_count a with
  | None => []
  | Some n =>
      ((if (1 <=? n)%nat then []
        else [issue "count" "Number must be greater than or equal to 1"]) ++
       (if (n <=? 100)%nat then []
        else [issue "count" "Number must be less than or equal to 100"]))%list
  end.

(* ================================================================== *)
(** * Properties *)

(** ** Strings *)

Lemma append_assoc (a b c : string) : (a ++ b) ++ c = a ++ (b ++ c).
Proof. induction a as [|x a IH]; simpl; [reflexivity | now rewrite IH]. Qed.

Lemma length_append (a b : string) :
  String.length (a ++ b) = (String.length a + String.length b)%nat.
Proof. induction a as [|x a IH]; simpl; [reflexivity | now rewrite IH]. Qed.

Lemma chars_append (a b : string) : Js.chars (a ++ b) = (Js.chars a ++ Js.chars b)%list.
Proof. induction a as [|x a IH]; simpl; [reflexivity | now rewrite IH]. Qed.

Lemma removeChars_append cls (a b : string) :
  Js.removeChars cls (a ++ b) = Js.removeChars cls a ++ Js.removeChars cls b.
Proof.
  induction a as [|x a IH]; simpl; [reflexivity|].
  destruct (cls x); simpl; now rewrite IH.
Qed.

Lemma substring_prefix (a b : string) :
  substring 0 (String.length a) (a ++ b) = a.
Proof. induction a as [|x a IH]; simpl; [now destruct b | now rewrite IH]. Qed.

Lemma slice_prefix (n : nat) (a b : string) :
  String.length a = n -> Js.slice 0 n (a ++ b) = a.
Proof. intros <-. unfold Js.slice. rewrite Nat.sub_0_r. apply substring_prefix. Qed.

Lemma allDigits_append (a b : string) :
  Js.allDigits (a ++ b) = Js.allDigits a && Js.allDigits b.
Proof. unfold Js.allDigits. now rewrite chars_append, forallb_app. Qed.

(** ** Decimal digits *)

Lemma digitChar_cases (d : Z) :
  exists k, (k < 10)%nat /\ DateTime.digitChar d = ascii_of_nat (48 + k).
Proof.
  exists (Z.to_nat (d mod 10)). split; [|reflexivity].
  pose proof (Z.mod_pos_bound d 10 ltac:(lia)). lia.
Qed.

Ltac digit_cases d :=
  let k := fresh "k" in
  let Hk := fresh "Hk" in
  let E := fresh "E" in
  destruct (digitChar_cases d) as (k & Hk & E); rewrite E;
  do 10 (destruct k as [|k]; [reflexivity|]); lia.

Lemma digitChar_isDigit (d : Z) : Js.isDigit (DateTime.digitChar d) = true.
Proof. digit_cases d. Qed.

Lemma digitChar_not_separator (d : Z) : isSeparator (DateTime.digitChar d) = false.
Proof. digit_cases d. Qed.

Lemma padDigits_length (w : nat) (n : Z) : String.length (DateTime.padDigits w n) = w.
Proof.
  revert n. induction w as [|w IH]; intros n; cbn [DateTime.padDigits]; [reflexivity|].
  rewrite length_append, IH. cbn [String.length]. lia.
Qed.

Lemma padDigits_allDigits (w : nat) (n : Z) : Js.allDigits (DateTime.padDigits w n) = true.
Proof.
  revert n. induction w as [|w IH]; intros n; cbn [DateTime.padDigits]; [reflexivity|].
  rewrite allDigits_append, IH. unfold Js.allDigits.
  cbn [Js.chars forallb andb]. now rewrite digitChar_isDigit.
Qed.

Lemma padDigits_removeChars (w : nat) (n : Z) :
  Js.removeChars isSeparator (DateTime.padDigits w n) = DateTime.padDigits w n.
Proof.
  revert n. induction w as [|w IH]; intros n; cbn [DateTime.padDigits]; [reflexivity|].
  rewrite removeChars_append, IH. cbn [Js.removeChars].
  now rewrite digitChar_not_separator.
Qed.

(** ** The calendar *)

Lemma YearFromTime_spec (t : Z) :
  DateTime.DayFromYear (DateTime.YearFromTime t) <= DateTime.Day t
  < DateTime.DayFromYear (DateTime.YearFromTime t + 1).
Proof.
  unfold DateTime.YearFromTime.
  generalize (DateTime.Day t) as d. intros d. cbv zeta.
  destruct (Z.ltb_spec d (DateTime.DayFromYear (1970 + d * 400 / 146097)));
    [|destruct (Z.leb_spec (DateTime.DayFromYear (1970 + d * 400 / 146097 + 1)) d)];
    unfold DateTime.DayFromYear in *; Z.div_mod_to_equations; lia.
Qed.

(** [YearFromTime] is the only year whose days contain [Day t]. *)
Lemma YearFromTime_unique (t y : Z) :
  DateTime.DayFromYear y <= DateTime.Day t < DateTime.DayFromYear (y + 1) ->
  DateTime.YearFromTime t = y.
Proof.
  intros H. pose proof (YearFromTime_spec t) as S.
  revert H S. generalize (DateTime.YearFromTime t) as y'. intros y'.
  unfold DateTime.DayFromYear. intros H S.
  Z.div_mod_to_equations. lia.
Qed.

Lemma DayFromYear_step (y : Z) :
  DateTime.DayFromYear (y + 1) = DateTime.DayFromYear y + DateTime.DaysInYear y.
Proof.
  unfold DateTime.DayFromYear, DateTime.DaysInYear.
  destruct (Z.eqb_spec (y mod 4) 0), (Z.eqb_spec (y mod 100) 0),
    (Z.eqb_spec (y mod 400) 0); cbn [negb]; Z.div_mod_to_equations; lia.
Qed.

Lemma InLeapYear_bit (t : Z) : DateTime.InLeapYear t = 0 \/ DateTime.InLeapYear t = 1.
Proof. unfold DateTime.InLeapYear. destruct (_ =? 366); auto. Qed.

Lemma DayWithinYear_range (t : Z) :
  0 <= DateTime.DayWithinYear t < 365 + DateTime.InLeapYear t.
Proof.
  pose proof (YearFromTime_spec t) as S. rewrite DayFromYear_step in S.
  unfold DateTime.DayWithinYear, DateTime.InLeapYear.
  revert S. unfold DateTime.DaysInYear.
  destruct (negb _); [simpl; lia|].
  destruct (negb _); [simpl; lia|].
  destruct (negb _); simpl; lia.
Qed.

Lemma MonthFromTime_range (t : Z) : 0 <= DateTime.MonthFromTime t <= 11.
Proof.
  unfold DateTime.MonthFromTime. cbv zeta.
  repeat match goal with |- context [if ?c then _ else _] => destruct c end; lia.
Qed.

Lemma DateFromTime_range (t : Z) : 1 <= DateTime.DateFromTime t <= 31.
Proof.
  pose proof (DayWithinYear_range t) as R.
  pose proof (InLeapYear_bit t) as L.
  unfold DateTime.DateFromTime, DateTime.MonthFromTime. cbv zeta.
  revert R L. generalize (DateTime.DayWithinYear t) (DateTime.InLeapYear t).
  intros d l R L.
  repeat match goal with
         | |- context [if ?a <? ?b then _ else _] => destruct (Z.ltb_spec a b)
         end; cbv iota; lia.
Qed.

Lemma YearFromTime_four_digits (t : Z) :
  -62167219200000 <= t <= 253402300799999 ->
  0 <= DateTime.YearFromTime t <= 9999.
Proof.
  intros H. pose proof (YearFromTime_spec t) as S.
  revert S. generalize (DateTime.YearFromTime t) as y. intros y.
  unfold DateTime.DayFromYear, DateTime.Day, DateTime.msPerDay.
  intros S. Z.div_mod_to_equations. lia.
Qed.

(** ** Version allocation *)

Example allocateVersion_epoch : allocateVersion 0 = "19700101000000".
Proof. reflexivity. Qed.

Example allocateVersion_2023 : allocateVersion 1701432000123 = "20231201120000".
Proof. vm_compute. reflexivity. Qed.

Example allocateVersion_leap_day : allocateVersion 1709251199999 = "20240229235959".
Proof. vm_compute. reflexivity. Qed.

Example allocateVersion_before_epoch : allocateVersion (-1) = "19691231235959".
Proof. vm_compute. reflexivity. Qed.

(** Outside the years 0000 to 9999 [toISOString] writes a sign and six
    digits of year, and the fourteen characters kept are no timestamp of
    the form YYYYMMDDHHMMSS: the year 10000 begins with a plus sign. *)
Example allocateVersion_year_10000 :
  allocateVersion 253402300800000 = "+0100000101000" /\
  isVersion (allocateVersion 253402300800000) = false.
Proof. split; vm_compute; reflexivity. Qed.

Lemma time_of_day_range (t : Z) :
  0 <= DateTime.HourFromTime t <= 23 /\
  0 <= DateTime.MinFromTime t <= 59 /\
  0 <= DateTime.SecFromTime t <= 59.
Proof.
  unfold DateTime.HourFromTime, DateTime.MinFromTime, DateTime.SecFromTime.
  pose proof (Z.mod_pos_bound (t / DateTime.msPerHour) 24 ltac:(lia)).
  pose proof (Z.mod_pos_bound (t / DateTime.msPerMinute) 60 ltac:(lia)).
  pose proof (Z.mod_pos_bound (t / DateTime.msPerSecond) 60 ltac:(lia)).
  lia.
Qed.


Lemma timestampDigits_length (t : Z) : String.length (timestampDigits t) = 14%nat.
Proof.
  unfold timestampDigits. now rewrite !length_append, !padDigits_length.
Qed.

Lemma timestampDigits_allDigits (t : Z) : Js.allDigits (timestampDigits t) = true.
Proof.
  unfold timestampDigits. now rewrite !allDigits_append, !padDigits_allDigits.
Qed.

Lemma allocateVersion_four_digit_year (t : Z) :
  0 <= DateTime.YearFromTime t <= 9999 ->
  allocateVersion t = timestampDigits t.
Proof.
  intros Hy. unfold allocateVersion, DateTime.toISOString, DateTime.isoYear.
  replace ((0 <=? DateTime.YearFromTime t) && (DateTime.YearFromTime t <=? 9999))
    with true by (symmetry; apply andb_true_iff; split; apply Z.leb_le; lia).
  rewrite !removeChars_append, !padDigits_removeChars.
  change (Js.removeChars isSeparator "-") with "".
  change (Js.removeChars isSeparator "T") with "".
  change (Js.removeChars isSeparator ":") with "".
  change (Js.removeChars isSeparator ".") with "".
  change (Js.removeChars isSeparator "Z") with "".
  cbn [append].
  match goal with
  | |- Js.slice 0 14 ?s = _ =>
      replace s with (timestampDigits t ++ (DateTime.padDigits 3 (DateTime.msFromTime t) ++ ""))
        by (unfold timestampDigits; now rewrite !append_assoc)
  end.
  apply slice_prefix, timestampDigits_length.
Qed.


(** ** Reading the digits back *)

Lemma decimalValueFrom_append (acc : Z) (a b : string) :
  decimalValueFrom acc (a ++ b) = decimalValueFrom (decimalValueFrom acc a) b.
Proof. revert acc. induction a as [|x a IH]; intros acc; cbn; [reflexivity | apply IH]. Qed.

Lemma digitChar_value (d : Z) :
  Z.of_nat (nat_of_ascii (DateTime.digitChar d)) - 48 = d mod 10.
Proof.
  unfold DateTime.digitChar.
  pose proof (Z.mod_pos_bound d 10 ltac:(lia)) as B.
  rewrite nat_ascii_embedding by lia. lia.
Qed.

Lemma padDigits_valueFrom (w : nat) :
  forall (acc n : Z),
    decimalValueFrom acc (DateTime.padDigits w n) = acc * 10 ^ Z.of_nat w + n mod 10 ^ Z.of_nat w.
Proof.
  induction w as [|w IH]; intros acc n.
  - cbn [DateTime.padDigits decimalValueFrom Z.of_nat]. rewrite Z.pow_0_r, Z.mod_1_r. lia.
  - cbn [DateTime.padDigits]. rewrite decimalValueFrom_append, IH.
    cbn [decimalValueFrom]. rewrite digitChar_value.
    rewrite Nat2Z.inj_succ, Z.pow_succ_r by lia.
    assert (P : 0 < 10 ^ Z.of_nat w) by (apply Z.pow_pos_nonneg; lia).
    rewrite (Z.rem_mul_r n 10 (10 ^ Z.of_nat w)) by lia. lia.
Qed.

Lemma padDigits_value (w : nat) (n : Z) :
  0 <= n < 10 ^ Z.of_nat w -> decimalValue (DateTime.padDigits w n) = n.
Proof.
  intros H. unfold decimalValue. rewrite padDigits_valueFrom, Z.mod_small by exact H. lia.
Qed.

Lemma append_empty_r (a : string) : a ++ "" = a.
Proof. induction a as [|x a IH]; cbn; [reflexivity | now rewrite IH]. Qed.

Lemma substring_skip (a b : string) (n : nat) :
  substring (String.length a) n (a ++ b) = substring 0 n b.
Proof. induction a as [|x a IH]; cbn; [reflexivity | exact IH]. Qed.

Lemma substring_skip_prefix (a b c : string) :
  substring (String.length a) (String.length b) (a ++ b ++ c) = b.
Proof. rewrite substring_skip. apply substring_prefix. Qed.

(** A field of [w] digits that follows [k] characters. *)
Lemma field_of_padDigits (k w : nat) (a c : string) (n : Z) :
  String.length a = k -> 0 <= n < 10 ^ Z.of_nat w ->
  field k w (a ++ DateTime.padDigits w n ++ c) = n.
Proof.
  intros <- H. unfold field.
  rewrite <- (padDigits_length w n) at 1. rewrite substring_skip_prefix.
  now apply padDigits_value.
Qed.

Lemma timestampDigits_fields (t : Z) :
  0 <= DateTime.YearFromTime t <= 9999 ->
  field 0 4 (timestampDigits t) = DateTime.YearFromTime t /\
  field 4 2 (timestampDigits t) = DateTime.MonthFromTime t + 1 /\
  field 6 2 (timestampDigits t) = DateTime.DateFromTime t /\
  field 8 2 (timestampDigits t) = DateTime.HourFromTime t /\
  field 10 2 (timestampDigits t) = DateTime.MinFromTime t /\
  field 12 2 (timestampDigits t) = DateTime.SecFromTime t.
Proof.
  intros Hy.
  pose proof (MonthFromTime_range t). pose proof (DateFromTime_range t).
  pose proof (time_of_day_range t) as (? & ? & ?).
  unfold timestampDigits.
  set (Y := DateTime.padDigits 4 _). set (M := DateTime.padDigits 2 (_ + 1)).
  set (D := DateTime.padDigits 2 (DateTime.DateFromTime t)).
  set (h := DateTime.padDigits 2 (DateTime.HourFromTime t)).
  set (m := DateTime.padDigits 2 (DateTime.MinFromTime t)).
  set (s := DateTime.padDigits 2 (DateTime.SecFromTime t)).
  assert (LY : String.length Y = 4%nat) by apply padDigits_length.
  assert (LM : String.length M = 2%nat) by apply padDigits_length.
  assert (LD : String.length D = 2%nat) by apply padDigits_length.
  assert (Lh : String.length h = 2%nat) by apply padDigits_length.
  assert (Lm : String.length m = 2%nat) by apply padDigits_length.
  repeat split.
  - apply (field_of_padDigits 0 4 "" _ _ eq_refl). cbn. lia.
  - apply (field_of_padDigits 4 2 Y); [exact LY | cbn; lia].
  - rewrite <- (append_assoc Y M). apply field_of_padDigits; [|cbn; lia].
    rewrite length_append, LY, LM. reflexivity.
  - rewrite <- (append_assoc M D), <- (append_assoc Y). apply field_of_padDigits; [|cbn; lia].
    rewrite !length_append, LY, LM, LD. reflexivity.
  - rewrite <- (append_assoc D h), <- (append_assoc M), <- (append_assoc Y).
    apply field_of_padDigits; [|cbn; lia].
    rewrite !length_append, LY, LM, LD, Lh. reflexivity.
  - rewrite <- (append_empty_r s).
    rewrite <- (append_assoc h m), <- (append_assoc D), <- (append_assoc M), <- (append_assoc Y).
    apply field_of_padDigits; [|cbn; lia].
    rewrite !length_append, LY, LM, LD, Lh, Lm. reflexivity.
Qed.

(** C9: every version the two creation methods allocate,
    [new Date().toISOString().replace(/[-:.TZ]/g, '').slice(0, 14)], is the
    clock reading written as YYYYMMDDHHMMSS: four digits of the UTC year, two
    each of month, day, hour, minute and second, each field in its calendar
    range, so that reading the digits of a field back gives the field; it
    has fourteen characters, all decimal digits, so it matches [/^\d{14}$/].  The clock reading is one whose year has four digits, the
    only years the format can hold. *)
Theorem allocateVersion_is_timestamp (t : Z) :
  fourDigitYear t ->
  allocateVersion t = timestampDigits t /\
  String.length (allocateVersion t) = 14%nat /\
  isVersion (allocateVersion t) = true /\
  accepts (versionSchema "version") (allocateVersion t) = true /\
  field 0 4 (allocateVersion t) = DateTime.YearFromTime t /\
  field 4 2 (allocateVersion t) = DateTime.MonthFromTime t + 1 /\
  field 6 2 (allocateVersion t) = DateTime.DateFromTime t /\
  field 8 2 (allocateVersion t) = DateTime.HourFromTime t /\
  field 10 2 (allocateVersion t) = DateTime.MinFromTime t /\
  field 12 2 (allocateVersion t) = DateTime.SecFromTime t /\
  (DateTime.DayFromYear (DateTime.YearFromTime t) <= DateTime.Day t
     < DateTime.DayFromYear (DateTime.YearFromTime t + 1)) /\
  0 <= DateTime.YearFromTime t <= 9999 /\
  1 <= DateTime.MonthFromTime t + 1 <= 12 /\
  1 <= DateTime.DateFromTime t <= 31 /\
  0 <= DateTime.HourFromTime t <= 23 /\
  0 <= DateTime.MinFromTime t <= 59 /\
  0 <= DateTime.SecFromTime t <= 59.
Proof.
  intros Ht. pose proof (YearFromTime_four_digits t Ht) as Hy.
  assert (V : isVersion (allocateVersion t) = true).
  { unfold isVersion. rewrite (allocateVersion_four_digit_year t Hy).
    now rewrite timestampDigits_length, timestampDigits_allDigits. }
  split; [now apply allocateVersion_four_digit_year|].
  split; [rewrite (allocateVersion_four_digit_year t Hy); apply timestampDigits_length|].
  split; [exact V|].
  split; [unfold accepts, versionSchema; now rewrite V|].
  rewrite (allocateVersion_four_digit_year t Hy) at 1 2 3 4 5 6.
  pose proof (timestampDigits_fields t Hy) as (F1 & F2 & F3 & F4 & F5 & F6).
  do 6 (split; [assumption|]).
  split; [apply YearFromTime_spec|].
  split; [exact Hy|].
  pose proof (MonthFromTime_range t). pose proof (DateFromTime_range t).
  pose proof (time_of_day_range t). lia.
Qed.

Lemma allocateVersion_is_timestamp_witness :
  fourDigitYear 1701432000123 /\
  allocateVersion 1701432000123 = "20231201120000".
Proof.
  assert (H : fourDigitYear 1701432000123) by (unfold fourDigitYear; lia).
  split; [exact H|].
  destruct (allocateVersion_is_timestamp 1701432000123 H) as [E _].
  rewrite E. vm_compute. reflexivity.
Defined.

(** ** The query operations *)

(** C10: [listMigrations] and [getMigrationStatus] always return a response,
    and every Migration in it carries status applied, whatever the stored
    rows hold: the status is the constant of [rowToMigration], never read
    from the row.  A response without data is a failure. *)
Theorem queries_only_report_applied (env : Env) (w : World) (version : string) :
  (exists resp w',
      listMigrations env w = (Returned resp, w') /\
      match data resp with
      | Some migrations => Forall (fun m => m_status m = Applied) migrations
      | None => success resp = false
      end) /\
  (exists resp w',
      getMigrationStatus env version w = (Returned resp, w') /\
      match data resp with
      | Some m => m_status m = Applied
      | None => success resp = false
      end).
Proof.
  split.
  - unfold listMigrations, tryCatch, bind, historySelectAll, request.
    destruct (fault env _) as [msg|]; cbn.
    + unfold clientError. destruct (client_errors_are_Error env); cbn;
        eexists _, _; split; try reflexivity; reflexivity.
    + eexists _, _; split; [reflexivity|]. cbn.
      apply Forall_forall. intros m Hm. apply in_map_iff in Hm.
      destruct Hm as (row & <- & _). reflexivity.
  - unfold getMigrationStatus, tryCatch, bind, historySelectEq, request.
    destruct (fault env _) as [msg|]; cbn.
    + unfold clientError. destruct (client_errors_are_Error env); cbn;
        eexists _, _; split; try reflexivity; reflexivity.
    + unfold single.
      destruct (filter (hasVersion version) (history (db w))) as [|row [|row' rest]]; cbn;
        try (unfold clientError; destruct (client_errors_are_Error env); cbn);
        eexists _, _; split; try reflexivity; reflexivity.
Qed.

(** ** Network calls *)

Lemma request_fault (env : Env) {A} (c : Call) (serve : Database -> Reply A * Database)
  (w : World) (msg : string) :
  fault env (List.length (trace w)) = Some msg ->
  request env c serve w =
    (Returned (Error msg),
     {| db := db w; trace := (trace w ++ [(c, false)])%list; clock_reads := clock_reads w |}).
Proof. intros F. unfold request. now rewrite F. Qed.

Lemma request_served (env : Env) {A} (c : Call) (serve : Database -> Reply A * Database)
  (w : World) :
  fault env (List.length (trace w)) = None ->
  request env c serve w =
    (Returned (fst (serve (db w))),
     {| db := snd (serve (db w));
        trace := (trace w ++ [(c, isData (fst (serve (db w))))])%list;
        clock_reads := clock_reads w |}).
Proof. intros F. unfold request. rewrite F. now destruct (serve (db w)). Qed.

(** The index of the call after the next one. *)
Lemma trace_grows (tr : list Event) (e : Event) :
  List.length (tr ++ [e])%list = S (List.length tr).
Proof. apply last_length. Qed.

(** ** Single-version rollback *)

(** C5: when a down payload is supplied (a non-empty string: the method
    tests its truthiness) and the gateway fails to apply it, that is both
    the [exec_sql] call and the [executeSQL] fallback fail,
    [rollbackMigration] returns a failure carrying the gateway's error, the
    two tables are unchanged and the only calls made are the two gateway
    attempts: the delete of the History Store row is never issued. *)
Theorem rollbackMigration_aborts_when_down_fails
  (env : Env) (w : World) (version down e1 e2 : string) :
  Js.truthy down = true ->
  fault env (List.length (trace w)) = Some e1 ->
  fault env (S (List.length (trace w))) = Some e2 ->
  exists resp w',
    rollbackMigration env version (Some down) w = (Returned resp, w') /\
    success resp = false /\
    data resp = None /\
    error resp = Some ("Failed to rollback migration " ++ version ++ ": " ++ sqlNotSupported e2) /\
    db w' = db w /\
    history (db w') = history (db w) /\
    (exists evs,
        trace w' = (trace w ++ evs)%list /\
        evs = [(RpcExecSql down, false); (RpcExec down, false)] /\
        deletesOf evs = []).
Proof.
  intros T F1 F2.
  unfold rollbackMigration, tryCatch, bind. rewrite T.
  unfold rpcExecSql. rewrite (request_fault env _ _ w e1 F1).
  unfold executeSQL, tryCatch, bind, rpcExec.
  rewrite (request_fault env _ _ _ e2) by (cbn [trace]; rewrite trace_grows; exact F2).
  cbn. eexists _, _. split; [reflexivity|]. cbn.
  repeat split.
  eexists. split; [|split; reflexivity]. now rewrite <- app_assoc.
Qed.

(** ** Forward creation *)

(** C1, as the code has it: when both execution attempts fail (the [exec]
    call with message [e1], then the admin fallback), [deployMigration]
    returns a failure whose error text carries [e1], the error of the first
    attempt, and whose data is the Migration with the allocated version, the
    name and status pending.  No History Store call is made and the two
    tables are unchanged: the pending Migration lives in the response only. *)
Theorem deployMigration_failed_execution
  (env : Env) (w : World) (sql name e1 e2 : string) :
  fault env (List.length (trace w)) = Some e1 ->
  fault env (S (List.length (trace w))) = Some e2 ->
  deployMigration env sql name w =
    (Returned {| success := false;
                 data := Some (deployedMigration env w sql name Pending);
                 error := Some (executionFailedError e1);
                 message := None |},
     {| db := db w;
        trace := (trace w ++ [(RpcExec sql, false); (AdminQuery sql, false)])%list;
        clock_reads := S (S (clock_reads w)) |}).
Proof.
  intros F1 F2.
  unfold deployMigration, tryCatch, bind, now, rpcExec.
  rewrite (request_fault env _ _ _ e1) by exact F1.
  unfold adminQuery, bind.
  rewrite (request_fault env _ _ _ e2) by (cbn [trace]; rewrite trace_grows; exact F2).
  cbn [ret throw db trace clock_reads]. rewrite <- app_assoc. reflexivity.
Qed.

(** C2, as the code has it: when the gateway applies the payload (the
    [exec] call, or the admin fallback after it), [deployMigration] returns
    success with the Migration of the allocated version, status applied and
    [executed_at] set.  It makes gateway calls only and writes no History
    Store row: the tables change by the payload's own effect alone.  So
    [getMigrationStatus] of the returned version succeeds afterwards only
    if the store, as the payload left it, holds exactly one row of that
    version. *)
Theorem deployMigration_successful_execution
  (env : Env) (w : World) (sql name : string) :
  gatewayApplies env w ->
  let w' := {| db := sql_effect env sql (db w);
               trace := (trace w ++ executionCalls env w sql)%list;
               clock_reads := S (S (clock_reads w)) |} in
  let m := deployedMigration env w sql name Applied in
  deployMigration env sql name w =
    (Returned (ok (Some m) (Some (createdMessage name (m_version m)))), w') /\
  (forall resp w'',
      getMigrationStatus env (m_version m) w' = (Returned resp, w'') ->
      success resp = true ->
      exists row,
        filter (hasVersion (m_version m)) (history (sql_effect env sql (db w))) = [row]).
Proof.
  intros G. cbv zeta. split.
  - unfold deployMigration, tryCatch, bind, now, rpcExec, executionCalls.
    destruct G as [F1 | [F1 F2]].
    + rewrite (request_served env _ _ _) by exact F1.
      rewrite F1. reflexivity.
    + destruct (fault env (List.length (trace w))) as [e1|] eqn:E1; [|congruence].
      rewrite (request_fault env _ _ _ e1) by exact E1.
      unfold adminQuery, bind.
      rewrite (request_served env _ _ _) by (cbn [trace]; rewrite trace_grows; exact F2).
      cbn [ret throw db trace clock_reads fst snd applySql isData].
      rewrite <- app_assoc. reflexivity.
  - intros resp w''. unfold getMigrationStatus, tryCatch, bind, historySelectEq, request.
    destruct (fault env _) as [msg|].
    + unfold clientError. destruct (client_errors_are_Error env); cbn;
        intros [= <- _] S; discriminate S.
    + cbn [db]. unfold single.
      destruct (filter _ _) as [|row [|row' rest]]; cbn;
        try (unfold clientError; destruct (client_errors_are_Error env); cbn);
        intros [= <- _] S; try discriminate S.
      all: now exists row.
Qed.

(** ** Ordering of version strings *)

Lemma ascii_compare_trans (x y z : ascii) (c : comparison) :
  Ascii.compare x y = c -> Ascii.compare y z = c -> Ascii.compare x z = c.
Proof.
  unfold Ascii.compare. intros H1 H2.
  destruct c.
  - apply N.compare_eq_iff in H1, H2. apply N.compare_eq_iff. congruence.
  - rewrite N.compare_lt_iff in *. lia.
  - rewrite N.compare_gt_iff in *. lia.
Qed.

Lemma string_compare_refl (a : string) : String.compare a a = Eq.
Proof.
  induction a as [|x a IH]; simpl; [reflexivity|].
  unfold Ascii.compare. now rewrite N.compare_refl.
Qed.

Lemma string_compare_lt_trans (a b c : string) :
  String.compare a b = Lt -> String.compare b c = Lt -> String.compare a c = Lt.
Proof.
  revert b c. induction a as [|x a IH]; intros [|y b] [|z c]; simpl; try congruence.
  destruct (Ascii.compare x y) eqn:Exy; try discriminate;
    destruct (Ascii.compare y z) eqn:Eyz; try discriminate; intros H1 H2.
  - apply Ascii.compare_eq_iff in Exy, Eyz. subst.
    unfold Ascii.compare. rewrite N.compare_refl. eauto.
  - apply Ascii.compare_eq_iff in Exy. subst. now rewrite Eyz.
  - apply Ascii.compare_eq_iff in Eyz. subst. now rewrite Exy.
  - now rewrite (ascii_compare_trans x y z Lt Exy Eyz).
Qed.

Lemma string_leb_trans (a b c : string) :
  String.leb a b = true -> String.leb b c = true -> String.leb a c = true.
Proof.
  unfold String.leb. intros H1 H2.
  destruct (String.compare a b) eqn:Eab; try discriminate;
    destruct (String.compare b c) eqn:Ebc; try discriminate.
  - apply String.compare_eq_iff in Eab, Ebc. subst. now rewrite string_compare_refl.
  - apply String.compare_eq_iff in Eab. subst. now rewrite Ebc.
  - apply String.compare_eq_iff in Ebc. subst. now rewrite Eab.
  - now rewrite (string_compare_lt_trans a b c Eab Ebc).
Qed.

Lemma string_leb_total (a b : string) : String.leb a b = false -> String.leb b a = true.
Proof.
  intros H. destruct (String.leb_total a b) as [E|E]; [congruence | exact E].
Qed.


(** ** [orderDesc] sorts and keeps the rows *)

Lemma insertDesc_In (r x : HistoryRow) (l : list HistoryRow) :
  In x (insertDesc r l) <-> x = r \/ In x l.
Proof.
  induction l as [|y l IH]; simpl; [intuition|].
  destruct (String.leb (row_version y) (row_version r)); simpl; [intuition|].
  rewrite IH. intuition.
Qed.

Lemma orderDesc_In (x : HistoryRow) (l : list HistoryRow) :
  In x (orderDesc l) <-> In x l.
Proof.
  induction l as [|y l IH]; simpl; [reflexivity|].
  rewrite insertDesc_In, IH. intuition.
Qed.

Lemma insertDesc_descending (r : HistoryRow) (l : list HistoryRow) :
  descending (map row_version l) -> descending (map row_version (insertDesc r l)).
Proof.
  unfold descending. induction l as [|y l IH]; simpl; intros H.
  - constructor; constructor.
  - inversion H as [|? ? Hs Hf]; subst.
    destruct (String.leb (row_version y) (row_version r)) eqn:E; simpl.
    + constructor; [exact H|]. constructor; [exact E|].
      apply Forall_forall. intros v Hv. rewrite Forall_forall in Hf.
      unfold newer in *. apply (string_leb_trans _ (row_version y)); auto.
    + constructor; [now apply IH|].
      apply Forall_forall. intros v Hv. apply in_map_iff in Hv.
      destruct Hv as (x & <- & Hx). apply insertDesc_In in Hx.
      destruct Hx as [->|Hx].
      * now apply string_leb_total.
      * rewrite Forall_forall in Hf. apply Hf. now apply in_map.
Qed.

Lemma orderDesc_descending (l : list HistoryRow) :
  descending (map row_version (orderDesc l)).
Proof.
  induction l as [|y l IH]; simpl; [constructor|].
  now apply insertDesc_descending.
Qed.

(** ** The delete loop of the bulk strategies *)


Lemma deletesOf_app (a b : list Event) :
  deletesOf (a ++ b)%list = (deletesOf a ++ deletesOf b)%list.
Proof. apply flat_map_app. Qed.

Lemma deletedOf_app (a b : list Event) :
  deletedOf (a ++ b)%list = (deletedOf a ++ deletedOf b)%list.
Proof. apply flat_map_app. Qed.

Lemma deletedOf_incl (evs : list Event) (v : string) :
  In v (deletedOf evs) -> In v (deletesOf evs).
Proof.
  induction evs as [|[c b] evs IH]; simpl; [auto|].
  rewrite !in_app_iff. intros [H|H]; [left | right; auto].
  destruct c; simpl in *; try contradiction. destruct b; simpl in *; tauto.
Qed.

Lemma deletedOf_descending (evs : list Event) :
  descending (deletesOf evs) -> descending (deletedOf evs).
Proof.
  unfold descending. induction evs as [|[c b] evs IH]; simpl; [auto|].
  destruct c; simpl; auto. destruct b; simpl; auto.
  - intros H. inversion H as [|? ? Hs Hf]; subst. constructor; [auto|].
    apply Forall_forall. intros x Hx. rewrite Forall_forall in Hf.
    apply Hf. now apply deletedOf_incl.
  - intros H. inversion H; subst. auto.
Qed.

Lemma deleteEach_trace (env : Env) (migrations : list HistoryRow) :
  forall (acc : list string) (w : World),
  exists evs w',
    deleteEach env migrations acc w = (Returned (acc ++ deletedOf evs)%list, w') /\
    trace w' = (trace w ++ evs)%list /\
    deletesOf evs = map row_version migrations /\
    clock_reads w' = clock_reads w.
Proof.
  induction migrations as [|m rest IH]; intros acc w.
  - exists [], w. cbn. rewrite !app_nil_r. auto.
  - cbn [deleteEach]. unfold bind, historyDelete, request.
    destruct (fault env (List.length (trace w))) as [msg|].
    + match goal with
      | |- context [deleteEach env rest acc ?w1] =>
          destruct (IH acc w1) as (evs & w' & E & T & D & C)
      end.
      exists ((HistoryDelete (row_version m), false) :: evs), w'.
      rewrite E. cbn [trace clock_reads] in T, C.
      change (deletedOf ((HistoryDelete (row_version m), false) :: evs))
        with (deletedOf evs).
      change (deletesOf ((HistoryDelete (row_version m), false) :: evs))
        with (row_version m :: deletesOf evs).
      rewrite T, D, <- app_assoc. auto.
    + cbn [fst snd isData].
      match goal with
      | |- context [deleteEach env rest ?a ?w1] =>
          destruct (IH a w1) as (evs & w' & E & T & D & C)
      end.
      exists ((HistoryDelete (row_version m), true) :: evs), w'.
      rewrite E. cbn [trace clock_reads] in T, C.
      change (deletedOf ((HistoryDelete (row_version m), true) :: evs))
        with (row_version m :: deletedOf evs).
      change (deletesOf ((HistoryDelete (row_version m), true) :: evs))
        with (row_version m :: deletesOf evs).
      rewrite T, D, <- !app_assoc. auto.
Qed.

(** ** Rollback to a version *)


Lemma selected_after (target : string) (l : list HistoryRow) :
  Forall (after target)
    (map row_version (orderDesc (filter (fun r => String.ltb target (row_version r)) l))).
Proof.
  apply Forall_forall. intros v Hv. apply in_map_iff in Hv.
  destruct Hv as (r & <- & Hr). apply orderDesc_In, filter_In in Hr. apply Hr.
Qed.

(** C7: [rollbackToVersion] always returns a response.  When it carries
    data, the [rolledBack] list holds only versions strictly greater than the
    target and is sorted descending; the History Store deletes the call
    issued were issued in descending order of version, newest first, and
    [rolledBack] lists, in that order, the deletes that were answered
    without error.  When it carries no data the call failed and no delete
    was issued. *)
Theorem rollbackToVersion_newest_first (env : Env) (target : string) (w : World) :
  exists resp w' evs,
    rollbackToVersion env target w = (Returned resp, w') /\
    trace w' = (trace w ++ evs)%list /\
    match data resp with
    | Some r =>
        Forall (after target) (rolledBack r) /\
        descending (rolledBack r) /\
        rolledBack r = deletedOf evs /\
        descending (deletesOf evs) /\
        Forall (after target) (deletesOf evs)
    | None => success resp = false /\ deletesOf evs = []
    end.
Proof.
  unfold rollbackToVersion, tryCatch, bind, historySelectGt, request.
  destruct (fault env (List.length (trace w))) as [msg|].
  - unfold clientError. destruct (client_errors_are_Error env); cbn;
      eexists _, _, [_]; repeat split; reflexivity.
  - cbn [fst snd isData].
    pose proof (selected_after target (history (db w))) as A.
    pose proof (orderDesc_descending
                  (filter (fun r => String.ltb target (row_version r)) (history (db w)))) as S.
    destruct (orderDesc _) as [|m rest] eqn:Rows.
    + cbn. eexists _, _, [_]. repeat split; try reflexivity; constructor.
    + cbn [List.length Nat.eqb].
      match goal with
      | |- context [deleteEach env (m :: rest) [] ?w1] =>
          destruct (deleteEach_trace env (m :: rest) [] w1) as (evs & w' & E & T & D & C)
      end.
      rewrite E. cbn [ret]. cbn [trace] in T.
      exists (ok (Some {| rolledBack := deletedOf evs |})
                (Some ("Rolled back " ++ showNat (List.length (deletedOf evs)) ++
                       " migration(s) to version " ++ target))),
        w', ((HistorySelectGt target, true) :: evs).
      split; [reflexivity|]. split; [now rewrite T, <- app_assoc|].
      cbn [data ok rolledBack].
      change (deletedOf ((HistorySelectGt target, true) :: evs)) with (deletedOf evs).
      change (deletesOf ((HistorySelectGt target, true) :: evs)) with (deletesOf evs).
      rewrite D. repeat split; auto.
      * apply Forall_forall. intros v Hv. apply deletedOf_incl in Hv.
        rewrite D in Hv. rewrite Forall_forall in A. now apply A.
      * apply deletedOf_descending. now rewrite D.
Qed.

(** ** The creation paths at concrete inputs *)

(** C1 fails as stated: with both execution attempts failing on an empty
    store, [deployMigration] returns the pending Migration of version
    20231201120000, yet afterwards the History Store holds no row, the
    listing is empty and the status query for that version fails. *)
Lemma failed_deploy_leaves_no_pending_row :
  (exists resp m,
      fst (deployMigration unreachable "CREATE TABLE users (id int)" "add_users_table"
             (initialWorld emptyDatabase)) = Returned resp /\
      success resp = false /\ data resp = Some m /\
      m_version m = "20231201120000" /\ m_status m = Pending) /\
  history (db (snd (deployMigration unreachable "CREATE TABLE users (id int)"
                      "add_users_table" (initialWorld emptyDatabase)))) = [] /\
  fst (listMigrations unreachable
         (snd (deployMigration unreachable "CREATE TABLE users (id int)"
                 "add_users_table" (initialWorld emptyDatabase))))
  = Returned (ok (Some []) None) /\
  fst (getMigrationStatus unreachable "20231201120000"
         (snd (deployMigration unreachable "CREATE TABLE users (id int)"
                 "add_users_table" (initialWorld emptyDatabase))))
  = Returned (failure ("Failed to get migration status for version 20231201120000: " ++ noRows)).
Proof.
  split; [|vm_compute; auto].
  eexists _, _. split; [vm_compute; reflexivity|]. vm_compute. auto.
Qed.

Lemma deployMigration_failed_execution_witness :
  fst (deployMigration unreachable "CREATE TABLE users (id int)" "add_users_table"
         (initialWorld emptyDatabase))
  = Returned {| success := false;
                data := Some (deployedMigration unreachable (initialWorld emptyDatabase)
                                "CREATE TABLE users (id int)" "add_users_table" Pending);
                error := Some (executionFailedError "Could not find the function");
                message := None |}.
Proof.
  rewrite (deployMigration_failed_execution unreachable (initialWorld emptyDatabase)
             "CREATE TABLE users (id int)" "add_users_table"
             "Could not find the function" "Could not find the function"
             eq_refl eq_refl).
  reflexivity.
Defined.

(** C2 fails as stated: with the gateway applying the payload on an empty
    store, [deployMigration] returns the applied Migration of version
    20231201120000, and the status query for that version, made right
    after, fails: no row was inserted. *)
Lemma successful_deploy_inserts_no_row :
  (exists resp m,
      fst (deployMigration healthy "CREATE TABLE users (id int)" "add_users_table"
             (initialWorld emptyDatabase)) = Returned resp /\
      success resp = true /\ data resp = Some m /\
      m_version m = "20231201120000" /\ m_status m = Applied) /\
  history (db (snd (deployMigration healthy "CREATE TABLE users (id int)"
                      "add_users_table" (initialWorld emptyDatabase)))) = [] /\
  fst (getMigrationStatus healthy "20231201120000"
         (snd (deployMigration healthy "CREATE TABLE users (id int)"
                 "add_users_table" (initialWorld emptyDatabase))))
  = Returned (failure ("Failed to get migration status for version 20231201120000: " ++ noRows)).
Proof.
  split; [|vm_compute; auto].
  eexists _, _. split; [vm_compute; reflexivity|]. vm_compute. auto.
Qed.

Lemma deployMigration_successful_execution_witness :
  gatewayApplies healthy (initialWorld emptyDatabase) /\
  fst (deployMigration healthy "CREATE TABLE users (id int)" "add_users_table"
         (initialWorld emptyDatabase))
  = Returned (ok (Some (deployedMigration healthy (initialWorld emptyDatabase)
                          "CREATE TABLE users (id int)" "add_users_table" Applied))
                (Some (createdMessage "add_users_table" "20231201120000"))).
Proof.
  assert (G : gatewayApplies healthy (initialWorld emptyDatabase)) by (left; reflexivity).
  split; [exact G|].
  destruct (deployMigration_successful_execution healthy (initialWorld emptyDatabase)
              "CREATE TABLE users (id int)" "add_users_table" G) as [E _].
  rewrite E. reflexivity.
Defined.

Lemma rollbackMigration_aborts_when_down_fails_witness :
  exists resp w',
    rollbackMigration unreachable "20231201120000" (Some "DROP TABLE users")
      (initialWorld {| history := [usersRow]; ledger := None |}) = (Returned resp, w') /\
    success resp = false /\
    history (db w') = [usersRow].
Proof.
  destruct (rollbackMigration_aborts_when_down_fails unreachable
              (initialWorld {| history := [usersRow]; ledger := None |})
              "20231201120000" "DROP TABLE users"
              "Could not find the function" "Could not find the function"
              eq_refl eq_refl eq_refl)
    as (resp & w' & E & S & _ & _ & _ & H & _).
  exists resp, w'. auto.
Defined.

(** ** The reversible path at concrete inputs *)

(** C3 at a failing input: the clock passes a second boundary between the
    reading of [createMigrationWithRollback] and the reading of the
    [deployMigration] it calls.  The returned Migration carries version
    20240101000001, the ledger row is stored under 20240101000000, and
    [rollbackMigrationWithDownSql] on the returned version finds no
    rollback SQL: the stored down payload is never sent to the gateway. *)
Theorem ledger_row_under_another_version :
  (exists resp m,
      fst (createMigrationWithRollback secondBoundary "add_users_table"
             "CREATE TABLE users (id int)" "DROP TABLE users"
             (initialWorld {| history := []; ledger := Some [] |})) = Returned resp /\
      success resp = true /\ data resp = Some m /\ m_version m = "20240101000001") /\
  option_map (map (fun r => (lr_version r, lr_down_sql r)))
    (ledger (db (snd (createMigrationWithRollback secondBoundary "add_users_table"
                        "CREATE TABLE users (id int)" "DROP TABLE users"
                        (initialWorld {| history := []; ledger := Some [] |})))))
  = Some [("20240101000000", "DROP TABLE users")] /\
  rollbackMigrationWithDownSql secondBoundary "20240101000001"
    (snd (createMigrationWithRollback secondBoundary "add_users_table"
            "CREATE TABLE users (id int)" "DROP TABLE users"
            (initialWorld {| history := []; ledger := Some [] |})))
  = (Returned (failure ("No rollback SQL found for migration 20240101000001" ++
                        ". Use rollbackMigration() with manual down SQL instead.")),
     {| db := {| history := [];
                 ledger := Some [ {| lr_version := "20240101000000";
                                     lr_name := "add_users_table";
                                     lr_down_sql := "DROP TABLE users";
                                     lr_created_at := "2024-01-01T00:00:01.002Z" |} ] |};
        trace := [ (RpcExec "CREATE TABLE users (id int)", true);
                   (LedgerInsert {| lr_version := "20240101000000";
                                    lr_name := "add_users_table";
                                    lr_down_sql := "DROP TABLE users";
                                    lr_created_at := "2024-01-01T00:00:01.002Z" |}, true);
                   (LedgerSelectEq "20240101000001", false) ];
        clock_reads := 4 |}).
Proof.
  split; [|split; vm_compute; reflexivity].
  eexists _, _. split; [vm_compute; reflexivity|]. vm_compute. auto.
Qed.

(** C4 at two failing inputs.  First, the ledger already holds a row of
    version 20240101000000 (a reversible migration created in the same
    second): the ledger insert fails on the primary key, the table is
    provisioned, the insert is retried once and fails again.  Second, the
    ledger table is absent and cannot be provisioned, the [exec] function
    being absent too: both inserts fail.  Each time the method returns
    success with the message of the good path and no error, and the down
    payload of the new migration is stored nowhere. *)
Theorem failed_ledger_retry_is_not_reported :
  createMigrationWithRollback newYear "add_orders_table"
    "CREATE TABLE orders (id int)" "DROP TABLE orders"
    (initialWorld {| history := []; ledger := Some [usersLedgerRow] |})
  = (Returned
       {| success := true;
          data := Some {| m_version := "20240101000000";
                          m_name := "add_orders_table";
                          m_executed_at := Some "2024-01-01T00:00:00.002Z";
                          m_status := Applied;
                          m_sql := Some "CREATE TABLE orders (id int)" |};
          error := None;
          message := Some "Migration add_orders_table deployed with rollback support" |},
     {| db := {| history := []; ledger := Some [usersLedgerRow] |};
        trace := [ (RpcExec "CREATE TABLE orders (id int)", true);
                   (LedgerInsert {| lr_version := "20240101000000";
                                    lr_name := "add_orders_table";
                                    lr_down_sql := "DROP TABLE orders";
                                    lr_created_at := "2024-01-01T00:00:00.003Z" |}, false);
                   (RpcExec createTableStatement, true);
                   (LedgerInsert {| lr_version := "20240101000000";
                                    lr_name := "add_orders_table";
                                    lr_down_sql := "DROP TABLE orders";
                                    lr_created_at := "2024-01-01T00:00:00.004Z" |}, false) ];
        clock_reads := 5 |}) /\
  createMigrationWithRollback noExecFunction "add_orders_table"
    "CREATE TABLE orders (id int)" "DROP TABLE orders" (initialWorld emptyDatabase)
  = (Returned
       {| success := true;
          data := Some {| m_version := "20240101000000";
                          m_name := "add_orders_table";
                          m_executed_at := Some "2024-01-01T00:00:00.002Z";
                          m_status := Applied;
                          m_sql := Some "CREATE TABLE orders (id int)" |};
          error := None;
          message := Some "Migration add_orders_table deployed with rollback support" |},
     {| db := emptyDatabase;
        trace := [ (RpcExec "CREATE TABLE orders (id int)", false);
                   (AdminQuery "CREATE TABLE orders (id int)", true);
                   (LedgerInsert {| lr_version := "20240101000000";
                                    lr_name := "add_orders_table";
                                    lr_down_sql := "DROP TABLE orders";
                                    lr_created_at := "2024-01-01T00:00:00.003Z" |}, false);
                   (RpcExec createTableStatement, false);
                   (LedgerInsert {| lr_version := "20240101000000";
                                    lr_name := "add_orders_table";
                                    lr_down_sql := "DROP TABLE orders";
                                    lr_created_at := "2024-01-01T00:00:00.004Z" |}, false) ];
        clock_reads := 5 |}).
Proof. split; vm_compute; reflexivity. Qed.

(** ** Single-version rollback at a concrete input *)

(** C6 at a failing input: the History Store delete is answered by an
    error and so is the [executeSQL] fallback.  [rollbackMigration] still
    returns success, the row is still stored, and the status query that
    follows returns the migration as applied. *)
Theorem failed_delete_is_reported_as_rolled_back :
  rollbackMigration unreachable "20231201120000" None
    (initialWorld {| history := [usersRow]; ledger := None |})
  = (Returned (ok None (Some "Migration 20231201120000 rolled back successfully")),
     {| db := {| history := [usersRow]; ledger := None |};
        trace := [ (HistoryDelete "20231201120000", false);
                   (RpcExec (deleteStatement "20231201120000"), false) ];
        clock_reads := 0 |}) /\
  fst (getMigrationStatus unreachable "20231201120000"
         (snd (rollbackMigration unreachable "20231201120000" None
                 (initialWorld {| history := [usersRow]; ledger := None |}))))
  = Returned (ok (Some {| m_version := "20231201120000";
                          m_name := "add_users_table";
                          m_executed_at := Some "2023-12-01T12:00:00.124Z";
                          m_status := Applied;
                          m_sql := None |}) None).
Proof. split; vm_compute; reflexivity. Qed.

(** ** The tool handlers at concrete inputs *)

(** C8 at a failing input: the handlers that take a version pass it on
    without validating it.  A version the schema refuses reaches the
    History Store (a delete, a status select, a range select) and the
    Rollback Ledger, and the delete is reported as a successful rollback. *)
Theorem malformed_version_reaches_the_store :
  accepts rollbackMigrationSchema {| rm_version := "latest"; rm_down_sql := None |} = false /\
  callTool (rollback_migration healthy {| rm_version := "latest"; rm_down_sql := None |})
    (initialWorld emptyDatabase)
  = (Returned {| content := ok None (Some "Migration latest rolled back successfully");
                 isError := false |},
     {| db := emptyDatabase; trace := [(HistoryDelete "latest", true)]; clock_reads := 0 |}) /\
  accepts getMigrationStatusSchema {| va_version := "latest" |} = false /\
  trace (snd (callTool (get_migration_status healthy {| va_version := "latest" |})
                (initialWorld emptyDatabase)))
  = [(HistorySelectEq "latest", false)] /\
  accepts rollbackToVersionSchema {| va_version := "latest" |} = false /\
  trace (snd (callTool (rollback_to_version healthy {| va_version := "latest" |})
                (initialWorld emptyDatabase)))
  = [(HistorySelectGt "latest", true)] /\
  trace (snd (callTool (rollback_migration_with_down_sql healthy {| va_version := "latest" |})
                (initialWorld emptyDatabase)))
  = [(LedgerSelectEq "latest", false)].
Proof. repeat split; vm_compute; reflexivity. Qed.

(** ** What holds of the paths the failing inputs go through *)

Lemma filter_hasVersion_removed (v : string) (l : list HistoryRow) :
  filter (hasVersion v) (filter (fun r => negb (hasVersion v r)) l) = [].
Proof.
  induction l as [|r l IH]; simpl; [reflexivity|].
  destruct (hasVersion v r) eqn:E; simpl; [exact IH|]. now rewrite E.
Qed.

Lemma status_query_without_row (env : Env) (w : World) (version : string) :
  filter (hasVersion version) (history (db w)) = [] ->
  exists detail,
    getMigrationStatus env version w =
      (Returned (failure ("Failed to get migration status for version " ++ version ++
                          ": " ++ detail)),
       {| db := db w;
          trace := (trace w ++ [(HistorySelectEq version, false)])%list;
          clock_reads := clock_reads w |}).
Proof.
  intros H.
  unfold getMigrationStatus, tryCatch, bind, historySelectEq, request.
  destruct (fault env (List.length (trace w))) as [msg|].
  - unfold clientError. destruct (client_errors_are_Error env); cbn;
      eexists; reflexivity.
  - rewrite H. unfold clientError.
    destruct (client_errors_are_Error env); cbn;
      eexists; reflexivity.
Qed.

(** X1: [getMigrationStatus] of a version no History Store row carries returns
    a failure without data, with the text of the method and the client's
    message: a returned result, not an exception, and no table changes. *)
Theorem getMigrationStatus_not_found (env : Env) (w : World) (version : string) :
  filter (hasVersion version) (history (db w)) = [] ->
  exists detail,
    getMigrationStatus env version w =
      (Returned (failure ("Failed to get migration status for version " ++ version ++
                          ": " ++ detail)),
       {| db := db w;
          trace := (trace w ++ [(HistorySelectEq version, false)])%list;
          clock_reads := clock_reads w |}).
Proof. apply status_query_without_row. Qed.

Lemma getMigrationStatus_not_found_witness :
  exists detail,
    fst (getMigrationStatus healthy "20231201120000" (initialWorld emptyDatabase)) =
      Returned (failure ("Failed to get migration status for version 20231201120000: " ++ detail)).
Proof.
  destruct (getMigrationStatus_not_found healthy (initialWorld emptyDatabase)
              "20231201120000" eq_refl) as (detail & E).
  exists detail. rewrite E. reflexivity.
Defined.

(** X2: when the delete request of [rollbackMigration] is served (no down
    payload given), the method returns success, no row of that version is
    left, and [getMigrationStatus] of the version then fails. *)
Theorem rollback_then_status_not_found (env : Env) (w : World) (version : string) :
  fault env (List.length (trace w)) = None ->
  exists w',
    rollbackMigration env version None w =
      (Returned (ok None (Some ("Migration " ++ version ++ " rolled back successfully"))), w') /\
    filter (hasVersion version) (history (db w')) = [] /\
    ledger (db w') = ledger (db w) /\
    trace w' = (trace w ++ [(HistoryDelete version, true)])%list /\
    exists detail w'',
      getMigrationStatus env version w' =
        (Returned (failure ("Failed to get migration status for version " ++ version ++
                            ": " ++ detail)), w'').
Proof.
  intros F.
  unfold rollbackMigration, tryCatch, bind, historyDelete.
  cbn [ret]. rewrite (request_served env _ _ _ F). cbn [fst snd isData ret].
  eexists. split; [reflexivity|]. cbn [db history ledger trace].
  split; [apply filter_hasVersion_removed|]. split; [reflexivity|]. split; [reflexivity|].
  match goal with
  | |- context [getMigrationStatus env version ?w1] =>
      destruct (status_query_without_row env w1 version) as (detail & E)
  end.
  - apply filter_hasVersion_removed.
  - eexists _, _. exact E.
Qed.

Lemma rollback_then_status_not_found_witness :
  exists w',
    rollbackMigration healthy "20231201120000" None
      (initialWorld {| history := [usersRow]; ledger := None |}) =
      (Returned (ok None (Some "Migration 20231201120000 rolled back successfully")), w') /\
    filter (hasVersion "20231201120000") (history (db w')) = [].
Proof.
  destruct (rollback_then_status_not_found healthy
              (initialWorld {| history := [usersRow]; ledger := None |})
              "20231201120000" eq_refl) as (w' & E & H & _).
  exists w'. split; [exact E | exact H].
Defined.



(** A name or payload is refused by the schemas exactly when it is empty
    (or, for a name, longer than 100 characters). *)
Lemma creation_schemas_refuse_empty (sql name : string) :
  accepts deployMigrationSchema {| dm_sql := sql; dm_name := name |} = true <->
  sql <> "" /\ name <> "" /\ (String.length name <= 100)%nat.
Proof.
  unfold accepts, deployMigrationSchema, sqlSchema, nameSchema. cbn [dm_sql dm_name].
  destruct (Nat.leb_spec 1 (String.length sql)) as [Hs|Hs],
    (Nat.leb_spec 1 (String.length name)) as [Hn|Hn],
    (Nat.leb_spec (String.length name) 100) as [Hl|Hl];
    cbn [app]; (split; [intros E | intros (Es & En & El)]);
    try discriminate E; try reflexivity; try lia.
  - repeat split; trivial; intros ->; cbn in *; lia.
  - destruct name; [now contradict En | cbn in Hn; lia].
  - destruct sql; [now contradict Es | cbn in Hs; lia].
  - destruct sql; [now contradict Es | cbn in Hs; lia].
Qed.

Lemma request_total (env : Env) {A} (c : Call) (serve : Database -> Reply A * Database)
  (w : World) :
  exists r w',
    request env c serve w = (Returned r, w') /\
    trace w' = (trace w ++ [(c, isData r)])%list /\
    clock_reads w' = clock_reads w.
Proof.
  unfold request. destruct (fault env (List.length (trace w))) as [msg|].
  - eexists _, _. split; [reflexivity|]. split; reflexivity.
  - destruct (serve (db w)) as [r d]. eexists _, _. split; [reflexivity|]. split; reflexivity.
Qed.

(** X4: once the forward migration is deployed, [createMigrationWithRollback]
    returns success with the deployed Migration whatever becomes of the
    ledger write: the write is made once and, when it is answered by an
    error, the table is provisioned and the write is made once more. *)
Theorem ledger_write_is_retried_once
  (env : Env) (w : World) (name upSql downSql : string)
  (resp : ToolResponse Migration) (w1 : World) :
  deployMigration env upSql name
    {| db := db w; trace := trace w; clock_reads := S (clock_reads w) |} = (Returned resp, w1) ->
  success resp = true ->
  exists w' evs,
    createMigrationWithRollback env name upSql downSql w =
      (Returned (ok (data resp)
                   (Some ("Migration " ++ name ++ " deployed with rollback support"))), w') /\
    trace w' = (trace w1 ++ evs)%list /\
    (evs = [(LedgerInsert (ledgerRowOf env w name downSql (clock env (clock_reads w1))), true)] \/
     exists provisioned retried,
       evs = [(LedgerInsert (ledgerRowOf env w name downSql (clock env (clock_reads w1))), false);
              (RpcExec createTableStatement, provisioned);
              (LedgerInsert (ledgerRowOf env w name downSql (clock env (S (clock_reads w1)))),
               retried)]).
Proof.
  intros D S.
  unfold createMigrationWithRollback, tryCatch, bind.
  unfold now at 1. rewrite D, S. cbn [negb].
  unfold now at 1. unfold ledgerInsert at 1.
  match goal with
  | |- context [request env ?c ?serve ?w2] =>
      destruct (request_total env c serve w2) as (r & w3 & E & T & C); rewrite E
  end.
  cbn [trace clock_reads] in T, C.
  destruct r as [[]|msg]; cbn [isData] in T.
  - cbn [ret]. eexists _, _. split; [reflexivity|]. split; [exact T|]. left. reflexivity.
  - unfold executeSQL, tryCatch, bind, rpcExec.
    match goal with
    | |- context [request env ?c ?serve w3] =>
        destruct (request_total env c serve w3) as (r2 & w4 & E2 & T2 & C2); rewrite E2
    end.
    assert (X : exists w5 b, 
               (let (o, w') :=
                  match r2 with
                  | Data d => ret (ok (Some d) (Some "SQL executed successfully"))
                  | Error error_message => ret (failure (sqlNotSupported error_message))
                  end w4 in
                match o with
                | Returned a => (Returned a, w')
                | Threw e => ret (handleError e "Failed to execute SQL") w'
                end) = (Returned b, w5) /\ w5 = w4).
    { destruct r2; cbn; eexists _, _; split; reflexivity. }
    destruct X as (w5 & b & X & ->). rewrite X.
    unfold now at 1. unfold ledgerInsert.
    match goal with
    | |- context [request env ?c ?serve ?w6] =>
        destruct (request_total env c serve w6) as (r3 & w7 & E3 & T3 & C3); rewrite E3
    end.
    cbn [trace clock_reads] in T3, C3. cbn [ret].
    eexists _, _. split; [reflexivity|].
    split; [rewrite T3, T2, T, <- !app_assoc; reflexivity|].
    right. exists (isData r2), (isData r3). cbn [app].
    unfold ledgerRowOf. rewrite C2, C. reflexivity.
Qed.

Lemma ledger_write_is_retried_once_witness :
  exists w',
    createMigrationWithRollback healthy "add_users_table"
      "CREATE TABLE users (id int)" "DROP TABLE users" (initialWorld emptyDatabase) =
      (Returned (ok (Some (deployedMigration healthy
                             {| db := emptyDatabase; trace := []; clock_reads := 1 |}
                             "CREATE TABLE users (id int)" "add_users_table" Applied))
                   (Some "Migration add_users_table deployed with rollback support")), w').
Proof.
  destruct (ledger_write_is_retried_once healthy (initialWorld emptyDatabase)
              "add_users_table" "CREATE TABLE users (id int)" "DROP TABLE users"
              _ _ eq_refl eq_refl) as (w' & evs & E & _).
  exists w'. exact E.
Defined.

(** ** The reversible round trip when the two clock readings agree *)

Lemma filter_fresh_version (v : string) (rows : list LedgerRow) (r : LedgerRow) :
  existsb (fun x => String.eqb (lr_version x) v) rows = false ->
  lr_version r = v ->
  filter (fun x => String.eqb (lr_version x) v) (rows ++ [r])%list = [r].
Proof.
  intros H E. rewrite filter_app. cbn [filter]. rewrite E, String.eqb_refl.
  replace (filter (fun x => String.eqb (lr_version x) v) rows) with (@nil LedgerRow);
    [reflexivity|].
  symmetry. induction rows as [|x rows IH]; [reflexivity|].
  cbn in H |- *. apply orb_false_iff in H. destruct H as [H1 H2].
  rewrite H1. now apply IH.
Qed.

(** X5: with every call served, a non-empty down payload, a ledger table that
    holds no row of the new version, and the two clock readings of
    [createMigrationWithRollback] and of its [deployMigration] in the same
    second, the ledger row is stored under the version the returned
    Migration carries, and [rollbackMigrationWithDownSql] on that version
    reads the row, sends the stored down payload to the gateway once,
    deletes the version from the History Store and returns success. *)
Theorem reversible_round_trip
  (env : Env) (w : World) (name upSql downSql : string) (rows : list LedgerRow) :
  (forall n, fault env n = None) ->
  allocateVersion (clock env (S (clock_reads w))) = allocateVersion (clock env (clock_reads w)) ->
  Js.truthy downSql = true ->
  ledger (sql_effect env upSql (db w)) = Some rows ->
  existsb (fun x => String.eqb (lr_version x) (allocateVersion (clock env (clock_reads w))))
    rows = false ->
  exists resp m w1 w2,
    createMigrationWithRollback env name upSql downSql w = (Returned resp, w1) /\
    success resp = true /\
    data resp = Some m /\
    m_version m = allocateVersion (clock env (clock_reads w)) /\
    ledger (db w1) =
      Some (rows ++ [ledgerRowOf env w name downSql (clock env (S (S (S (clock_reads w)))))])%list /\
    rollbackMigrationWithDownSql env (m_version m) w1 =
      (Returned (ok None (Some ("Migration " ++ m_version m ++ " rolled back successfully"))),
       w2) /\
    trace w2 = (trace w1 ++ [(LedgerSelectEq (m_version m), true);
                             (RpcExecSql downSql, true);
                             (HistoryDelete (m_version m), true)])%list /\
    filter (hasVersion (m_version m)) (history (db w2)) = [].
Proof.
  intros F V T L N.
  unfold createMigrationWithRollback, deployMigration, tryCatch, bind.
  unfold now at 1 2. unfold rpcExec.
  rewrite (request_served env _ _ _ (F _)). cbn [fst snd applySql isData ret].
  unfold now at 1. cbn [ret ok success negb].
  unfold now at 1. cbn [clock_reads db trace].
  unfold ledgerInsert.
  rewrite (request_served env _ _ _ (F _)). cbn [db]. rewrite L.
  cbn [lr_version]. rewrite N. cbn [fst snd isData ret data ok].
  eexists _, _, _, _.
  split; [reflexivity|]. split; [reflexivity|]. split; [reflexivity|].
  cbn [m_version db ledger trace]. rewrite V.
  split; [reflexivity|]. split; [reflexivity|].
  unfold rollbackMigrationWithDownSql, tryCatch, bind, ledgerSelectEq.
  rewrite (request_served env _ _ _ (F _)). cbn [db ledger fst snd].
  erewrite filter_fresh_version; [|exact N|reflexivity]. cbn [single lr_down_sql isData].
  unfold rollbackMigration, tryCatch, bind. rewrite T.
  unfold rpcExecSql. rewrite (request_served env _ _ _ (F _)).
  cbn [fst snd applySql isData ret].
  unfold historyDelete. rewrite (request_served env _ _ _ (F _)).
  cbn [fst snd isData ret db history trace].
  split; [reflexivity|].
  split; [rewrite <- !app_assoc; reflexivity|].
  apply filter_hasVersion_removed.
Qed.

Lemma reversible_round_trip_witness :
  exists resp m w1 w2,
    createMigrationWithRollback healthy "add_users_table"
      "CREATE TABLE users (id int)" "DROP TABLE users"
      (initialWorld {| history := []; ledger := Some [] |}) = (Returned resp, w1) /\
    data resp = Some m /\
    rollbackMigrationWithDownSql healthy (m_version m) w1 =
      (Returned (ok None (Some ("Migration " ++ m_version m ++ " rolled back successfully"))),
       w2) /\
    trace w2 = (trace w1 ++ [(LedgerSelectEq (m_version m), true);
                             (RpcExecSql "DROP TABLE users", true);
                             (HistoryDelete (m_version m), true)])%list.
Proof.
  destruct (reversible_round_trip healthy
              (initialWorld {| history := []; ledger := Some [] |})
              "add_users_table" "CREATE TABLE users (id int)" "DROP TABLE users" []
              (fun _ => eq_refl)
              ltac:(vm_compute; reflexivity) eq_refl eq_refl eq_refl)
    as (resp & m & w1 & w2 & C & _ & D & _ & _ & R & T & _).
  exists resp, m, w1, w2. auto.
Defined.

(* ================================================================== *)
(** * Further properties of the engine *)

(** ** Lists of rows *)

Lemma withoutVersions_nil (l : list HistoryRow) : withoutVersions [] l = l.
Proof.
  unfold withoutVersions. cbn [existsb negb].
  induction l as [|r l IH]; cbn [filter]; [reflexivity | now rewrite IH].
Qed.

Lemma withoutVersions_cons (v : string) (vs : list string) (l : list HistoryRow) :
  withoutVersions (v :: vs) l =
  withoutVersions vs (filter (fun r => negb (hasVersion v r)) l).
Proof.
  unfold withoutVersions, hasVersion. induction l as [|r l IH]; [reflexivity|].
  cbn [filter]. rewrite IH.
  change (existsb (String.eqb (row_version r)) (v :: vs))
    with (String.eqb (row_version r) v || existsb (String.eqb (row_version r)) vs).
  destruct (String.eqb (row_version r) v); [reflexivity|].
  cbn [negb orb filter]. reflexivity.
Qed.

Lemma withoutVersions_app (vs vs' : list string) (l : list HistoryRow) :
  withoutVersions (vs ++ vs')%list l = withoutVersions vs' (withoutVersions vs l).
Proof.
  revert l. induction vs as [|v vs IH]; intros l; cbn [app].
  - now rewrite withoutVersions_nil.
  - now rewrite !withoutVersions_cons, IH.
Qed.

Lemma withoutVersions_In (vs : list string) (l : list HistoryRow) (r : HistoryRow) :
  In r (withoutVersions vs l) <-> In r l /\ ~ In (row_version r) vs.
Proof.
  unfold withoutVersions. rewrite filter_In, negb_true_iff.
  split; intros [H1 H2]; split; trivial.
  - intros H. assert (E : existsb (String.eqb (row_version r)) vs = true).
    { apply existsb_exists. exists (row_version r). split; [exact H | apply String.eqb_refl]. }
    congruence.
  - destruct (existsb _ vs) eqn:E; [|reflexivity].
    apply existsb_exists in E. destruct E as (v & Hv & E).
    apply String.eqb_eq in E. subst. contradiction.
Qed.

Lemma insertDesc_length (r : HistoryRow) (l : list HistoryRow) :
  List.length (insertDesc r l) = S (List.length l).
Proof.
  induction l as [|x l IH]; cbn; [reflexivity|].
  destruct (String.leb _ _); cbn; [reflexivity | now rewrite IH].
Qed.

Lemma orderDesc_length (l : list HistoryRow) : List.length (orderDesc l) = List.length l.
Proof.
  unfold orderDesc. induction l as [|x l IH]; cbn [fold_right]; [reflexivity|].
  now rewrite insertDesc_length, IH.
Qed.

Lemma firstn_In {A} (n : nat) (l : list A) (x : A) : In x (firstn n l) -> In x l.
Proof.
  revert n. induction l as [|y l IH]; intros [|n]; cbn; try tauto.
  intros [H|H]; [now left | right; eauto].
Qed.

Lemma descending_firstn (n : nat) (l : list string) :
  descending l -> descending (firstn n l).
Proof.
  unfold descending. revert n. induction l as [|x l IH]; intros n H.
  - destruct n; constructor.
  - destruct n; cbn; [constructor|].
    inversion H as [|? ? Hs Hf]; subst. constructor; [now apply IH|].
    apply Forall_forall. intros y Hy. rewrite Forall_forall in Hf.
    apply Hf. eapply firstn_In; eauto.
Qed.

(** ** The delete loop, once more *)

Lemma deleteEach_effect (env : Env) (migrations : list HistoryRow) :
  forall (acc : list string) (w : World),
  exists evs w',
    deleteEach env migrations acc w = (Returned (acc ++ deletedOf evs)%list, w') /\
    trace w' = (trace w ++ evs)%list /\
    deletesOf evs = map row_version migrations /\
    Forall (fun e => isHistoryCall (fst e) = true) evs /\
    ledger (db w') = ledger (db w) /\
    history (db w') = withoutVersions (deletedOf evs) (history (db w)) /\
    clock_reads w' = clock_reads w.
Proof.
  induction migrations as [|m rest IH]; intros acc w.
  - exists [], w. cbn. rewrite !app_nil_r, withoutVersions_nil. repeat split; auto.
  - cbn [deleteEach]. unfold bind, historyDelete, request.
    destruct (fault env (List.length (trace w))) as [msg|].
    + match goal with
      | |- context [deleteEach env rest acc ?w1] =>
          destruct (IH acc w1) as (evs & w' & E & T & D & H & L & Hi & C)
      end.
      exists ((HistoryDelete (row_version m), false) :: evs), w'.
      rewrite E. cbn [trace clock_reads db] in T, C, L, Hi.
      change (deletedOf ((HistoryDelete (row_version m), false) :: evs))
        with (deletedOf evs).
      change (deletesOf ((HistoryDelete (row_version m), false) :: evs))
        with (row_version m :: deletesOf evs).
      rewrite T, D, <- app_assoc. repeat split; auto.
    + cbn [fst snd isData].
      match goal with
      | |- context [deleteEach env rest ?a ?w1] =>
          destruct (IH a w1) as (evs & w' & E & T & D & H & L & Hi & C)
      end.
      exists ((HistoryDelete (row_version m), true) :: evs), w'.
      rewrite E. cbn [trace clock_reads db history ledger] in T, C, L, Hi.
      change (deletedOf ((HistoryDelete (row_version m), true) :: evs))
        with (row_version m :: deletedOf evs).
      change (deletesOf ((HistoryDelete (row_version m), true) :: evs))
        with (row_version m :: deletesOf evs).
      rewrite T, D, <- !app_assoc, withoutVersions_cons. repeat split; auto.
Qed.

Lemma deleteEach_served (env : Env) (migrations : list HistoryRow) :
  allServed env ->
  forall (acc : list string) (w : World),
    deleteEach env migrations acc w =
      (Returned (acc ++ map row_version migrations)%list,
       {| db := {| history := withoutVersions (map row_version migrations) (history (db w));
                   ledger := ledger (db w) |};
          trace := (trace w ++ map (fun r => (HistoryDelete (row_version r), true)) migrations)%list;
          clock_reads := clock_reads w |}).
Proof.
  intros F. induction migrations as [|m rest IH]; intros acc w.
  - cbn. rewrite !app_nil_r, withoutVersions_nil. now destruct w as [[h l] t c].
  - cbn [deleteEach]. unfold bind, historyDelete.
    rewrite (request_served env _ _ _ (F _)). cbn [fst snd isData].
    rewrite IH. cbn [db history ledger trace clock_reads map].
    rewrite withoutVersions_cons, <- !app_assoc. reflexivity.
Qed.

(** ** The bulk strategies remove history rows and nothing else *)

Lemma history_events_no_gateway (evs : list Event) :
  Forall (fun e => isHistoryCall (fst e) = true) evs -> appliedSql evs = [].
Proof.
  induction evs as [|[c b] evs IH]; intros H; [reflexivity|].
  inversion H as [|? ? Hc Hr]; subst. cbn in Hc.
  unfold appliedSql in *. cbn [flat_map]. rewrite (IH Hr).
  destruct c; try discriminate Hc; reflexivity.
Qed.

(** X6: in every environment [rollbackToVersion] returns, and whatever
    fails on the way it makes History Store calls only: no SQL is handed to
    the gateway, the Rollback Ledger is unchanged, the History Store loses
    exactly the rows of the versions whose delete was answered without
    error, and every row whose version is not strictly greater than the
    target is still there afterwards. *)
Theorem rollbackToVersion_is_history_only (env : Env) (target : string) (w : World) :
  exists resp w' evs,
    rollbackToVersion env target w = (Returned resp, w') /\
    trace w' = (trace w ++ evs)%list /\
    Forall (fun e => isHistoryCall (fst e) = true) evs /\
    appliedSql evs = [] /\
    ledger (db w') = ledger (db w) /\
    history (db w') = withoutVersions (deletedOf evs) (history (db w)) /\
    (forall r, In r (history (db w)) ->
               String.ltb target (row_version r) = false ->
               In r (history (db w'))).
Proof.
  assert (K : forall evs w', 
             Forall (after target) (deletesOf evs) ->
             history (db w') = withoutVersions (deletedOf evs) (history (db w)) ->
             forall r, In r (history (db w)) ->
                       String.ltb target (row_version r) = false ->
                       In r (history (db w'))).
  { intros evs w' A Hh r Hr Hv. rewrite Hh. apply withoutVersions_In. split; [exact Hr|].
    intros Hin. apply deletedOf_incl in Hin. rewrite Forall_forall in A.
    apply A in Hin. unfold after in Hin. congruence. }
  unfold rollbackToVersion, tryCatch, bind, historySelectGt, request.
  destruct (fault env (List.length (trace w))) as [msg|].
  - unfold clientError. destruct (client_errors_are_Error env); cbn;
      eexists _, _, [_]; (split; [reflexivity|]); (split; [reflexivity|]);
      (split; [repeat constructor|]); (split; [reflexivity|]); (split; [reflexivity|]);
      (split; [now rewrite withoutVersions_nil | auto]).
  - cbn [fst snd isData].
    pose proof (selected_after target (history (db w))) as A.
    destruct (orderDesc _) as [|m rest] eqn:Rows.
    + cbn. eexists _, _, [_]. split; [reflexivity|]. split; [reflexivity|].
      split; [repeat constructor|]. split; [reflexivity|]. split; [reflexivity|].
      split; [now rewrite withoutVersions_nil | auto].
    + cbn [List.length Nat.eqb].
      match goal with
      | |- context [deleteEach env (m :: rest) [] ?w1] =>
          destruct (deleteEach_effect env (m :: rest) [] w1)
            as (evs & w' & E & T & D & H & L & Hi & C)
      end.
      rewrite E. cbn [ret]. cbn [trace db] in T, L, Hi.
      eexists _, w', ((HistorySelectGt target, true) :: evs).
      split; [reflexivity|]. split; [now rewrite T, <- app_assoc|].
      assert (H' : Forall (fun e => isHistoryCall (fst e) = true)
                     ((HistorySelectGt target, true) :: evs)) by (constructor; auto).
      split; [exact H'|]. split; [now apply history_events_no_gateway|].
      split; [exact L|].
      change (deletedOf ((HistorySelectGt target, true) :: evs)) with (deletedOf evs).
      split; [exact Hi|].
      apply (K evs w'); [now rewrite D | exact Hi].
Qed.

Lemma above_versions (target : string) (l : list HistoryRow) :
  withoutVersions
    (map row_version (orderDesc (filter (fun r => String.ltb target (row_version r)) l))) l
  = filter (fun r => negb (String.ltb target (row_version r))) l.
Proof.
  unfold withoutVersions. apply filter_ext_in. intros r Hr. f_equal.
  destruct (String.ltb target (row_version r)) eqn:E.
  - apply existsb_exists. exists (row_version r). split; [|apply String.eqb_refl].
    apply in_map. apply orderDesc_In, filter_In. auto.
  - destruct (existsb _ _) eqn:X; [|reflexivity].
    apply existsb_exists in X. destruct X as (v & Hv & Ev).
    apply String.eqb_eq in Ev. subst v.
    apply in_map_iff in Hv. destruct Hv as (r' & Er & Hr').
    apply orderDesc_In, filter_In in Hr'. destruct Hr' as [_ Hr']. congruence.
Qed.

Lemma nothing_above_after (target : string) (l : list HistoryRow) :
  filter (fun r => String.ltb target (row_version r))
    (filter (fun r => negb (String.ltb target (row_version r))) l) = [].
Proof.
  induction l as [|r l IH]; [reflexivity|]. cbn [filter].
  destruct (String.ltb target (row_version r)) eqn:E; cbn [negb filter]; [exact IH|].
  now rewrite E.
Qed.

(** X7: when every call is served, [rollbackToVersion] reports every
    version above the target, newest first, and leaves in the History
    Store exactly the rows that are not above the target; called again
    with the same target it reports an empty list with the message
    [No migrations to rollback] and changes nothing. *)
Theorem rollbackToVersion_served (env : Env) (target : string) (w : World) :
  allServed env ->
  exists said w1 w2,
    rollbackToVersion env target w =
      (Returned (ok (Some {| rolledBack :=
                               map row_version
                                 (orderDesc (filter (fun r => String.ltb target (row_version r))
                                               (history (db w)))) |})
                   (Some said)), w1) /\
    history (db w1) = filter (fun r => negb (String.ltb target (row_version r))) (history (db w)) /\
    ledger (db w1) = ledger (db w) /\
    rollbackToVersion env target w1 =
      (Returned (ok (Some {| rolledBack := [] |}) (Some "No migrations to rollback")), w2) /\
    db w2 = db w1.
Proof.
  intros F.
  assert (Empty : forall w0,
             filter (fun r => String.ltb target (row_version r)) (history (db w0)) = [] ->
             rollbackToVersion env target w0 =
               (Returned (ok (Some {| rolledBack := [] |}) (Some "No migrations to rollback")),
                {| db := db w0;
                   trace := (trace w0 ++ [(HistorySelectGt target, true)])%list;
                   clock_reads := clock_reads w0 |})).
  { intros w0 H. unfold rollbackToVersion, tryCatch, bind, historySelectGt.
    rewrite (request_served env _ _ _ (F _)). cbn [fst snd isData]. rewrite H. reflexivity. }
  assert (First : exists said w1,
             rollbackToVersion env target w =
               (Returned (ok (Some {| rolledBack :=
                                        map row_version
                                          (orderDesc (filter (fun r => String.ltb target (row_version r))
                                                        (history (db w)))) |})
                            (Some said)), w1) /\
             history (db w1) =
               filter (fun r => negb (String.ltb target (row_version r))) (history (db w)) /\
             ledger (db w1) = ledger (db w)).
  { destruct (filter (fun r => String.ltb target (row_version r)) (history (db w)))
      as [|r0 l0] eqn:Sel.
    - rewrite (Empty w Sel). cbn [orderDesc fold_right map].
      eexists _, _. split; [reflexivity|]. cbn [db]. split; [|reflexivity].
      rewrite <- above_versions, Sel. cbn [orderDesc fold_right map].
      symmetry. apply withoutVersions_nil.
    - unfold rollbackToVersion, tryCatch, bind, historySelectGt.
      rewrite (request_served env _ _ _ (F _)). cbn [fst snd isData]. rewrite Sel.
      destruct (orderDesc (r0 :: l0)) as [|m rest] eqn:Rows.
      { apply (f_equal (@List.length _)) in Rows. rewrite orderDesc_length in Rows.
        discriminate Rows. }
      cbn [List.length Nat.eqb]. rewrite (deleteEach_served env _ F). cbn [ret app].
      eexists _, _. split; [reflexivity|]. cbn [db history ledger].
      rewrite <- Rows, <- Sel, above_versions. split; reflexivity. }
  destruct First as (said & w1 & E & H & L).
  exists said, w1. eexists. split; [exact E|]. split; [exact H|]. split; [exact L|].
  rewrite Empty by (rewrite H; apply nothing_above_after).
  split; reflexivity.
Qed.

Lemma rollbackToVersion_served_witness :
  exists said w1,
    rollbackToVersion healthy "20231201120000"
      (initialWorld {| history := [usersRow;
                                   {| row_version := "20231202090000"; row_name := None;
                                      row_inserted_at := None; row_other := [] |};
                                   {| row_version := "20231203090000"; row_name := None;
                                      row_inserted_at := None; row_other := [] |}];
                       ledger := None |}) =
      (Returned (ok (Some {| rolledBack := ["20231203090000"; "20231202090000"] |})
                   (Some said)), w1) /\
    history (db w1) = [usersRow].
Proof.
  destruct (rollbackToVersion_served healthy "20231201120000"
              (initialWorld {| history := [usersRow;
                                   {| row_version := "20231202090000"; row_name := None;
                                      row_inserted_at := None; row_other := [] |};
                                   {| row_version := "20231203090000"; row_name := None;
                                      row_inserted_at := None; row_other := [] |}];
                               ledger := None |})
              (fun _ => eq_refl)) as (said & w1 & w2 & E & H & _).
  exists said, w1. split; [exact E | exact H].
Defined.

(** ** Rollback of the last migrations *)

Lemma deletedOf_length (evs : list Event) :
  (List.length (deletedOf evs) <= List.length (deletesOf evs))%nat.
Proof.
  induction evs as [|[c b] evs IH]; [cbn; lia|].
  unfold deletedOf, deletesOf in *. cbn [flat_map]. rewrite !length_app.
  destruct c; cbn [List.length]; try lia. destruct b; cbn [List.length]; lia.
Qed.

(** X8: in every environment [rollbackLastMigrations] returns.  The
    versions it reports are at most [count], sorted descending, all taken
    from the History Store as it was, and they are the versions whose
    delete was answered without error; the store loses the rows of exactly
    those versions, the Rollback Ledger is unchanged and no SQL is handed
    to the gateway.  Without data the call failed and removed nothing. *)
Theorem rollbackLastMigrations_bounds (env : Env) (count : nat) (w : World) :
  exists resp w' evs,
    rollbackLastMigrations env count w = (Returned resp, w') /\
    trace w' = (trace w ++ evs)%list /\
    appliedSql evs = [] /\
    ledger (db w') = ledger (db w) /\
    history (db w') = withoutVersions (deletedOf evs) (history (db w)) /\
    match data resp with
    | Some r =>
        rolledBack r = deletedOf evs /\
        (List.length (rolledBack r) <= count)%nat /\
        (List.length (rolledBack r) <= List.length (history (db w)))%nat /\
        descending (rolledBack r) /\
        (forall v, In v (rolledBack r) -> In v (map row_version (history (db w))))
    | None => success resp = false /\ deletedOf evs = []
    end.
Proof.
  unfold rollbackLastMigrations, tryCatch, bind, historySelectLast, request.
  destruct (fault env (List.length (trace w))) as [msg|].
  - unfold clientError. destruct (client_errors_are_Error env); cbn;
      eexists _, _, [_]; (split; [reflexivity|]); (split; [reflexivity|]);
      (split; [reflexivity|]); (split; [reflexivity|]);
      (split; [now rewrite withoutVersions_nil | split; reflexivity]).
  - cbn [fst snd isData].
    set (sel := firstn count (orderDesc (history (db w)))).
    assert (Ls : (List.length sel <= count)%nat) by apply firstn_le_length.
    assert (Lh : (List.length sel <= List.length (history (db w)))%nat).
    { unfold sel. rewrite length_firstn, orderDesc_length. lia. }
    assert (Ds : descending (map row_version sel)).
    { unfold sel. rewrite <- firstn_map. apply descending_firstn, orderDesc_descending. }
    assert (Is : forall v, In v (map row_version sel) ->
                           In v (map row_version (history (db w)))).
    { intros v Hv. apply in_map_iff in Hv. destruct Hv as (r & <- & Hr).
      apply in_map. apply orderDesc_In. eapply firstn_In. exact Hr. }
    clearbody sel. destruct sel as [|m rest].
    + cbn. eexists _, _, [_]. split; [reflexivity|]. split; [reflexivity|].
      split; [reflexivity|]. split; [reflexivity|].
      split; [now rewrite withoutVersions_nil|].
      repeat split; auto; try lia; try constructor.
    + cbn [List.length Nat.eqb].
      match goal with
      | |- context [deleteEach env (m :: rest) [] ?w1] =>
          destruct (deleteEach_effect env (m :: rest) [] w1)
            as (evs & w' & E & T & D & H & L & Hi & C)
      end.
      rewrite E. cbn [ret]. cbn [trace db] in T, L, Hi.
      eexists _, w', ((HistorySelectLast count, true) :: evs).
      split; [reflexivity|]. split; [now rewrite T, <- app_assoc|].
      split; [apply history_events_no_gateway; constructor; auto|].
      split; [exact L|].
      change (deletedOf ((HistorySelectLast count, true) :: evs)) with (deletedOf evs).
      split; [exact Hi|]. cbn [data ok rolledBack app].
      pose proof (deletedOf_length evs) as Le. rewrite D, length_map in Le.
      split; [reflexivity|]. split; [lia|]. split; [lia|].
      split; [apply deletedOf_descending; now rewrite D|].
      intros v Hv. apply Is. rewrite <- D. now apply deletedOf_incl.
Qed.

(** X9: when every call is served, [rollbackLastMigrations] reports the
    [count] newest versions of the History Store, newest first, or all of
    them when the store holds fewer rows than [count]: the call is no error
    then, it reports as many versions as there are rows and empties the
    store.  A count of zero reports nothing and removes nothing. *)
Theorem rollbackLastMigrations_served (env : Env) (count : nat) (w : World) :
  allServed env ->
  exists said w',
    rollbackLastMigrations env count w =
      (Returned (ok (Some {| rolledBack :=
                               firstn count (map row_version (orderDesc (history (db w)))) |})
                   (Some said)), w') /\
    history (db w') =
      withoutVersions (firstn count (map row_version (orderDesc (history (db w)))))
        (history (db w)) /\
    ledger (db w') = ledger (db w) /\
    ((List.length (history (db w)) <= count)%nat ->
     List.length (firstn count (map row_version (orderDesc (history (db w)))))
       = List.length (history (db w)) /\
     history (db w') = []) /\
    (count = 0%nat -> history (db w') = history (db w)).
Proof.
  intros F.
  assert (Run : exists said w',
             rollbackLastMigrations env count w =
               (Returned (ok (Some {| rolledBack :=
                                        firstn count (map row_version (orderDesc (history (db w)))) |})
                            (Some said)), w') /\
             history (db w') =
               withoutVersions (firstn count (map row_version (orderDesc (history (db w)))))
                 (history (db w)) /\
             ledger (db w') = ledger (db w)).
  { unfold rollbackLastMigrations, tryCatch, bind, historySelectLast.
    rewrite (request_served env _ _ _ (F _)). cbn [fst snd isData].
    rewrite firstn_map.
    destruct (firstn count (orderDesc (history (db w)))) as [|m rest] eqn:Sel.
    - cbn. eexists _, _. split; [reflexivity|]. cbn. rewrite withoutVersions_nil. auto.
    - cbn [List.length Nat.eqb]. rewrite (deleteEach_served env _ F). cbn [ret app].
      eexists _, _. split; [reflexivity|]. cbn [db history ledger]. auto. }
  destruct Run as (said & w' & E & H & L).
  exists said, w'. split; [exact E|]. split; [exact H|]. split; [exact L|].
  split.
  - intros Hc.
    rewrite firstn_all2 in * by (rewrite length_map, orderDesc_length; exact Hc).
    split; [now rewrite length_map, orderDesc_length|].
    rewrite H. destruct (withoutVersions _ _) as [|r l] eqn:W; [reflexivity|].
    assert (Hr : In r (withoutVersions (map row_version (orderDesc (history (db w))))
                         (history (db w)))) by (rewrite W; now left).
    apply withoutVersions_In in Hr. destruct Hr as [Hr Hn].
    exfalso. apply Hn. apply in_map. now apply orderDesc_In.
  - intros ->. rewrite H. cbn [firstn]. apply withoutVersions_nil.
Qed.

Lemma rollbackLastMigrations_served_witness :
  exists said w',
    rollbackLastMigrations healthy 5
      (initialWorld {| history := [usersRow;
                                   {| row_version := "20231202090000"; row_name := None;
                                      row_inserted_at := None; row_other := [] |}];
                       ledger := None |}) =
      (Returned (ok (Some {| rolledBack := ["20231202090000"; "20231201120000"] |})
                   (Some said)), w') /\
    history (db w') = [].
Proof.
  destruct (rollbackLastMigrations_served healthy 5
              (initialWorld {| history := [usersRow;
                                   {| row_version := "20231202090000"; row_name := None;
                                      row_inserted_at := None; row_other := [] |}];
                               ledger := None |})
              (fun _ => eq_refl)) as (said & w' & E & _ & _ & A & _).
  exists said, w'. split; [exact E|].
  apply A. cbn. lia.
Defined.

(** ** The listing *)




(** ** Single-version rollback, call by call *)

(** X11: [rollbackMigration] with a non-empty down payload, in every
    environment.  Either the payload is applied exactly once, by the
    [exec_sql] call or, only when that call failed, by the [exec]
    fallback, the method goes on to the History Store delete (with its own
    fallback when the delete failed) and reports success; or both attempts
    failed, nothing is deleted, the tables are unchanged and the method
    reports failure.  The delete is never issued before the payload was
    applied. *)
Theorem rollbackMigration_applies_down_once
  (env : Env) (w : World) (version down : string) :
  Js.truthy down = true ->
  exists downCalls deleteCalls resp w',
    rollbackMigration env version (Some down) w = (Returned resp, w') /\
    trace w' = (trace w ++ downCalls ++ deleteCalls)%list /\
    (((downCalls = [(RpcExecSql down, true)] \/
       downCalls = [(RpcExecSql down, false); (RpcExec down, true)]) /\
      appliedSql downCalls = [down] /\
      success resp = true /\
      (deleteCalls = [(HistoryDelete version, true)] \/
       exists answered,
         deleteCalls = [(HistoryDelete version, false);
                        (RpcExec (deleteStatement version), answered)]))
     \/
     (downCalls = [(RpcExecSql down, false); (RpcExec down, false)] /\
      deleteCalls = [] /\
      success resp = false /\
      db w' = db w)).
Proof.
  intros T.
  unfold rollbackMigration, tryCatch, bind. rewrite T.
  unfold rpcExecSql, executeSQL, tryCatch, bind, rpcExec, historyDelete.
  unfold request at 1.
  destruct (fault env (List.length (trace w))) as [e1|].
  - unfold request at 1. cbn [trace].
    destruct (fault env (List.length (trace w ++ [(RpcExecSql down, false)]))) as [e2|].
    + cbn. eexists [(RpcExecSql down, false); (RpcExec down, false)], [], _, _.
      split; [reflexivity|].
      split; [rewrite <- ?app_assoc; reflexivity|]. right. auto.
    + cbn [fst snd applySql isData ret ok success negb].
      unfold request at 1. cbn [trace].
      match goal with |- context [fault env ?n] => destruct (fault env n) as [e3|] end.
      * unfold request at 1. cbn [trace].
        match goal with |- context [fault env ?n] => destruct (fault env n) as [e4|] end;
          cbn;
          (eexists [(RpcExecSql down, false); (RpcExec down, true)],
                   [(HistoryDelete version, false); (RpcExec (deleteStatement version), _)], _, _);
          (split; [reflexivity|]);
          (split; [rewrite <- ?app_assoc; reflexivity|]); left; repeat split; eauto.
      * cbn. eexists [(RpcExecSql down, false); (RpcExec down, true)],
                     [(HistoryDelete version, true)], _, _.
        split; [reflexivity|].
        split; [rewrite <- ?app_assoc; reflexivity|]. left. repeat split; eauto.
  - cbn [fst snd applySql isData ret].
    unfold request at 1. cbn [trace].
    match goal with |- context [fault env ?n] => destruct (fault env n) as [e3|] end.
    + unfold request at 1. cbn [trace].
      match goal with |- context [fault env ?n] => destruct (fault env n) as [e4|] end;
        cbn;
        (eexists [(RpcExecSql down, true)],
                 [(HistoryDelete version, false); (RpcExec (deleteStatement version), _)], _, _);
        (split; [reflexivity|]);
        (split; [rewrite <- ?app_assoc; reflexivity|]); left; repeat split; eauto.
    + cbn. eexists [(RpcExecSql down, true)], [(HistoryDelete version, true)], _, _.
      split; [reflexivity|].
      split; [rewrite <- ?app_assoc; reflexivity|]. left. repeat split; eauto.
Qed.

Lemma rollbackMigration_applies_down_once_witness :
  exists resp w',
    rollbackMigration healthy "20231201120000" (Some "DROP TABLE users")
      (initialWorld {| history := [usersRow]; ledger := None |}) = (Returned resp, w') /\
    trace w' = [(RpcExecSql "DROP TABLE users", true); (HistoryDelete "20231201120000", true)].
Proof.
  destruct (rollbackMigration_applies_down_once healthy
              (initialWorld {| history := [usersRow]; ledger := None |})
              "20231201120000" "DROP TABLE users" eq_refl)
    as (dc & lc & resp & w' & E & T & _).
  exists resp, w'. split; [exact E|].
  assert (X : snd (rollbackMigration healthy "20231201120000" (Some "DROP TABLE users")
              (initialWorld {| history := [usersRow]; ledger := None |})) = w')
    by now rewrite E.
  rewrite <- X. vm_compute. reflexivity.
Defined.

(** X12: [rollbackMigration] without a down payload, made twice with both
    deletes served: the first call removes the rows of that version and
    no other row, the second call reports the same success and changes
    nothing; no call reports an error about a row that is already gone. *)
Theorem rollbackMigration_twice (env : Env) (w : World) (version : string) :
  fault env (List.length (trace w)) = None ->
  fault env (S (List.length (trace w))) = None ->
  exists w1 w2,
    rollbackMigration env version None w =
      (Returned (ok None (Some ("Migration " ++ version ++ " rolled back successfully"))), w1) /\
    history (db w1) = withoutVersions [version] (history (db w)) /\
    (forall r, In r (history (db w)) -> row_version r <> version -> In r (history (db w1))) /\
    rollbackMigration env version None w1 =
      (Returned (ok None (Some ("Migration " ++ version ++ " rolled back successfully"))), w2) /\
    db w2 = db w1.
Proof.
  intros F1 F2.
  assert (One : forall w0, fault env (List.length (trace w0)) = None ->
             rollbackMigration env version None w0 =
               (Returned (ok None (Some ("Migration " ++ version ++ " rolled back successfully"))),
                {| db := {| history := filter (fun r => negb (hasVersion version r))
                                         (history (db w0));
                            ledger := ledger (db w0) |};
                   trace := (trace w0 ++ [(HistoryDelete version, true)])%list;
                   clock_reads := clock_reads w0 |})).
  { intros w0 F. unfold rollbackMigration, tryCatch, bind, historyDelete. cbn [ret].
    rewrite (request_served env _ _ _ F). reflexivity. }
  eexists _, _. split; [apply One, F1|]. cbn [db history].
  split; [now rewrite withoutVersions_cons, withoutVersions_nil|].
  split.
  { intros r Hr Hv. apply filter_In. split; [exact Hr|].
    unfold hasVersion. apply negb_true_iff, String.eqb_neq. exact Hv. }
  rewrite One by (cbn [trace]; rewrite trace_grows; exact F2).
  split; [reflexivity|]. cbn [db history ledger]. f_equal.
  induction (history (db w)) as [|r l IH]; [reflexivity|].
  cbn [filter]. destruct (hasVersion version r) eqn:E; cbn [negb filter]; [exact IH|].
  rewrite E. cbn [negb]. now rewrite IH.
Qed.

Lemma rollbackMigration_twice_witness :
  exists w1 w2,
    rollbackMigration healthy "20231201120000" None
      (initialWorld {| history := [usersRow]; ledger := None |}) =
      (Returned (ok None (Some "Migration 20231201120000 rolled back successfully")), w1) /\
    rollbackMigration healthy "20231201120000" None w1 =
      (Returned (ok None (Some "Migration 20231201120000 rolled back successfully")), w2) /\
    db w2 = db w1.
Proof.
  destruct (rollbackMigration_twice healthy
              (initialWorld {| history := [usersRow]; ledger := None |})
              "20231201120000" eq_refl eq_refl) as (w1 & w2 & E1 & _ & _ & E2 & D).
  exists w1, w2. auto.
Defined.

(** ** Rollback with the stored down payload *)

(** X13: when the Rollback Ledger holds no row of the version (the table
    is absent, or no row matches), [rollbackMigrationWithDownSql] answers,
    in every environment, with the failure [No rollback SQL found ...]: its
    only call is the ledger select, nothing is applied, nothing is deleted
    and the tables are unchanged. *)
Theorem stored_down_rollback_without_entry (env : Env) (w : World) (version : string) :
  (forall rows, ledger (db w) = Some rows ->
                filter (fun x => String.eqb (lr_version x) version) rows = []) ->
  rollbackMigrationWithDownSql env version w =
    (Returned (failure ("No rollback SQL found for migration " ++ version ++
                        ". Use rollbackMigration() with manual down SQL instead.")),
     {| db := db w;
        trace := (trace w ++ [(LedgerSelectEq version, false)])%list;
        clock_reads := clock_reads w |}).
Proof.
  intros H. unfold rollbackMigrationWithDownSql, tryCatch, bind, ledgerSelectEq, request.
  destruct (fault env (List.length (trace w))) as [msg|]; [reflexivity|].
  destruct (ledger (db w)) as [rows|] eqn:L; [|reflexivity].
  rewrite (H rows eq_refl). reflexivity.
Qed.

Lemma stored_down_rollback_without_entry_witness :
  fst (rollbackMigrationWithDownSql healthy "20231201120000"
         (initialWorld {| history := [usersRow]; ledger := None |}))
  = Returned (failure ("No rollback SQL found for migration 20231201120000" ++
                       ". Use rollbackMigration() with manual down SQL instead.")).
Proof.
  rewrite (stored_down_rollback_without_entry healthy
             (initialWorld {| history := [usersRow]; ledger := None |}) "20231201120000").
  - reflexivity.
  - intros rows H. discriminate H.
Defined.

(** ** What reaches the caller of a tool *)




(** * Properties of the probes and the health checker *)

Section HealthProperties.

Variable env : Env.
Variable coolify_listApplications : M (ToolResponse (list CoolifyApplication)).
Variable adminGet : string -> M Headers.
Variable supabaseCLI_checkCLIInstalled : M (ToolResponse CLIInstalled).

Lemma getVersion_succeeds (w : World) :
  succeeds (getVersion adminGet) w = returns (adminGet "/rest/v1/") w.
Proof.
  unfold succeeds, returns, getVersion, tryCatch, bind, ret.
  destruct (adminGet "/rest/v1/" w) as [[h|e] w'].
  - reflexivity.
  - destruct e; reflexivity.
Qed.

Lemma checkCoolifyConnection_spec (w : World) :
  exists r w',
    checkCoolifyConnection env coolify_listApplications w = (Returned r, w') /\
    hc_service r = "Coolify Connection" /\
    hc_status r = if succeeds coolify_listApplications (tick w)
                  then StatusHealthy else StatusUnhealthy.
Proof.
  unfold checkCoolifyConnection, succeeds, tryCatch, bind, now, tick.
  destruct (coolify_listApplications _) as [[resp|e] w1].
  - destruct (success resp); eexists _, _; (split; [reflexivity|]); split; reflexivity.
  - eexists _, _; (split; [reflexivity|]); split; reflexivity.
Qed.

Lemma checkCoolifyAuth_spec (w : World) :
  exists r w',
    checkCoolifyAuth env coolify_listApplications w = (Returned r, w') /\
    hc_service r = "Coolify Authentication" /\
    hc_status r <> StatusUnknown /\
    (hc_status r = StatusHealthy <-> succeeds coolify_listApplications w = true).
Proof.
  unfold checkCoolifyAuth, succeeds, tryCatch, bind.
  destruct (coolify_listApplications w) as [[resp|e] w1].
  - destruct (success resp).
    + eexists _, _; (split; [reflexivity|]); split; [reflexivity|].
      split; [discriminate|]. split; reflexivity.
    + destruct (errorIncludes "401" "Unauthorized" (error resp));
        eexists _, _; (split; [reflexivity|]); (split; [reflexivity|]);
        (split; [discriminate|]); split; discriminate.
  - eexists _, _; (split; [reflexivity|]); (split; [reflexivity|]);
      (split; [discriminate|]); split; discriminate.
Qed.

Lemma checkSupabaseConnection_spec (w : World) :
  exists r w',
    checkSupabaseConnection env adminGet w = (Returned r, w') /\
    hc_service r = "Supabase Connection" /\
    hc_status r = if returns (adminGet "/rest/v1/") (tick w)
                  then StatusHealthy else StatusUnhealthy.
Proof.
  rewrite <- getVersion_succeeds.
  unfold checkSupabaseConnection, succeeds, tryCatch, bind, now, tick.
  destruct (getVersion adminGet _) as [[resp|e] w1].
  - destruct (success resp); eexists _, _; (split; [reflexivity|]); split; reflexivity.
  - eexists _, _; (split; [reflexivity|]); split; reflexivity.
Qed.

Lemma includes_after_list_prefix (msg : string) :
  includes "401" ("Failed to list migrations" ++ ": " ++ msg) = includes "401" msg /\
  includes "JWT" ("Failed to list migrations" ++ ": " ++ msg) = includes "JWT" msg.
Proof. split; reflexivity. Qed.

Lemma checkSupabaseAuth_spec (w : World) :
  exists r w',
    checkSupabaseAuth env w = (Returned r, w') /\
    hc_service r = "Supabase Authentication" /\
    db w' = db w /\
    hc_status r =
      match fault env (List.length (trace w)) with
      | None => StatusHealthy
      | Some msg =>
          if client_errors_are_Error env && (includes "401" msg || includes "JWT" msg)
          then StatusUnhealthy else StatusWarning
      end.
Proof.
  unfold checkSupabaseAuth, listMigrations, historySelectAll, request, tryCatch, bind.
  destruct (fault env (List.length (trace w))) as [msg|].
  - unfold clientError. destruct (client_errors_are_Error env).
    + cbn [fst snd ret throw handleError failure success error andb].
      unfold errorIncludes.
      destruct (includes_after_list_prefix msg) as [-> ->].
      destruct (includes "401" msg || includes "JWT" msg);
        eexists _, _; (split; [reflexivity|]); repeat split; reflexivity.
    + cbn. eexists _, _; (split; [reflexivity|]); repeat split; reflexivity.
  - cbn. eexists _, _; (split; [reflexivity|]); repeat split; reflexivity.
Qed.

Lemma checkSupabaseDatabase_spec (w : World) :
  exists r w',
    checkSupabaseDatabase env w = (Returned r, w') /\
    hc_service r = "Supabase Database" /\
    hc_status r =
      match fault env (List.length (trace w)) with
      | None => StatusHealthy
      | Some _ => StatusWarning
      end.
Proof.
  unfold checkSupabaseDatabase, executeSQL, rpcExec, request, tryCatch, bind.
  destruct (fault env (List.length (trace w))) as [msg|];
    cbn; eexists _, _; (split; [reflexivity|]); split; reflexivity.
Qed.

Lemma checkSupabaseCLI_spec (w : World) :
  exists r w',
    checkSupabaseCLI env supabaseCLI_checkCLIInstalled w = (Returned r, w') /\
    hc_service r = "Supabase CLI" /\
    (hc_status r = StatusHealthy \/ hc_status r = StatusWarning).
Proof.
  unfold checkSupabaseCLI, tryCatch, bind.
  destruct (supabaseCLI_checkCLIInstalled w) as [[resp|e] w1].
  - destruct (success resp); [destruct (data resp) as [[[|] v]|]|];
      eexists _, _; (split; [reflexivity|]); split; (reflexivity || auto).
  - eexists _, _; (split; [reflexivity|]); split; (reflexivity || auto).
Qed.

Lemma settled_returns {A} (c : M A) (w w' : World) (r : A) :
  c w = (Returned r, w') -> settled c w = (Returned (inr r), w').
Proof. intros E. unfold settled, tryCatch, bind, ret. now rewrite E. Qed.

End HealthProperties.

Lemma isStatus_spec (s : HealthStatus) (c : HealthCheckResult) :
  isStatus s c = true <-> hc_status c = s.
Proof.
  unfold isStatus. destruct s, (hc_status c); split; intros H; (reflexivity || discriminate).
Qed.

Lemma count_partition (cs : list HealthCheckResult) :
  Forall (fun c => hc_status c <> StatusUnknown) cs ->
  (count StatusHealthy cs + count StatusUnhealthy cs + count StatusWarning cs
   = List.length cs)%nat.
Proof.
  unfold count. induction 1 as [|c cs H _ IH]; [reflexivity|].
  cbn [filter List.length].
  assert (A : isStatus StatusHealthy c = true /\ isStatus StatusUnhealthy c = false /\
              isStatus StatusWarning c = false \/
              isStatus StatusHealthy c = false /\ isStatus StatusUnhealthy c = true /\
              isStatus StatusWarning c = false \/
              isStatus StatusHealthy c = false /\ isStatus StatusUnhealthy c = false /\
              isStatus StatusWarning c = true).
  { unfold isStatus. destruct (hc_status c); auto; now elim H. }
  destruct A as [(-> & -> & ->) | [(-> & -> & ->) | (-> & -> & ->)]];
    cbn [List.length]; lia.
Qed.

Lemma count_positive (s : HealthStatus) (cs : list HealthCheckResult) :
  (0 <? count s cs)%nat = true <-> exists c, In c cs /\ hc_status c = s.
Proof.
  unfold count. rewrite Nat.ltb_lt. split.
  - intros H. destruct (filter (isStatus s) cs) as [|c l] eqn:E; [cbn in H; lia|].
    assert (I : In c (filter (isStatus s) cs)) by (rewrite E; now left).
    apply filter_In in I. destruct I as [I S]. exists c. split; [exact I|].
    now apply isStatus_spec.
  - intros (c & I & S).
    assert (J : In c (filter (isStatus s) cs))
      by (apply filter_In; split; [exact I | now apply isStatus_spec]).
    destruct (filter (isStatus s) cs); [destruct J | cbn; lia].
Qed.

Lemma verdict_unhealthy (cs : list HealthCheckResult) :
  verdict cs = OverallUnhealthy <-> exists c, In c cs /\ hc_status c = StatusUnhealthy.
Proof.
  rewrite <- count_positive. unfold verdict.
  destruct (0 <? count StatusUnhealthy cs)%nat; [tauto|].
  destruct (0 <? count StatusWarning cs)%nat; split; discriminate.
Qed.

Lemma verdict_degraded (cs : list HealthCheckResult) :
  verdict cs = OverallDegraded <->
  (forall c, In c cs -> hc_status c <> StatusUnhealthy) /\
  exists c, In c cs /\ hc_status c = StatusWarning.
Proof.
  rewrite <- count_positive. unfold verdict.
  destruct (0 <? count StatusUnhealthy cs)%nat eqn:U.
  - split; [discriminate|]. intros [H _]. apply count_positive in U.
    destruct U as (c & I & S). now elim (H c I).
  - assert (N : forall c, In c cs -> hc_status c <> StatusUnhealthy).
    { intros c I S. assert (X : (0 <? count StatusUnhealthy cs)%nat = true)
        by (apply count_positive; eauto). congruence. }
    destruct (0 <? count StatusWarning cs)%nat; split; try tauto; try discriminate.
    intros [_ X]. discriminate X.
Qed.

Lemma verdict_healthy (cs : list HealthCheckResult) :
  Forall (fun c => hc_status c <> StatusUnknown) cs ->
  verdict cs = OverallHealthy <-> forall c, In c cs -> hc_status c = StatusHealthy.
Proof.
  intros K. rewrite Forall_forall in K. unfold verdict.
  destruct (0 <? count StatusUnhealthy cs)%nat eqn:U.
  - split; [discriminate|]. intros H. apply count_positive in U.
    destruct U as (c & I & S). rewrite (H c I) in S. discriminate.
  - destruct (0 <? count StatusWarning cs)%nat eqn:W.
    + split; [discriminate|]. intros H. apply count_positive in W.
      destruct W as (c & I & S). rewrite (H c I) in S. discriminate.
    + split; [|reflexivity]. intros _ c I.
      destruct (hc_status c) eqn:S; [reflexivity| | |now elim (K c I)].
      * assert (X : (0 <? count StatusUnhealthy cs)%nat = true)
          by (apply count_positive; eauto). congruence.
      * assert (X : (0 <? count StatusWarning cs)%nat = true)
          by (apply count_positive; eauto). congruence.
Qed.

Section HealthReport.

Variable env : Env.
Variable coolify_listApplications : M (ToolResponse (list CoolifyApplication)).
Variable adminGet : string -> M Headers.
Variable supabaseCLI_checkCLIInstalled : M (ToolResponse CLIInstalled).

(** The six checks run in order, each from the world the one before left,
    and the report lists their results. *)
Lemma checkAll_runs (w : World) :
  exists r1 r2 r3 r4 r5 r6 w1 w2 w3 w4 w5 w6,
    checkCoolifyConnection env coolify_listApplications w = (Returned r1, w1) /\
    checkCoolifyAuth env coolify_listApplications w1 = (Returned r2, w2) /\
    checkSupabaseConnection env adminGet w2 = (Returned r3, w3) /\
    checkSupabaseAuth env w3 = (Returned r4, w4) /\
    checkSupabaseDatabase env w4 = (Returned r5, w5) /\
    checkSupabaseCLI env supabaseCLI_checkCLIInstalled w5 = (Returned r6, w6) /\
    checkAll env coolify_listApplications adminGet supabaseCLI_checkCLIInstalled w =
      (Returned {| overall_status := verdict [r1; r2; r3; r4; r5; r6];
                   checks := [r1; r2; r3; r4; r5; r6];
                   report_timestamp := DateTime.toISOString (clock env (clock_reads w6));
                   summary :=
                     {| sum_total := 6;
                        sum_healthy := count StatusHealthy [r1; r2; r3; r4; r5; r6];
                        sum_unhealthy := count StatusUnhealthy [r1; r2; r3; r4; r5; r6];
                        sum_warnings := count StatusWarning [r1; r2; r3; r4; r5; r6] |} |},
       tick w6).
Proof.
  destruct (checkCoolifyConnection_spec env coolify_listApplications w)
    as (r1 & w1 & E1 & _).
  destruct (checkCoolifyAuth_spec env coolify_listApplications w1) as (r2 & w2 & E2 & _).
  destruct (checkSupabaseConnection_spec env adminGet w2) as (r3 & w3 & E3 & _).
  destruct (checkSupabaseAuth_spec env w3) as (r4 & w4 & E4 & _).
  destruct (checkSupabaseDatabase_spec env w4) as (r5 & w5 & E5 & _).
  destruct (checkSupabaseCLI_spec env supabaseCLI_checkCLIInstalled w5)
    as (r6 & w6 & E6 & _).
  exists r1, r2, r3, r4, r5, r6, w1, w2, w3, w4, w5, w6.
  repeat (split; [assumption|]).
  unfold checkAll, bind.
  rewrite (settled_returns _ _ _ _ E1), (settled_returns _ _ _ _ E2),
    (settled_returns _ _ _ _ E3), (settled_returns _ _ _ _ E4),
    (settled_returns _ _ _ _ E5), (settled_returns _ _ _ _ E6).
  reflexivity.
Qed.

(** What the six results are, in terms of the collaborators. *)
Lemma checkAll_statuses (w : World) :
  exists report w' r1 r2 r3 r4 r5 r6,
    checkAll env coolify_listApplications adminGet supabaseCLI_checkCLIInstalled w =
      (Returned report, w') /\
    checks report = [r1; r2; r3; r4; r5; r6] /\
    overall_status report = verdict (checks report) /\
    sum_total (summary report) = 6%nat /\
    sum_healthy (summary report) = count StatusHealthy (checks report) /\
    sum_unhealthy (summary report) = count StatusUnhealthy (checks report) /\
    sum_warnings (summary report) = count StatusWarning (checks report) /\
    map hc_service (checks report) =
      (criticalServices ++ ["Supabase Database"; "Supabase CLI"])%list /\
    hc_status r1 = (if succeeds coolify_listApplications (tick w)
                    then StatusHealthy else StatusUnhealthy) /\
    hc_status r2 <> StatusUnknown /\
    ((forall w0, succeeds coolify_listApplications w0 = true) ->
     hc_status r2 = StatusHealthy) /\
    (hc_status r3 = StatusHealthy \/ hc_status r3 = StatusUnhealthy) /\
    ((forall w0, returns (adminGet "/rest/v1/") w0 = true) -> hc_status r3 = StatusHealthy) /\
    ((forall w0, returns (adminGet "/rest/v1/") w0 = false) ->
     hc_status r3 = StatusUnhealthy) /\
    hc_status r4 <> StatusUnknown /\
    ((forall n msg, fault env n = Some msg ->
                    includes "401" msg = false /\ includes "JWT" msg = false) ->
     hc_status r4 <> StatusUnhealthy) /\
    (hc_status r5 = StatusHealthy \/ hc_status r5 = StatusWarning) /\
    (hc_status r6 = StatusHealthy \/ hc_status r6 = StatusWarning).
Proof.
  destruct (checkAll_runs w)
    as (r1 & r2 & r3 & r4 & r5 & r6 & w1 & w2 & w3 & w4 & w5 & w6 &
        E1 & E2 & E3 & E4 & E5 & E6 & E).
  destruct (checkCoolifyConnection_spec env coolify_listApplications w)
    as (r1' & w1' & F1 & N1 & S1).
  rewrite E1 in F1. injection F1 as <- <-.
  destruct (checkCoolifyAuth_spec env coolify_listApplications w1)
    as (r2' & w2' & F2 & N2 & K2 & S2).
  rewrite E2 in F2. injection F2 as <- <-.
  destruct (checkSupabaseConnection_spec env adminGet w2) as (r3' & w3' & F3 & N3 & S3).
  rewrite E3 in F3. injection F3 as <- <-.
  destruct (checkSupabaseAuth_spec env w3) as (r4' & w4' & F4 & N4 & _ & S4).
  rewrite E4 in F4. injection F4 as <- <-.
  destruct (checkSupabaseDatabase_spec env w4) as (r5' & w5' & F5 & N5 & S5).
  rewrite E5 in F5. injection F5 as <- <-.
  destruct (checkSupabaseCLI_spec env supabaseCLI_checkCLIInstalled w5)
    as (r6' & w6' & F6 & N6 & S6).
  rewrite E6 in F6. injection F6 as <- <-.
  eexists _, _, r1, r2, r3, r4, r5, r6. split; [exact E|]. cbn [checks overall_status summary
    sum_total sum_healthy sum_unhealthy sum_warnings].
  repeat (split; [reflexivity|]).
  split; [cbn [map]; now rewrite N1, N2, N3, N4, N5, N6|].
  split; [exact S1|].
  split; [exact K2|].
  split; [intros H; apply S2, H|].
  split; [rewrite S3; destruct (returns _ _); auto|].
  split; [intros H; now rewrite S3, H|].
  split; [intros H; now rewrite S3, H|].
  split.
  { rewrite S4. destruct (fault env (List.length (trace w3)));
      [destruct (_ && _)|]; discriminate. }
  split.
  { intros H. rewrite S4.
    destruct (fault env (List.length (trace w3))) as [msg|] eqn:F; [|discriminate].
    destruct (H _ _ F) as [-> ->]. rewrite andb_false_r. discriminate. }
  split; [rewrite S5; destruct (fault env (List.length (trace w4))); auto|].
  exact S6.
Qed.

End HealthReport.

(** X15: the report of [checkAll], whatever the collaborators do (return,
    report failure or throw).  No check is lost or rejected: the report
    lists the six services in the order of the source, none with status
    unknown, so the three counts of the summary add up to the total of 6.
    The overall status is unhealthy exactly when some check is unhealthy,
    degraded when none is unhealthy and some check warns, healthy when all
    six are healthy; and only the four connection and authentication
    checks can be unhealthy, the database and CLI checks never are. *)
Theorem checkAll_report_shape
  (env : Env)
  (coolify_listApplications : M (ToolResponse (list CoolifyApplication)))
  (adminGet : string -> M Headers)
  (supabaseCLI_checkCLIInstalled : M (ToolResponse CLIInstalled))
  (w : World) :
  exists report w',
    checkAll env coolify_listApplications adminGet supabaseCLI_checkCLIInstalled w =
      (Returned report, w') /\
    map hc_service (checks report) =
      ["Coolify Connection"; "Coolify Authentication"; "Supabase Connection";
       "Supabase Authentication"; "Supabase Database"; "Supabase CLI"] /\
    Forall (fun c => hc_status c <> StatusUnknown) (checks report) /\
    sum_total (summary report) = 6%nat /\
    (sum_healthy (summary report) + sum_unhealthy (summary report) +
     sum_warnings (summary report) = 6)%nat /\
    (overall_status report = OverallUnhealthy <->
     exists c, In c (checks report) /\ hc_status c = StatusUnhealthy) /\
    (overall_status report = OverallDegraded <->
     (forall c, In c (checks report) -> hc_status c <> StatusUnhealthy) /\
     exists c, In c (checks report) /\ hc_status c = StatusWarning) /\
    (overall_status report = OverallHealthy <->
     forall c, In c (checks report) -> hc_status c = StatusHealthy) /\
    (forall c, In c (checks report) -> hc_status c = StatusUnhealthy ->
               In (hc_service c) criticalServices).
Proof.
  destruct (checkAll_statuses env coolify_listApplications adminGet
              supabaseCLI_checkCLIInstalled w)
    as (report & w' & r1 & r2 & r3 & r4 & r5 & r6 & E & C & V & T & SH & SU & SW & N &
        S1 & K2 & _ & S3 & _ & _ & K4 & _ & S5 & S6).
  exists report, w'. split; [exact E|].
  split; [exact N|].
  assert (K : Forall (fun c => hc_status c <> StatusUnknown) (checks report)).
  { rewrite C. repeat constructor; try assumption.
    - rewrite S1. destruct (succeeds _ _); discriminate.
    - destruct S3 as [-> | ->]; discriminate.
    - destruct S5 as [-> | ->]; discriminate.
    - destruct S6 as [-> | ->]; discriminate. }
  split; [exact K|].
  split; [exact T|].
  split; [rewrite SH, SU, SW, (count_partition _ K), C; reflexivity|].
  rewrite V.
  split; [apply verdict_unhealthy|].
  split; [apply verdict_degraded|].
  split; [apply verdict_healthy, K|].
  intros c I U. rewrite C in N, I. cbn [map app criticalServices] in N.
  injection N as N1 N2 N3 N4 N5 N6.
  cbn [In] in I. unfold criticalServices. cbn [In].
  destruct I as [<- | [<- | [<- | [<- | [<- | [<- | []]]]]]]; auto.
  - destruct S5 as [S | S]; rewrite S in U; discriminate.
  - destruct S6 as [S | S]; rewrite S in U; discriminate.
Qed.

Lemma count_zero (s : HealthStatus) (cs : list HealthCheckResult) :
  (forall c, In c cs -> hc_status c <> s) -> count s cs = 0%nat.
Proof.
  intros H. destruct (0 <? count s cs)%nat eqn:E.
  - apply count_positive in E. destruct E as (c & I & S). now elim (H c I).
  - apply Nat.ltb_ge in E. lia.
Qed.

(** X16: the verification passes without SQL access and without the CLI.
    When Coolify serves the application list, the REST root of Supabase
    answers, and no error of the engine's calls mentions [401] or [JWT],
    [createVerificationReport] returns success with a report that has no
    unhealthy check, whether or not the [exec] function exists and the CLI
    is installed: the report is healthy ([All systems operational]) or
    degraded ([Some services have warnings]). *)
Theorem verification_passes_without_sql_and_cli
  (env : Env)
  (coolify_listApplications : M (ToolResponse (list CoolifyApplication)))
  (adminGet : string -> M Headers)
  (supabaseCLI_checkCLIInstalled : M (ToolResponse CLIInstalled))
  (w : World) :
  (forall w0, succeeds coolify_listApplications w0 = true) ->
  (forall w0, returns (adminGet "/rest/v1/") w0 = true) ->
  (forall n msg, fault env n = Some msg ->
                 includes "401" msg = false /\ includes "JWT" msg = false) ->
  exists report w' said,
    createVerificationReport env coolify_listApplications adminGet
      supabaseCLI_checkCLIInstalled w =
      (Returned {| success := true; data := Some report; error := None;
                   message := Some said |}, w') /\
    sum_unhealthy (summary report) = 0%nat /\
    (overall_status report = OverallHealthy /\ said = "All systems operational" \/
     overall_status report = OverallDegraded /\ said = "Some services have warnings").
Proof.
  intros H1 H2 H3.
  destruct (checkAll_statuses env coolify_listApplications adminGet
              supabaseCLI_checkCLIInstalled w)
    as (report & w' & r1 & r2 & r3 & r4 & r5 & r6 & E & C & V & T & SH & SU & SW & N &
        S1 & K2 & S2 & _ & S3 & _ & K4 & S4 & S5 & S6).
  rewrite H1 in S1. specialize (S2 H1). specialize (S3 H2). specialize (S4 H3).
  assert (Z : count StatusUnhealthy (checks report) = 0%nat).
  { apply count_zero. rewrite C. intros c I. cbn [In] in I.
    destruct I as [<- | [<- | [<- | [<- | [<- | [<- | []]]]]]];
      try (rewrite S1; discriminate); try (rewrite S2; discriminate);
      try (rewrite S3; discriminate); try exact S4.
    - destruct S5 as [-> | ->]; discriminate.
    - destruct S6 as [-> | ->]; discriminate. }
  assert (O : overall_status report =
              if (0 <? count StatusWarning (checks report))%nat
              then OverallDegraded else OverallHealthy)
    by (rewrite V; unfold verdict; now rewrite Z).
  unfold createVerificationReport, bind. rewrite E. unfold ret.
  exists report, w'.
  destruct (0 <? count StatusWarning (checks report))%nat; rewrite O;
    eexists; (split; [reflexivity|]); (split; [now rewrite SU|]);
    [right | left]; split; reflexivity.
Qed.

Lemma verification_passes_without_sql_and_cli_witness :
  exists report w' said,
    createVerificationReport noSqlAccess coolifyUp restUp cliMissing
      (initialWorld emptyDatabase) =
      (Returned {| success := true; data := Some report; error := None;
                   message := Some said |}, w') /\
    sum_unhealthy (summary report) = 0%nat /\
    (overall_status report = OverallHealthy /\ said = "All systems operational" \/
     overall_status report = OverallDegraded /\ said = "Some services have warnings").
Proof.
  apply (verification_passes_without_sql_and_cli noSqlAccess coolifyUp restUp cliMissing
           (initialWorld emptyDatabase)).
  - intros w0. reflexivity.
  - intros w0. reflexivity.
  - intros n msg F. injection F as <-. split; vm_compute; reflexivity.
Defined.

(** X17: the verification fails when a critical service is down.  When
    the application list of Coolify is not served to the connection check
    (a failure result or an exception), or the REST root of Supabase never
    answers, [createVerificationReport] returns [success = false] with the
    report as data, overall status unhealthy and the message [Critical
    services are unavailable], whatever the other collaborators do. *)
Theorem verification_fails_when_critical_service_down
  (env : Env)
  (coolify_listApplications : M (ToolResponse (list CoolifyApplication)))
  (adminGet : string -> M Headers)
  (supabaseCLI_checkCLIInstalled : M (ToolResponse CLIInstalled))
  (w : World) :
  succeeds coolify_listApplications (tick w) = false \/
  (forall w0, returns (adminGet "/rest/v1/") w0 = false) ->
  exists report w',
    createVerificationReport env coolify_listApplications adminGet
      supabaseCLI_checkCLIInstalled w =
      (Returned {| success := false; data := Some report; error := None;
                   message := Some "Critical services are unavailable" |}, w') /\
    overall_status report = OverallUnhealthy /\
    (1 <= sum_unhealthy (summary report))%nat.
Proof.
  intros H.
  destruct (checkAll_statuses env coolify_listApplications adminGet
              supabaseCLI_checkCLIInstalled w)
    as (report & w' & r1 & r2 & r3 & r4 & r5 & r6 & E & C & V & T & SH & SU & SW & N &
        S1 & K2 & _ & _ & _ & S3 & _).
  assert (P : (0 <? count StatusUnhealthy (checks report))%nat = true).
  { apply count_positive. rewrite C. destruct H as [H | H].
    - exists r1. split; [now left|]. now rewrite S1, H.
    - exists r3. split; [cbn; auto|]. apply S3, H. }
  assert (U : overall_status report = OverallUnhealthy)
    by (rewrite V; unfold verdict; now rewrite P).
  unfold createVerificationReport, bind. rewrite E. unfold ret. rewrite U.
  eexists _, _. split; [reflexivity|]. split; [exact U|].
  rewrite SU. apply Nat.ltb_lt in P. lia.
Qed.

Lemma verification_fails_when_critical_service_down_witness :
  exists report w',
    createVerificationReport healthy coolifyDown restUp cliMissing
      (initialWorld emptyDatabase) =
      (Returned {| success := false; data := Some report; error := None;
                   message := Some "Critical services are unavailable" |}, w') /\
    overall_status report = OverallUnhealthy /\
    (1 <= sum_unhealthy (summary report))%nat.
Proof.
  apply (verification_fails_when_critical_service_down healthy coolifyDown restUp cliMissing
           (initialWorld emptyDatabase)).
  left. reflexivity.
Defined.

(** X18: the authentication check of Supabase classifies by the text of
    the error.  When the select of [listMigrations] fails with a message,
    [checkSupabaseAuth] is never healthy and leaves the tables alone; it
    reports unhealthy, [Invalid service role key or expired JWT], exactly
    when the client's error objects are instances of [Error] and the
    message contains [401] or [JWT] anywhere, and otherwise the warning
    [Unable to verify authentication]; with error objects that are no
    [Error] instances the text is lost and the check always warns. *)
Theorem supabase_auth_check_reads_error_text (env : Env) (w : World) (msg : string) :
  fault env (List.length (trace w)) = Some msg ->
  exists r w',
    checkSupabaseAuth env w = (Returned r, w') /\
    db w' = db w /\
    hc_service r = "Supabase Authentication" /\
    (client_errors_are_Error env && (includes "401" msg || includes "JWT" msg) = true ->
     hc_status r = StatusUnhealthy /\
     hc_message r = "Invalid service role key or expired JWT") /\
    (client_errors_are_Error env && (includes "401" msg || includes "JWT" msg) = false ->
     hc_status r = StatusWarning /\
     hc_message r = "Unable to verify authentication").
Proof.
  intros F.
  unfold checkSupabaseAuth, listMigrations, historySelectAll, request, tryCatch, bind.
  rewrite F. unfold clientError. destruct (client_errors_are_Error env).
  - cbn [fst snd ret throw handleError failure success error andb].
    unfold errorIncludes.
    destruct (includes_after_list_prefix msg) as [-> ->].
    destruct (includes "401" msg || includes "JWT" msg);
      eexists _, _; (split; [reflexivity|]); (split; [reflexivity|]);
      (split; [reflexivity|]); split; intros X; (discriminate X || (split; reflexivity)).
  - cbn. eexists _, _; (split; [reflexivity|]); (split; [reflexivity|]);
      (split; [reflexivity|]); split; intros X; (discriminate X || (split; reflexivity)).
Qed.

Lemma supabase_auth_check_reads_error_text_witness :
  exists r w',
    checkSupabaseAuth expiredToken (initialWorld emptyDatabase) = (Returned r, w') /\
    hc_status r = StatusUnhealthy /\
    hc_message r = "Invalid service role key or expired JWT".
Proof.
  destruct (supabase_auth_check_reads_error_text expiredToken (initialWorld emptyDatabase)
              "JWT expired" eq_refl) as (r & w' & E & _ & _ & U & _).
  exists r, w'. split; [exact E|]. apply U. vm_compute. reflexivity.
Defined.

(** X19: [checkHealth] always returns success with the four services
    Database, Auth, Storage and Realtime, in this order.  The four probes
    are made one after the other, each whatever the earlier ones gave, and
    a service is healthy exactly when its probe returned and unhealthy
    exactly when it threw; what a probe returned is not read, so an error
    reply of the client (for instance for a missing [_health] table) counts
    as healthy. *)
Theorem checkHealth_probes_in_order
  (adminGet : string -> M Headers) (selectHealth listBuckets : M (Reply unit))
  (w : World) :
  exists o1 o2 o3 o4 w1 w2 w3 w4,
    selectHealth w = (o1, w1) /\
    adminGet "/auth/v1/health" w1 = (o2, w2) /\
    listBuckets w2 = (o3, w3) /\
    adminGet "/realtime/v1/health" w3 = (o4, w4) /\
    checkHealth adminGet selectHealth listBuckets w =
      (Returned (ok (Some [serviceStatus "Database" (healthOf o1);
                           serviceStatus "Auth" (healthOf o2);
                           serviceStatus "Storage" (healthOf o3);
                           serviceStatus "Realtime" (healthOf o4)]) None), w4) /\
    (forall text, o1 = Returned (Error text) -> healthOf o1 = ServiceHealthy) /\
    (forall text, o3 = Returned (Error text) -> healthOf o3 = ServiceHealthy).
Proof.
  destruct (selectHealth w) as [o1 w1] eqn:E1.
  destruct (adminGet "/auth/v1/health" w1) as [o2 w2] eqn:E2.
  destruct (listBuckets w2) as [o3 w3] eqn:E3.
  destruct (adminGet "/realtime/v1/health" w3) as [o4 w4] eqn:E4.
  exists o1, o2, o3, o4, w1, w2, w3, w4.
  repeat (split; [reflexivity || assumption|]).
  split.
  - unfold checkHealth, tryCatch, bind, ret. cbv beta. rewrite E1.
    destruct o1; rewrite E2; destruct o2; rewrite E3; destruct o3; rewrite E4;
      destruct o4; reflexivity.
  - split; intros text ->; reflexivity.
Qed.

(** * Properties of the resources *)

Section ResourceProperties.

Variable env : Env.
Variable adminGet : string -> M Headers.
Variable selectHealth : M (Reply unit).
Variable listBuckets : M (Reply unit).
Variables EdgeFunction StorageBucket SupabaseAuthConfig CoolifyService CoolifyDatabase : Type.
Variable supabase_listEdgeFunctions : M (ToolResponse (list EdgeFunction)).
Variable supabase_listStorageBuckets : M (ToolResponse (list StorageBucket)).
Variable supabase_getAuthConfig : M (ToolResponse SupabaseAuthConfig).
Variable coolify_listApplications : M (ToolResponse (list CoolifyApplication)).
Variable coolify_listServices : M (ToolResponse (list CoolifyService)).
Variable coolify_listDatabases : M (ToolResponse (list CoolifyDatabase)).

(** X20: reading [supabase://migrations] never reports a failure.  In
    every environment the handler returns the described document, never
    the error document, and changes no table; its data is the list of
    [listMigrations] when the select was served and the empty list when it
    failed, so a store that cannot be read looks like a store without
    migrations. *)
Theorem migrations_resource_hides_failure (w : World) :
  exists migrations ts w',
    readResource env adminGet selectHealth listBuckets
      EdgeFunction StorageBucket SupabaseAuthConfig CoolifyService CoolifyDatabase
      supabase_listEdgeFunctions supabase_listStorageBuckets supabase_getAuthConfig
      coolify_listApplications coolify_listServices coolify_listDatabases
      "supabase://migrations" w =
      (Returned {| rc_uri := "supabase://migrations";
                   rc_mimeType := "application/json";
                   rc_text := Described "All database migrations"
                                (MigrationsData migrations) ts |}, w') /\
    db w' = db w /\
    migrations =
      match fault env (List.length (trace w)) with
      | None => map rowToMigration (orderDesc (history (db w)))
      | Some _ => []
      end.
Proof.
  unfold readResource, tryCatch, bind. cbn [String.eqb Ascii.eqb Bool.eqb].
  unfold listMigrations, historySelectAll, request, tryCatch, bind.
  destruct (fault env (List.length (trace w))) as [msg|].
  - unfold clientError. destruct (client_errors_are_Error env);
      cbn; eexists _, _, _; (split; [reflexivity|]); split; reflexivity.
  - cbn. eexists _, _, _; (split; [reflexivity|]); split; reflexivity.
Qed.

(** X21: a URI that the resource list does not offer is answered by the
    error document [Unknown resource: <uri>], as a result and not as an
    exception, before any call to a collaborator and any reading of the
    clock: the world is unchanged. *)
Theorem unknown_resource_is_refused (uri : string) (w : World) :
  ~ In uri (map res_uri listResources) ->
  readResource env adminGet selectHealth listBuckets
      EdgeFunction StorageBucket SupabaseAuthConfig CoolifyService CoolifyDatabase
      supabase_listEdgeFunctions supabase_listStorageBuckets supabase_getAuthConfig
      coolify_listApplications coolify_listServices coolify_listDatabases
      uri w =
    (Returned {| rc_uri := uri;
                 rc_mimeType := "application/json";
                 rc_text := Errored ("Unknown resource: " ++ uri) |}, w).
Proof.
  intros H. unfold readResource.
  assert (N : forall u, In u (map res_uri listResources) -> String.eqb uri u = false).
  { intros u I. apply String.eqb_neq. intros ->. exact (H I). }
  cbn [map listResources res_uri] in N.
  rewrite !N by (cbn [In]; auto 10).
  reflexivity.
Qed.

End ResourceProperties.

Lemma unknown_resource_is_refused_witness :
  readResource healthy restUp (ret (Data tt)) (ret (Data tt))
    unit unit unit unit unit
    (ret (ok (Some []) None)) (ret (ok (Some []) None)) (ret (ok None None))
    coolifyUp (ret (ok (Some []) None)) (ret (ok (Some []) None))
    "supabase://functions" (initialWorld emptyDatabase) =
    (Returned {| rc_uri := "supabase://functions";
                 rc_mimeType := "application/json";
                 rc_text := Errored "Unknown resource: supabase://functions" |},
     initialWorld emptyDatabase).
Proof.
  apply (unknown_resource_is_refused healthy restUp (ret (Data tt)) (ret (Data tt))
           unit unit unit unit unit
           (ret (ok (Some []) None)) (ret (ok (Some []) None)) (ret (ok None None))
           coolifyUp (ret (ok (Some []) None)) (ret (ok (Some []) None))
           "supabase://functions" (initialWorld emptyDatabase)).
  cbn [map listResources res_uri In]. intros H.
  repeat (destruct H as [H | H]; [discriminate H|]). exact H.
Defined.

(** * Properties of the deployment tools *)

(** ** Objects *)

Lemma get_set_same (k v : string) (o : Dict) : get k (set k v o) = Some v.
Proof.
  induction o as [|[k' v'] o IH]; cbn [set get].
  - now rewrite String.eqb_refl.
  - destruct (String.eqb k' k) eqn:E; cbn [get]; [now rewrite String.eqb_refl|].
    now rewrite E.
Qed.

Lemma get_set_other (k k' v : string) (o : Dict) :
  k' <> k -> get k' (set k v o) = get k' o.
Proof.
  intros N. induction o as [|[k0 v0] o IH]; cbn [set get].
  - apply String.eqb_neq in N. now rewrite String.eqb_sym, N.
  - destruct (String.eqb k0 k) eqn:E; cbn [get].
    + apply String.eqb_eq in E. subst k0.
      assert (F : String.eqb k k' = false) by (apply String.eqb_neq; congruence).
      now rewrite F.
    + now rewrite IH.
Qed.


Lemma get_None_keys (k : string) (o : Dict) : get k o = None <-> ~ In k (map fst o).
Proof.
  induction o as [|[k' v'] o IH]; cbn [get map fst In]; [tauto|].
  destruct (String.eqb k' k) eqn:E.
  - apply String.eqb_eq in E. split; [discriminate | intros H; elim H; now left].
  - apply String.eqb_neq in E. rewrite IH. tauto.
Qed.

(** Reading after [Object.assign]: the source wins over the target. *)
Lemma get_assign (k : string) (target source : Dict) :
  distinctKeys source ->
  get k (assign target source) =
    match get k source with Some v => Some v | None => get k target end.
Proof.
  unfold distinctKeys, assign. revert target.
  induction source as [|[k1 v1] s IH]; intros target D; [reflexivity|].
  cbn [fold_left fst snd get]. inversion D as [|? ? N D']; subst.
  rewrite (IH _ D'). cbn [map fst] in N.
  destruct (String.eqb k1 k) eqn:E.
  - apply String.eqb_eq in E. subst k1.
    apply get_None_keys in N. rewrite N. apply get_set_same.
  - destruct (get k s); [reflexivity|].
    apply get_set_other. apply String.eqb_neq in E. congruence.
Qed.



(** ** Generated secrets *)

Lemma fold_append {A} (f : A -> string) (l : list A) (acc : string) :
  fold_left (fun s a => s ++ f a) l acc =
    acc ++ fold_left (fun s a => s ++ f a) l EmptyString.
Proof.
  revert acc. induction l as [|a l IH]; intros acc; cbn [fold_left].
  - now rewrite append_empty_r.
  - rewrite IH. rewrite (IH (EmptyString ++ f a)). cbn [append]. now rewrite append_assoc.
Qed.

Lemma passwordOf_cons (value : Z) (array : list Z) :
  passwordOf (value :: array) = passwordOf [value] ++ passwordOf array.
Proof.
  unfold passwordOf. cbn [fold_left]. now rewrite fold_append.
Qed.

Lemma charset_positions :
  forallb (fun n => match String.get n charset with
                    | Some c => existsb (Ascii.eqb c) (Js.chars charset) &&
                                negb (Ascii.eqb "." c)
                    | None => false
                    end) (seq 0 70) = true.
Proof. vm_compute. reflexivity. Qed.

Lemma passwordOf_one (value : Z) :
  exists c, passwordOf [value] = String c EmptyString /\
            In c (Js.chars charset) /\ c <> "."%char.
Proof.
  unfold passwordOf. cbn [fold_left append]. unfold charAt.
  change (Z.of_nat (String.length charset)) with 70.
  assert (R : (Z.to_nat (value mod 70) < 70)%nat).
  { pose proof (Z.mod_pos_bound value 70 eq_refl). lia. }
  pose proof (proj1 (forallb_forall _ _) charset_positions (Z.to_nat (value mod 70))) as P.
  cbv beta in P. specialize (P (proj2 (in_seq _ _ _) (conj (Nat.le_0_l _) R))).
  destruct (String.get (Z.to_nat (value mod 70)) charset) as [c|]; [|discriminate P].
  apply andb_true_iff in P. destruct P as [P Q].
  exists c. split; [reflexivity|]. split.
  - apply existsb_exists in P. destruct P as (x & I & E).
    apply Ascii.eqb_eq in E. now subst x.
  - intros ->. discriminate Q.
Qed.

Lemma passwordOf_spec (array : list Z) :
  String.length (passwordOf array) = List.length array /\
  Forall (fun c => In c (Js.chars charset)) (Js.chars (passwordOf array)) /\
  dots (passwordOf array) = 0%nat.
Proof.
  induction array as [|value array (L & F & D)].
  - repeat split. constructor.
  - rewrite passwordOf_cons. destruct (passwordOf_one value) as (c & -> & I & N).
    cbn [append String.length Js.chars List.length]. split; [now rewrite L|].
    split; [now constructor|].
    unfold dots in *. cbn [Js.chars filter].
    destruct (Ascii.eqb "." c) eqn:E; [|exact D].
    apply Ascii.eqb_eq in E. now elim N.
Qed.

(** X22: [generateSecurePassword(length)] draws [length] fresh random
    values and returns a password of exactly [length] characters, all of
    them from the 70 characters of the charset; it sends no request.  A
    second password is made from the values that follow, never from the
    same ones. *)
Theorem generateSecurePassword_charset (cenv : CoolifyEnv) (length : nat) (w : CoolifyWorld) :
  exists password,
    generateSecurePassword cenv length w =
      (Returned password, {| sent := sent w; drawn := (drawn w + length)%nat |}) /\
    password = passwordOf (map (fun i => entropy cenv i mod 256) (seq (drawn w) length)) /\
    String.length password = length /\
    Forall (fun c => In c (Js.chars charset)) (Js.chars password).
Proof.
  eexists. split; [reflexivity|]. split; [reflexivity|].
  destruct (passwordOf_spec (map (fun i => entropy cenv i mod 256) (seq (drawn w) length)))
    as (L & F & _).
  split; [|exact F]. now rewrite L, length_map, length_seq.
Qed.

Lemma get_beyond (s : string) (n : nat) :
  (String.length s <= n)%nat -> String.get n s = None.
Proof.
  revert n. induction s as [|c s IH]; intros n H; [now destruct n|].
  destruct n as [|n]; cbn [String.length] in H; [lia|].
  cbn [String.get]. apply IH. lia.
Qed.

Lemma preimages_table :
  forallb (fun n => match String.get n charset with
                    | Some c => Nat.eqb (preimages c) (if (n <? 46)%nat then 4 else 3)
                    | None => false
                    end) (seq 0 70) = true.
Proof. vm_compute. reflexivity. Qed.

(** X23: the characters of a password are not equally likely.  Of the 256
    values a random byte can take, four select each of the first 46
    characters of the charset ([A] to [t]) and three select each of the
    other 24 ([u] to [*]): the value is reduced modulo 70, and 256 is not
    a multiple of 70. *)
Theorem password_characters_are_biased (n : nat) (c : ascii) :
  String.get n charset = Some c ->
  preimages c = if (n <? 46)%nat then 4%nat else 3%nat.
Proof.
  intros G.
  assert (R : (n < 70)%nat).
  { destruct (Nat.lt_ge_cases n 70) as [H | H]; [exact H|].
    rewrite (get_beyond charset n H) in G. discriminate G. }
  pose proof (proj1 (forallb_forall _ _) preimages_table n
                (proj2 (in_seq _ _ _) (conj (Nat.le_0_l _) R))) as P.
  cbv beta in P. rewrite G in P. now apply Nat.eqb_eq in P.
Qed.

Lemma password_characters_are_biased_witness :
  preimages "A" = 4%nat /\ preimages "*" = 3%nat.
Proof.
  split.
  - exact (password_characters_are_biased 0 "A" eq_refl).
  - exact (password_characters_are_biased 69 "*" eq_refl).
Defined.

Lemma dots_append (a b : string) : dots (a ++ b) = (dots a + dots b)%nat.
Proof.
  unfold dots. rewrite chars_append, filter_app, length_app. reflexivity.
Qed.

Lemma alphabet_positions :
  forallb (fun n => match String.get n base64Alphabet with
                    | Some c => negb (Ascii.eqb "." c)
                    | None => false
                    end) (seq 0 64) = true.
Proof. vm_compute. reflexivity. Qed.

Lemma dots_sextet (n : Z) : dots (sextet n) = 0%nat.
Proof.
  unfold sextet. destruct (Nat.lt_ge_cases (Z.to_nat n) 64) as [H | H].
  - pose proof (proj1 (forallb_forall _ _) alphabet_positions (Z.to_nat n)
                  (proj2 (in_seq _ _ _) (conj (Nat.le_0_l _) H))) as P.
    cbv beta in P. destruct (String.get (Z.to_nat n) base64Alphabet) as [c|];
      [|reflexivity].
    unfold dots. cbn [Js.chars filter]. apply negb_true_iff in P. now rewrite P.
  - now rewrite (get_beyond base64Alphabet _ H).
Qed.

Lemma dots_base64 (bytes : list Z) : dots (base64 bytes) = 0%nat.
Proof.
  assert (G : forall k bytes, (List.length bytes <= k)%nat -> dots (base64 bytes) = 0%nat).
  { induction k as [|k IH]; intros [|a [|b [|c rest]]] L; cbn [List.length] in L;
      try lia; cbn [base64]; rewrite ?dots_append, ?dots_sextet; try reflexivity.
    rewrite IH by lia. reflexivity. }
  now apply (G (List.length bytes)).
Qed.

(** X24: a key of [generateSupabaseKey] is the text [eyJ], the base64 of
    the role, one dot and a fresh password of 32 characters made from the
    next 32 random values.  Whatever the role and the random values, it
    has exactly one dot, where a signed JWT has two; the role and the
    random values are all it is computed from. *)
Theorem generateSupabaseKey_has_one_dot
  (cenv : CoolifyEnv) (role : string) (w : CoolifyWorld) :
  exists password,
    generateSupabaseKey cenv role w =
      (Returned ("eyJ" ++ base64 (bufferFrom role) ++ "." ++ password),
       {| sent := sent w; drawn := (drawn w + 32)%nat |}) /\
    password = passwordOf (map (fun i => entropy cenv i mod 256) (seq (drawn w) 32)) /\
    String.length password = 32%nat /\
    dots ("eyJ" ++ base64 (bufferFrom role) ++ "." ++ password) = 1%nat.
Proof.
  eexists. split; [reflexivity|]. split; [reflexivity|].
  destruct (passwordOf_spec (map (fun i => entropy cenv i mod 256) (seq (drawn w) 32)))
    as (L & _ & D).
  split; [now rewrite L, length_map, length_seq|].
  rewrite !dots_append, dots_base64, D. reflexivity.
Qed.

(** ** The deployment handlers *)


Lemma handleError_fails {T} (e : Thrown) (text : string) :
  success (handleError (T := T) e text) = false.
Proof. destruct e; reflexivity. Qed.

Lemma createApplication_run (cenv : CoolifyEnv) (body : PartialApplication) (w : CoolifyWorld) :
  createApplication cenv body w =
    (Returned match answer cenv (List.length (sent w)) (PostApplications body) with
              | Resolved response_data =>
                  {| success := true; data := response_data; error := None;
                     message := Some "Application created successfully" |}
              | Rejected e => handleError e "Failed to create application"
              end,
     {| sent := (sent w ++ [PostApplications body])%list; drawn := drawn w |}).
Proof.
  unfold createApplication, tryCatchC, bindC, send, retC.
  now destruct (answer cenv _ _).
Qed.


Lemma updateApplicationEnv_run (cenv : CoolifyEnv) (uuid : string) (environment : Dict)
  (w : CoolifyWorld) :
  exists result,
    updateApplicationEnv cenv uuid environment w =
      (Returned result,
       {| sent := (sent w ++ [PatchApplicationEnv uuid environment])%list;
          drawn := drawn w |}) /\
    (success result = true ->
     result = ok None (Some "Environment variables updated successfully")) /\
    success result =
      match answer cenv (List.length (sent w)) (PatchApplicationEnv uuid environment) with
      | Resolved _ => true
      | Rejected _ => false
      end.
Proof.
  unfold updateApplicationEnv, tryCatchC, bindC, send, retC.
  destruct (answer cenv _ _) as [d|e]; eexists; (split; [reflexivity|]).
  - split; reflexivity.
  - rewrite handleError_fails. split; [discriminate | reflexivity].
Qed.

Lemma applicationAction_run (cenv : CoolifyEnv) (uuid : string) (w : CoolifyWorld) :
  (exists result,
     deployApplication cenv uuid w =
       (Returned result,
        {| sent := (sent w ++ [PostApplicationAction uuid "deploy"])%list;
           drawn := drawn w |}) /\
     success result =
       match answer cenv (List.length (sent w)) (PostApplicationAction uuid "deploy") with
       | Resolved _ => true
       | Rejected _ => false
       end) /\
  (exists result,
     restartApplication cenv uuid w =
       (Returned result,
        {| sent := (sent w ++ [PostApplicationAction uuid "restart"])%list;
           drawn := drawn w |}) /\
     success result =
       match answer cenv (List.length (sent w)) (PostApplicationAction uuid "restart") with
       | Resolved _ => true
       | Rejected _ => false
       end).
Proof.
  unfold deployApplication, restartApplication, tryCatchC, bindC, send, retC.
  split; destruct (answer cenv _ _) as [d|e]; eexists; (split; [reflexivity|]);
    try reflexivity; apply handleError_fails.
Qed.

(** The secrets and the environment [deploy_supabase_to_coolify] makes
    from the random values that follow [drawn]. *)
Lemma deploy_after_creation (cenv : CoolifyEnv) (name : string)
  (config_arg : option SupabaseDeploymentConfig) (w : CoolifyWorld) (app : CoolifyApplication) :
  answer cenv (List.length (sent w)) (creation name) = Resolved (Some app) ->
  exists (envVars : Dict) (sentEnv deployed : bool) (resp : ToolResponse Deployment),
    deploy_supabase_to_coolify cenv name config_arg w =
      (Returned resp,
       {| sent :=
            (sent w ++
             creation name :: PatchApplicationEnv (app_uuid app) envVars ::
             (if sentEnv then [PostApplicationAction (app_uuid app) "deploy"] else []))%list;
          drawn := (drawn w + 160)%nat |}) /\
    envVars =
      assign
        [("POSTGRES_VERSION", Js.orElse (postgres_version (configOf config_arg)) "15");
         ("POSTGRES_PASSWORD",
          passwordOf (map (fun i => entropy cenv i mod 256) (seq (drawn w) 32)));
         ("JWT_SECRET",
          passwordOf (map (fun i => entropy cenv i mod 256) (seq (drawn w + 32) 64)));
         ("ANON_KEY",
          "eyJ" ++ base64 (bufferFrom "anon") ++ "." ++
          passwordOf (map (fun i => entropy cenv i mod 256) (seq (drawn w + 32 + 64) 32)));
         ("SERVICE_ROLE_KEY",
          "eyJ" ++ base64 (bufferFrom "service_role") ++ "." ++
          passwordOf (map (fun i => entropy cenv i mod 256)
                        (seq (drawn w + 32 + 64 + 32) 32)));
         ("SITE_URL",
          Js.orElse (custom_domain (configOf config_arg))
            (Js.orElse (SUPABASE_URL cenv) ("https://" ++ name ++ ".coolify.app")));
         ("ENABLE_REALTIME", unlessFalse (enable_realtime (configOf config_arg)));
         ("ENABLE_STORAGE", unlessFalse (enable_storage (configOf config_arg)));
         ("ENABLE_AUTH", unlessFalse (enable_auth (configOf config_arg)));
         ("ENABLE_REST", unlessFalse (enable_rest (configOf config_arg)));
         ("ENABLE_GRAPHQL", unlessFalse (enable_graphql (configOf config_arg)))]
        (variablesOf (configOf config_arg)) /\
    sentEnv =
      match answer cenv (S (List.length (sent w)))
              (PatchApplicationEnv (app_uuid app) envVars) with
      | Resolved _ => true
      | Rejected _ => false
      end /\
    deployed =
      match answer cenv (S (S (List.length (sent w))))
              (PostApplicationAction (app_uuid app) "deploy") with
      | Resolved _ => true
      | Rejected _ => false
      end /\
    resp =
      if negb sentEnv then failure "Failed to configure environment variables"
      else if negb deployed then failure "Failed to deploy Supabase"
      else ok (Some {| dep_uuid := app_uuid app;
                       dep_name := name;
                       dep_status := "deploying";
                       dep_credentials :=
                         {| postgres_password := get "POSTGRES_PASSWORD" envVars;
                            jwt_secret := get "JWT_SECRET" envVars;
                            anon_key := get "ANON_KEY" envVars;
                            service_role_key := get "SERVICE_ROLE_KEY" envVars |} |})
              (Some "Supabase deployment started successfully. Save the credentials securely!").
Proof.
  intros A.
  unfold deploy_supabase_to_coolify, tryCatchC, bindC.
  rewrite createApplication_run. fold (creation name). rewrite A.
  cbn [success data].
  unfold generateSupabaseKey, generateSecurePassword, getRandomValues, bindC, retC.
  cbn [sent drawn].
  fold (configOf config_arg). fold (variablesOf (configOf config_arg)).
  match goal with
  | |- context [updateApplicationEnv cenv ?u ?e ?w0] =>
      set (envVars := e);
      destruct (updateApplicationEnv_run cenv u envVars w0) as (r2 & E2 & _ & S2)
  end.
  rewrite E2. cbn [sent drawn] in S2. rewrite length_app in S2. cbn [List.length] in S2.
  rewrite Nat.add_1_r in S2.
  exists envVars.
  destruct (answer cenv (S (List.length (sent w)))
              (PatchApplicationEnv (app_uuid app) envVars)) as [d2|e2]; rewrite S2; cbn [negb].
  - match goal with
    | |- context [deployApplication cenv ?u ?w0] =>
        destruct (proj1 (applicationAction_run cenv u w0)) as (r3 & E3 & S3)
    end.
    rewrite E3. cbn [sent drawn] in S3. rewrite !length_app in S3. cbn [List.length] in S3.
    replace (List.length (sent w) + 1 + 1)%nat with (S (S (List.length (sent w)))) in S3 by lia.
    destruct (answer cenv (S (S (List.length (sent w))))
                (PostApplicationAction (app_uuid app) "deploy")) as [d3|e3];
      rewrite S3; cbn [negb].
    + exists true, true. eexists. split.
      * apply f_equal2; [reflexivity|]. cbn [sent drawn].
        f_equal; [rewrite <- !app_assoc; reflexivity | lia].
      * repeat split; reflexivity.
    + exists true, false. eexists. split.
      * apply f_equal2; [reflexivity|]. cbn [sent drawn].
        f_equal; [rewrite <- !app_assoc; reflexivity | lia].
      * repeat split; reflexivity.
  - exists false.
    exists match answer cenv (S (S (List.length (sent w))))
                   (PostApplicationAction (app_uuid app) "deploy") with
           | Resolved _ => true
           | Rejected _ => false
           end.
    eexists. split.
    + apply f_equal2; [reflexivity|]. cbn [sent drawn].
        f_equal; [rewrite <- !app_assoc; reflexivity | lia].
    + repeat split; reflexivity.
Qed.

(** X25: [deploy_supabase_to_coolify] returns in every environment, never
    with [Deployment failed], and goes through its three steps in order:
    the application is created; only when the creation was answered with
    an application are the secrets generated (160 random values) and the
    environment sent, to the application that was created; only when the
    environment was accepted is the deployment requested.  A step that
    fails ends the call with the failure text of that step, and the
    application created before is left in place: no request removes it. *)
Theorem deployment_steps_in_order
  (cenv : CoolifyEnv) (name : string) (config_arg : option SupabaseDeploymentConfig)
  (w : CoolifyWorld) :
  exists resp w' requests,
    deploy_supabase_to_coolify cenv name config_arg w = (Returned resp, w') /\
    sent w' = (sent w ++ requests)%list /\
    ((requests = [creation name] /\
      resp = failure "Failed to create Supabase application" /\
      drawn w' = drawn w)
     \/
     exists app envVars,
       answer cenv (List.length (sent w)) (creation name) = Resolved (Some app) /\
       drawn w' = (drawn w + 160)%nat /\
       ((requests = [creation name; PatchApplicationEnv (app_uuid app) envVars] /\
         resp = failure "Failed to configure environment variables")
        \/
        (requests = [creation name; PatchApplicationEnv (app_uuid app) envVars;
                     PostApplicationAction (app_uuid app) "deploy"] /\
         (resp = failure "Failed to deploy Supabase" \/
          success resp = true /\
          message resp =
            Some "Supabase deployment started successfully. Save the credentials securely!")))).
Proof.
  destruct (answer cenv (List.length (sent w)) (creation name)) as [[app|]|e] eqn:A.
  - destruct (deploy_after_creation cenv name config_arg w app A)
      as (envVars & sentEnv & deployed & resp & E & _ & _ & _ & R).
    eexists _, _, _. split; [exact E|]. cbn [sent drawn]. split; [reflexivity|].
    right. exists app, envVars. split; [reflexivity|]. split; [reflexivity|].
    destruct sentEnv; cbn [negb] in R.
    + right. split; [reflexivity|]. destruct deployed; cbn [negb] in R; subst resp; auto.
    + left. split; [reflexivity | exact R].
  - unfold deploy_supabase_to_coolify, tryCatchC, bindC.
    rewrite createApplication_run. fold (creation name). rewrite A.
    eexists _, _, _. split; [reflexivity|]. split; [reflexivity|]. left. auto.
  - unfold deploy_supabase_to_coolify, tryCatchC, bindC.
    rewrite createApplication_run. fold (creation name). rewrite A.
    rewrite handleError_fails.
    eexists _, _, _. split; [reflexivity|]. split; [reflexivity|]. left. auto.
Qed.

(** X26: the environment and the credentials of a deployment.  When the
    creation is answered with an application, the environment sent to it
    gives every entry of the configuration's [environment_variables]
    precedence over the values of the tool, the generated secrets included;
    without such an entry the PostgreSQL version is the configured one or
    15, each of the five feature switches, GraphQL included, is [true]
    unless the configuration sets it to false, and the two passwords have
    32 and 64 characters.  The credentials of a successful result are read
    from the environment that was sent, so they are the values Coolify
    received also when the configuration overrides them. *)
Theorem deployment_credentials_match_environment
  (cenv : CoolifyEnv) (name : string) (config_arg : option SupabaseDeploymentConfig)
  (w : CoolifyWorld) (app : CoolifyApplication) :
  answer cenv (List.length (sent w)) (creation name) = Resolved (Some app) ->
  distinctKeys (variablesOf (configOf config_arg)) ->
  exists envVars resp w',
    deploy_supabase_to_coolify cenv name config_arg w = (Returned resp, w') /\
    nth_error (sent w') (S (List.length (sent w))) =
      Some (PatchApplicationEnv (app_uuid app) envVars) /\
    (forall k v, get k (variablesOf (configOf config_arg)) = Some v ->
                 get k envVars = Some v) /\
    (get "POSTGRES_VERSION" (variablesOf (configOf config_arg)) = None ->
     get "POSTGRES_VERSION" envVars =
       Some (Js.orElse (postgres_version (configOf config_arg)) "15")) /\
    Forall (fun switch =>
              get (fst switch) (variablesOf (configOf config_arg)) = None ->
              get (fst switch) envVars = Some (unlessFalse (snd switch)))
      [("ENABLE_REALTIME", enable_realtime (configOf config_arg));
       ("ENABLE_STORAGE", enable_storage (configOf config_arg));
       ("ENABLE_AUTH", enable_auth (configOf config_arg));
       ("ENABLE_REST", enable_rest (configOf config_arg));
       ("ENABLE_GRAPHQL", enable_graphql (configOf config_arg))] /\
    (get "POSTGRES_PASSWORD" (variablesOf (configOf config_arg)) = None ->
     exists password, get "POSTGRES_PASSWORD" envVars = Some password /\
                      String.length password = 32%nat) /\
    (get "JWT_SECRET" (variablesOf (configOf config_arg)) = None ->
     exists password, get "JWT_SECRET" envVars = Some password /\
                      String.length password = 64%nat) /\
    (success resp = true ->
     exists deployment,
       data resp = Some deployment /\
       dep_uuid deployment = app_uuid app /\
       dep_status deployment = "deploying" /\
       dep_credentials deployment =
         {| postgres_password := get "POSTGRES_PASSWORD" envVars;
            jwt_secret := get "JWT_SECRET" envVars;
            anon_key := get "ANON_KEY" envVars;
            service_role_key := get "SERVICE_ROLE_KEY" envVars |}).
Proof.
  intros A D.
  destruct (deploy_after_creation cenv name config_arg w app A)
    as (envVars & sentEnv & deployed & resp & E & V & _ & _ & R).
  exists envVars, resp. eexists. split; [exact E|]. cbn [sent].
  split.
  { rewrite nth_error_app2 by lia.
    replace (S (List.length (sent w)) - List.length (sent w))%nat with 1%nat by lia.
    reflexivity. }
  match type of V with _ = assign ?l _ => set (literal := l) in V end.
  assert (G : forall k, get k envVars =
                        match get k (variablesOf (configOf config_arg)) with
                        | Some v => Some v
                        | None => get k literal
                        end)
    by (intros k; rewrite V; apply (get_assign k _ _ D)).
  split; [intros k v H; now rewrite G, H|].
  split; [intros H; now rewrite G, H|].
  split; [repeat constructor; cbn [fst snd]; intros H; now rewrite G, H|].
  split.
  { intros H. rewrite G, H. unfold literal. cbn [get String.eqb Ascii.eqb Bool.eqb].
    eexists. split; [reflexivity|].
    destruct (passwordOf_spec (map (fun i => entropy cenv i mod 256) (seq (drawn w) 32)))
      as (L & _). now rewrite L, length_map, length_seq. }
  split.
  { intros H. rewrite G, H. unfold literal. cbn [get String.eqb Ascii.eqb Bool.eqb].
    eexists. split; [reflexivity|].
    destruct (passwordOf_spec (map (fun i => entropy cenv i mod 256)
                                 (seq (drawn w + 32) 64)))
      as (L & _). now rewrite L, length_map, length_seq. }
  intros S. rewrite R in *.
  destruct sentEnv; cbn [negb] in *; [|discriminate S].
  destruct deployed; cbn [negb] in *; [|discriminate S].
  eexists. split; [reflexivity|]. repeat split; reflexivity.
Qed.

Lemma deployment_credentials_match_environment_witness :
  exists envVars resp w',
    deploy_supabase_to_coolify coolifyServing "demo"
      (Some {| postgres_version := None; enable_realtime := None; enable_storage := None;
               enable_auth := None; enable_rest := None; enable_graphql := None;
               custom_domain := None;
               environment_variables := Some [("JWT_SECRET", "my-own-secret")] |})
      freshCoolify = (Returned resp, w') /\
    nth_error (sent w') 1 = Some (PatchApplicationEnv "a1b2c3" envVars) /\
    get "JWT_SECRET" envVars = Some "my-own-secret" /\
    get "ENABLE_GRAPHQL" envVars = Some "true".
Proof.
  destruct (deployment_credentials_match_environment coolifyServing "demo"
              (Some {| postgres_version := None; enable_realtime := None;
                       enable_storage := None; enable_auth := None; enable_rest := None;
                       enable_graphql := None; custom_domain := None;
                       environment_variables := Some [("JWT_SECRET", "my-own-secret")] |})
              freshCoolify supabaseApp eq_refl)
    as (envVars & resp & w' & E & N & U & _ & F & _).
  - repeat constructor. intros [].
  - exists envVars, resp, w'. split; [exact E|]. split; [exact N|].
    split; [apply U; reflexivity|].
    rewrite Forall_forall in F.
    apply (F ("ENABLE_GRAPHQL", None)); [cbn [In]; auto 10 | reflexivity].
Defined.




(** * The count of [rollback_last_migrations] *)

(** X28: [rollback_last_migrations] does not validate its count.
    validation.ts declares [rollbackLastMigrationsSchema] (an integer from
    1 to 100), but the handler hands the count to the engine as it is: for
    every count, also 0 and counts above 100 that the schema refuses, the
    first call is the select of the last [count] rows of the History
    Store, and the answer is an ordinary result with [isError] false. *)
Theorem count_is_not_validated (env : Env) (count : nat) (w : World) :
  exists r w' answered rest,
    callTool (rollback_last_migrations env {| ca_count := Some count |}) w =
      (Returned {| content := r; isError := false |}, w') /\
    trace w' = (trace w ++ (HistorySelectLast count, answered) :: rest)%list /\
    accepts rollbackLastMigrationsSchema {| ca_count := Some count |} =
      ((1 <=? count)%nat && (count <=? 100)%nat).
Proof.
  assert (S : accepts rollbackLastMigrationsSchema {| ca_count := Some count |} =
              ((1 <=? count)%nat && (count <=? 100)%nat)).
  { unfold accepts, rollbackLastMigrationsSchema. cbn [ca_count].
    destruct (1 <=? count)%nat, (count <=? 100)%nat; reflexivity. }
  unfold callTool, rollback_last_migrations, rollbackLastMigrations, tryCatch, bind,
    historySelectLast, request. cbn [ca_count].
  destruct (fault env (List.length (trace w))) as [msg|].
  - cbn. eexists _, _, false, []. split; [reflexivity|]. split; [reflexivity | exact S].
  - cbn [fst snd isData].
    destruct (List.length (firstn count (orderDesc (history (db w)))) =? 0)%nat.
    + cbn. eexists _, _, true, []. split; [reflexivity|]. split; [reflexivity | exact S].
    + match goal with
      | |- context [deleteEach env ?ms ?acc ?w1] =>
          destruct (deleteEach_effect env ms acc w1) as (evs & w' & E & T & _)
      end.
      rewrite E. cbn [trace] in T. cbn [ret].
      eexists _, w', true, evs. split; [reflexivity|].
      split; [rewrite T, <- app_assoc; reflexivity | exact S].
Qed.
